(** * FitMania AI: the exercise analysis engine of [LiveAiScreen]

    A shallow embedding of the pose-analysis code of the live screen, in
    its version with the coaching calls (the component that follows the
    route handler in [src/app/api/mistral/route.ts]; [src/app/page.tsx] is
    the same component without them): the angle helper, the five
    per-exercise analysis functions, the coaching request path, the timer
    effect and the frame callback.

    Numbers.  Landmark coordinates, visibilities and angles are JavaScript
    numbers; they are modelled as real numbers ([R]), with [Math.atan2]
    given its mathematical definition.  Counters ([repCount], [timer],
    [lastAITrigger]) only ever hold integers and are modelled in [Z]:
    [%] is [Z.rem] and [Math.floor (a / b)] is [Z.div].

    State.  The component keeps React state (read by a function as the
    value of the render that created the function, written through a
    setter) and one mutable ref.  [Store] holds the current value of every
    cell; [Render] is the snapshot of the state cells that the functions of
    one render close over. *)

From Stdlib Require Import Reals Lra ZArith Lia List String Bool DecimalString.
Import ListNotations.

Local Open Scope string_scope.
Local Open Scope list_scope.
Local Open Scope Z_scope.
Local Open Scope R_scope.

(** ** Numeric helpers *)

(** JavaScript [a < b] on numbers, as a boolean. *)
Definition Rltb (a b : R) : bool := if Rlt_dec a b then true else false.

(** JavaScript [a <= b] on numbers, as a boolean. *)
Definition Rleb (a b : R) : bool := if Rle_dec a b then true else false.

(** [Math.atan2 (y, x)]: the argument of the point [(x, y)], in (-PI, PI]. *)
Definition atan2 (py px : R) : R :=
  if Rlt_dec 0 px then atan (py / px)
  else if Rlt_dec px 0 then
    if Rle_dec 0 py then atan (py / px) + PI else atan (py / px) - PI
  else if Rlt_dec 0 py then PI / 2
  else if Rlt_dec py 0 then - (PI / 2)
  else 0.

(** [n.toFixed(0)]: the nearest integer, ties upwards, in decimal. *)
Definition toFixed0 (n : R) : string :=
  NilZero.string_of_int (Z.to_int (up (n - / 2) )).

(** ** Data model *)

(** [type Landmark = { x; y; z; visibility }]. *)
Record Landmark : Type := mkLandmark
  { x : R; y : R; z : R; visibility : R }.

(** [type Exercise]. *)
Inductive Exercise : Type := Strength | Cardio | Yoga | HIIT | Running.

(** The values of [aiStatus]. *)
Inductive AiStatus : Type := loading | ready | error.

(** The values stored in [exerciseStateRef.current.stage]. *)
Inductive Stage : Type := start | down | up | left_up | right_up.

Definition Stage_eqb (a b : Stage) : bool :=
  match a, b with
  | start, start | down, down | up, up
  | left_up, left_up | right_up, right_up => true
  | _, _ => false
  end.

Definition Exercise_eqb (a b : Exercise) : bool :=
  match a, b with
  | Strength, Strength | Cardio, Cardio | Yoga, Yoga
  | HIIT, HIIT | Running, Running => true
  | _, _ => false
  end.

Definition AiStatus_eqb (a b : AiStatus) : bool :=
  match a, b with
  | loading, loading | ready, ready | error, error => true
  | _, _ => false
  end.

(** A frame: [results.poseLandmarks], an array whose entries may be absent. *)
Definition Landmarks : Type := list (option Landmark).

(** [l[i]]: absent when the index is out of range or the entry is. *)
Definition at_index (l : Landmarks) (i : nat) : option Landmark :=
  match nth_error l i with
  | Some (Some p) => Some p
  | _ => None
  end.

(** ** Geometry *)

(** [calculateAngle (a, b, c)]. *)
Definition calculateAngle (a b c : option Landmark) : R :=
  match a, b, c with
  | Some a', Some b', Some c' =>
      let radians :=
        atan2 (y c' - y b') (x c' - x b') - atan2 (y a' - y b') (x a' - x b') in
      let angle := Rabs ((radians * 180) / PI) in
      if Rlt_dec 180 angle then 360 - angle else angle
  | _, _, _ => 0
  end.

(** ** Session state *)

(** The argument of [getAICoaching]. *)
Module Context.
Record t : Type := mk
  { exercise : Exercise;
    reps : option Z;
    timer : option Z;
    detectedIssue : string;
    poseData : string }.
End Context.

(** Every mutable cell of the component, and its two outgoing traces. *)
Record Store : Type := mkStore
  { (* exerciseStateRef.current *)
    stage : Stage;
    lastAITrigger : Z;
    (* useState cells *)
    aiStatus : AiStatus;
    feedback : string;
    activeExercise : Exercise;
    aiCoachMessage : string;
    isLoadingAI : bool;
    repCount : Z;
    timer : Z;
    isPoseCorrect : bool;
    (* the timer effect's setInterval handle is live *)
    interval : bool;
    (* the calls of getAICoaching so far, oldest first *)
    coachingCalls : list Context.t;
    (* the requests sent by callMistralAPI that have not settled yet *)
    inFlight : list Context.t }.

(** The state values that the functions created by one render read. *)
Module Render.
Record t : Type := mk
  { aiStatus : AiStatus;
    activeExercise : Exercise;
    isLoadingAI : bool;
    timer : Z;
    isPoseCorrect : bool }.
End Render.

(** The snapshot a render takes of the current state. *)
Definition render_of (st : Store) : Render.t :=
  Render.mk (aiStatus st) (activeExercise st) (isLoadingAI st) (timer st)
    (isPoseCorrect st).

(** *** Writes *)

Definition setStage (v : Stage) (st : Store) : Store :=
  mkStore v (lastAITrigger st) (aiStatus st) (feedback st) (activeExercise st)
    (aiCoachMessage st) (isLoadingAI st) (repCount st) (timer st)
    (isPoseCorrect st) (interval st) (coachingCalls st) (inFlight st).

Definition setLastAITrigger (v : Z) (st : Store) : Store :=
  mkStore (stage st) v (aiStatus st) (feedback st) (activeExercise st)
    (aiCoachMessage st) (isLoadingAI st) (repCount st) (timer st)
    (isPoseCorrect st) (interval st) (coachingCalls st) (inFlight st).

Definition setAiStatus (v : AiStatus) (st : Store) : Store :=
  mkStore (stage st) (lastAITrigger st) v (feedback st) (activeExercise st)
    (aiCoachMessage st) (isLoadingAI st) (repCount st) (timer st)
    (isPoseCorrect st) (interval st) (coachingCalls st) (inFlight st).

Definition setFeedback (v : string) (st : Store) : Store :=
  mkStore (stage st) (lastAITrigger st) (aiStatus st) v (activeExercise st)
    (aiCoachMessage st) (isLoadingAI st) (repCount st) (timer st)
    (isPoseCorrect st) (interval st) (coachingCalls st) (inFlight st).

Definition setActiveExercise (v : Exercise) (st : Store) : Store :=
  mkStore (stage st) (lastAITrigger st) (aiStatus st) (feedback st) v
    (aiCoachMessage st) (isLoadingAI st) (repCount st) (timer st)
    (isPoseCorrect st) (interval st) (coachingCalls st) (inFlight st).

Definition setAiCoachMessage (v : string) (st : Store) : Store :=
  mkStore (stage st) (lastAITrigger st) (aiStatus st) (feedback st)
    (activeExercise st) v (isLoadingAI st) (repCount st) (timer st)
    (isPoseCorrect st) (interval st) (coachingCalls st) (inFlight st).

Definition setIsLoadingAI (v : bool) (st : Store) : Store :=
  mkStore (stage st) (lastAITrigger st) (aiStatus st) (feedback st)
    (activeExercise st) (aiCoachMessage st) v (repCount st) (timer st)
    (isPoseCorrect st) (interval st) (coachingCalls st) (inFlight st).

Definition setRepCount (v : Z) (st : Store) : Store :=
  mkStore (stage st) (lastAITrigger st) (aiStatus st) (feedback st)
    (activeExercise st) (aiCoachMessage st) (isLoadingAI st) v (timer st)
    (isPoseCorrect st) (interval st) (coachingCalls st) (inFlight st).

Definition setTimer (v : Z) (st : Store) : Store :=
  mkStore (stage st) (lastAITrigger st) (aiStatus st) (feedback st)
    (activeExercise st) (aiCoachMessage st) (isLoadingAI st) (repCount st) v
    (isPoseCorrect st) (interval st) (coachingCalls st) (inFlight st).

Definition setIsPoseCorrect (v : bool) (st : Store) : Store :=
  mkStore (stage st) (lastAITrigger st) (aiStatus st) (feedback st)
    (activeExercise st) (aiCoachMessage st) (isLoadingAI st) (repCount st)
    (timer st) v (interval st) (coachingCalls st) (inFlight st).

(** [setInterval] / [clearInterval] on the timer effect's handle. *)
Definition setIntervalLive (v : bool) (st : Store) : Store :=
  mkStore (stage st) (lastAITrigger st) (aiStatus st) (feedback st)
    (activeExercise st) (aiCoachMessage st) (isLoadingAI st) (repCount st)
    (timer st) (isPoseCorrect st) v (coachingCalls st) (inFlight st).

Definition setCoachingCalls (v : list Context.t) (st : Store) : Store :=
  mkStore (stage st) (lastAITrigger st) (aiStatus st) (feedback st)
    (activeExercise st) (aiCoachMessage st) (isLoadingAI st) (repCount st)
    (timer st) (isPoseCorrect st) (interval st) v (inFlight st).

Definition setInFlight (v : list Context.t) (st : Store) : Store :=
  mkStore (stage st) (lastAITrigger st) (aiStatus st) (feedback st)
    (activeExercise st) (aiCoachMessage st) (isLoadingAI st) (repCount st)
    (timer st) (isPoseCorrect st) (interval st) (coachingCalls st) v.

(** [setRepCount (prev => ...)] with an updater that also acts on the ref
    and may call [getAICoaching]: the updater gets the latest count and the
    store, and returns the new count and the store it left. *)
Definition setRepCountWith (f : Z -> Store -> Z * Store) (st : Store) : Store :=
  let (n, st') := f (repCount st) st in setRepCount n st'.

(** The state of the first render: the [useState] and [useRef] initialisers. *)
Definition initialStore : Store :=
  {| stage := start; lastAITrigger := 0%Z;
     aiStatus := loading; feedback := "Initializing AI...";
     activeExercise := Strength; aiCoachMessage := EmptyString;
     isLoadingAI := false; repCount := 0%Z; timer := 0%Z;
     isPoseCorrect := false;
     interval := false; coachingCalls := []; inFlight := [] |}.

(** ** The coaching request *)

(** What the HTTP round trip of [callMistralAPI] can come to. *)
Inductive FetchOutcome : Type :=
| fetchThrows
    (* fetch or response.json() rejects *)
| responseNotOk (err : option string) (status : Z)
    (* response.ok is false; data.error *)
| responseOk (choices : option (list (option string))).
    (* data.choices, each entry read as its message?.content *)

(** How a promise settles. *)
Inductive Settled (A : Type) : Type :=
| resolved (a : A)
| rejected.
Arguments resolved {A} a.
Arguments rejected {A}.

(** The string [callMistralAPI] resolves to; its [catch] absorbs every
    failure, so the promise never rejects. *)
Definition callMistralAPI (o : FetchOutcome) : Settled string :=
  match o with
  | responseOk (Some choices) =>
      match nth_error choices 0 with
      | Some (Some (String a s)) => resolved (String a s)
      | _ => resolved "No response from AI."
      end
  | responseOk None | responseNotOk _ _ | fetchThrows =>
      resolved "AI coach is temporarily unavailable."
  end.

(** [getAICoaching (context)] up to its [await]: the guard on [isLoadingAI]
    (the value of the render that created this function), the flag, and the
    request leaving. *)
Definition getAICoaching (r : Render.t) (context : Context.t) (st : Store)
  : Store :=
  let st0 := setCoachingCalls (coachingCalls st ++ [context]) st in
  if Render.isLoadingAI r then st0
  else
    let st1 := setIsLoadingAI true st0 in
    setInFlight (inFlight st1 ++ [context]) st1.

(** [getAICoaching] from its [await] on: [try] / [catch] / [finally]. *)
Definition getAICoaching_resume (p : Settled string) (st : Store) : Store :=
  let st1 :=
    match p with
    | resolved aiResponse => setAiCoachMessage aiResponse st
    | rejected => setAiCoachMessage EmptyString st
    end in
  setIsLoadingAI false st1.

(** ** The analysis functions *)

(** [p.visibility < 0.7]. *)
Definition lowVisibility (p : Landmark) : bool := Rltb (visibility p) (7 / 10).

(** [getPoseDataString (landmarks)]. *)
Definition getPoseDataString (landmarks : Landmarks) : string :=
  let leftShoulder := at_index landmarks 11 in
  let rightShoulder := at_index landmarks 12 in
  let leftElbow := at_index landmarks 13 in
  let rightElbow := at_index landmarks 14 in
  let leftWrist := at_index landmarks 15 in
  let rightWrist := at_index landmarks 16 in
  let leftHip := at_index landmarks 23 in
  let rightHip := at_index landmarks 24 in
  let leftKnee := at_index landmarks 25 in
  let rightKnee := at_index landmarks 26 in
  let leftAnkle := at_index landmarks 27 in
  let rightAnkle := at_index landmarks 28 in
  ("Key Angles: L-Arm("
   ++ toFixed0 (calculateAngle leftShoulder leftElbow leftWrist)
   ++ "°), R-Arm("
   ++ toFixed0 (calculateAngle rightShoulder rightElbow rightWrist)
   ++ "°), L-Leg("
   ++ toFixed0 (calculateAngle leftHip leftKnee leftAnkle)
   ++ "°), R-Leg("
   ++ toFixed0 (calculateAngle rightHip rightKnee rightAnkle)
   ++ "°)")%string.

(** The updater that [analyzeBicepCurls] hands to [setRepCount]: the new
    count, and the coaching trigger on every fifth rep. *)
Definition bicepCurlsUpdater (r : Render.t) (poseData : string)
    (prevCount : Z) (st : Store) : Z * Store :=
  let newCount := (prevCount + 1)%Z in
  let st' :=
    if ((0 <? newCount)%Z && (Z.rem newCount 5 =? 0)%Z
        && negb (newCount =? lastAITrigger st)%Z)%bool
    then
      getAICoaching r
        (Context.mk Strength (Some newCount) None
           "User successfully completed a set of 5 reps." poseData)
        (setLastAITrigger newCount st)
    else st in
  (newCount, st').

(** [analyzeBicepCurls (l, poseData)]. *)
Definition analyzeBicepCurls (r : Render.t) (l : Landmarks) (poseData : string)
    (st : Store) : Store :=
  match at_index l 11, at_index l 13, at_index l 15 with
  | Some s, Some e, Some w =>
      if (lowVisibility s || lowVisibility e)%bool then
        setFeedback "Ensure your left arm is fully visible to the camera." st
      else
        let angle := calculateAngle (Some s) (Some e) (Some w) in
        let stage0 := stage st in
        if Rltb 160 angle then
          setStage down
            (if Stage_eqb stage0 up
             then setFeedback "Lowered fully. Great rep!" st else st)
        else if (Rltb angle 40 && Stage_eqb stage0 down)%bool then
          setRepCountWith (bicepCurlsUpdater r poseData)
            (setFeedback "Peak contraction! Lower slowly." (setStage up st))
        else st
  | _, _, _ =>
      setFeedback "Ensure your left arm is fully visible to the camera." st
  end.

(** [analyzeJumpingJacks (l, _poseData)]. *)
Definition analyzeJumpingJacks (r : Render.t) (l : Landmarks)
    (_poseData : string) (st : Store) : Store :=
  match at_index l 11, at_index l 12, at_index l 23, at_index l 24,
        at_index l 27, at_index l 28, at_index l 15, at_index l 16 with
  | Some ls, Some rs, Some lh, Some rh, Some la, Some ra, Some lw, Some rw =>
      if lowVisibility ls then
        setFeedback "Please face the camera and be fully visible." st
      else
        let legsApart :=
          Rltb (Rabs (x lh - x rh) * (12 / 10)) (Rabs (x la - x ra)) in
        let armsUp := (Rltb (y lw) (y ls) && Rltb (y rw) (y rs))%bool in
        let stage0 := stage st in
        if (negb legsApart && negb armsUp)%bool then
          setStage down
            (if Stage_eqb stage0 up
             then setFeedback "Ready for the next jump!" st else st)
        else if (legsApart && armsUp && Stage_eqb stage0 down)%bool then
          setRepCountWith (fun prev s' => ((prev + 1)%Z, s'))
            (setFeedback "Excellent! Return to start." (setStage up st))
        else if (Stage_eqb stage0 down && (legsApart || armsUp))%bool then
          if (legsApart && negb armsUp)%bool then
            setFeedback "Bring your arms up!" st
          else if (negb legsApart && armsUp)%bool then
            setFeedback "Jump your feet out!" st
          else st
        else st
  | _, _, _, _, _, _, _, _ =>
      setFeedback "Please face the camera and be fully visible." st
  end.

(** The last statement of [analyzeWarriorPose]: the coaching trigger, every
    tenth second of the hold. *)
Definition warriorTrigger (r : Render.t) (detectedIssue poseData : string)
    (st : Store) : Store :=
  let tenSecondMark := (Render.timer r / 10)%Z in
  if (Render.isPoseCorrect r && (0 <? Render.timer r)%Z
      && (Z.rem (Render.timer r) 10 =? 0)%Z
      && negb (lastAITrigger st =? tenSecondMark)%Z)%bool
  then
    getAICoaching r
      (Context.mk Yoga None (Some (Render.timer r)) detectedIssue poseData)
      (setLastAITrigger tenSecondMark st)
  else st.

(** [analyzeWarriorPose (l, poseData)]. *)
Definition analyzeWarriorPose (r : Render.t) (l : Landmarks) (poseData : string)
    (st : Store) : Store :=
  let lw := at_index l 15 in
  match at_index l 11, at_index l 12, at_index l 25, at_index l 23,
        at_index l 27 with
  | Some ls, Some rs, Some lk, Some lh, Some la =>
      if lowVisibility ls then
        setIsPoseCorrect false
          (setFeedback "Ensure your full body is visible from the side." st)
      else
        let armAngle := calculateAngle lw (Some ls) (Some rs) in
        let kneeAngle := calculateAngle (Some lh) (Some lk) (Some la) in
        let armsAreStraight := Rltb 160 armAngle in
        let kneeIsBent := (Rltb 85 kneeAngle && Rltb kneeAngle 110)%bool in
        if (armsAreStraight && kneeIsBent)%bool then
          let st1 :=
            if negb (Render.isPoseCorrect r)
            then setFeedback "Perfect form! Hold it strong." st else st in
          warriorTrigger r "User is holding the pose correctly." poseData
            (setIsPoseCorrect true st1)
        else
          let detectedIssue :=
            if Rleb kneeAngle 85 then
              "Front knee is bent too much. Ease up slightly."
            else if Rleb 110 kneeAngle then
              "Bend the front knee more to a 90-degree angle."
            else if negb armsAreStraight then
              "Arms are not fully extended. Reach out further!"
            else EmptyString in
          warriorTrigger r detectedIssue poseData
            (setFeedback detectedIssue (setIsPoseCorrect false st))
  | _, _, _, _, _ =>
      setIsPoseCorrect false
        (setFeedback "Ensure your full body is visible from the side." st)
  end.

(** [analyzeHighKnees (l, _poseData)]. *)
Definition analyzeHighKnees (r : Render.t) (l : Landmarks) (_poseData : string)
    (st : Store) : Store :=
  match at_index l 23, at_index l 25, at_index l 24, at_index l 26 with
  | Some lh, Some lk, Some rh, Some rk =>
      if (lowVisibility lh || lowVisibility rh)%bool then
        setFeedback "Please face the camera, ensuring hips are visible." st
      else
        let leftKneeUp := Rltb (y lk) (y lh) in
        let rightKneeUp := Rltb (y rk) (y rh) in
        let stage0 := stage st in
        if (leftKneeUp && negb (Stage_eqb stage0 left_up))%bool then
          setRepCountWith (fun p s' => ((p + 1)%Z, s'))
            (setFeedback "Good! Switch." (setStage left_up st))
        else if (rightKneeUp && negb (Stage_eqb stage0 right_up))%bool then
          setRepCountWith (fun p s' => ((p + 1)%Z, s'))
            (setFeedback "Nice! Switch." (setStage right_up st))
        else if (negb leftKneeUp && negb rightKneeUp
                 && (Stage_eqb stage0 left_up || Stage_eqb stage0 right_up))%bool
        then setFeedback "Drive those knees up!" (setStage down st)
        else st
  | _, _, _, _ =>
      setFeedback "Please face the camera, ensuring hips are visible." st
  end.

(** The last statement of [analyzeRunningForm]: the coaching trigger, every
    thirtieth second. *)
Definition runningTrigger (r : Render.t) (detectedIssue poseData : string)
    (st : Store) : Store :=
  let thirtySecondMark := (Render.timer r / 30)%Z in
  if ((0 <? Render.timer r)%Z && (Z.rem (Render.timer r) 30 =? 0)%Z
      && negb (lastAITrigger st =? thirtySecondMark)%Z)%bool
  then
    getAICoaching r
      (Context.mk Running None (Some (Render.timer r)) detectedIssue poseData)
      (setLastAITrigger thirtySecondMark st)
  else st.

(** [analyzeRunningForm (l, poseData)]. *)
Definition analyzeRunningForm (r : Render.t) (l : Landmarks) (poseData : string)
    (st : Store) : Store :=
  match at_index l 11, at_index l 23, at_index l 25 with
  | Some ls, Some lh, Some lk =>
      if (lowVisibility ls || lowVisibility lh)%bool then
        setIsPoseCorrect false
          (setFeedback "Please face sideways to the camera for form analysis."
             st)
      else
        let backAngle := calculateAngle (Some ls) (Some lh) (Some lk) in
        if Rltb backAngle 165 then
          let detectedIssue :=
            "Slight slouch detected. Try to keep your back straighter." in
          let st1 :=
            if Render.isPoseCorrect r then setFeedback detectedIssue st
            else st in
          runningTrigger r detectedIssue poseData (setIsPoseCorrect false st1)
        else
          let detectedIssue := "Excellent posture! Keep up the great pace." in
          let st1 :=
            if negb (Render.isPoseCorrect r) then setFeedback detectedIssue st
            else st in
          runningTrigger r detectedIssue poseData (setIsPoseCorrect true st1)
  | _, _, _ =>
      setIsPoseCorrect false
        (setFeedback "Please face sideways to the camera for form analysis." st)
  end.

(** ** Dispatch, reset, timer and the frame callback *)

(** [analyzePose (landmarks)]: the [switch] on [activeExercise]. *)
Definition analyzePose (r : Render.t) (landmarks : Landmarks) (st : Store)
  : Store :=
  let poseData := getPoseDataString landmarks in
  match Render.activeExercise r with
  | Strength => analyzeBicepCurls r landmarks poseData st
  | Cardio => analyzeJumpingJacks r landmarks poseData st
  | Yoga => analyzeWarriorPose r landmarks poseData st
  | HIIT => analyzeHighKnees r landmarks poseData st
  | Running => analyzeRunningForm r landmarks poseData st
  end.

(** The analysis function that [analyzePose] selects for an exercise. *)
Definition analyze (ex : Exercise)
  : Render.t -> Landmarks -> string -> Store -> Store :=
  match ex with
  | Strength => analyzeBicepCurls
  | Cardio => analyzeJumpingJacks
  | Yoga => analyzeWarriorPose
  | HIIT => analyzeHighKnees
  | Running => analyzeRunningForm
  end.

(** The landmark indices an analysis function reads from the frame. *)
Definition jointsRead (ex : Exercise) : list nat :=
  match ex with
  | Strength => [11; 13; 15]
  | Cardio => [11; 12; 23; 24; 27; 28; 15; 16]
  | Yoga => [11; 12; 15; 25; 23; 27]
  | HIIT => [23; 25; 24; 26]
  | Running => [11; 23; 25]
  end%nat.

(** The indices whose absence an analysis function's first test rejects. *)
Definition jointsRequired (ex : Exercise) : list nat :=
  match ex with
  | Strength => [11; 13; 15]
  | Cardio => [11; 12; 23; 24; 27; 28; 15; 16]
  | Yoga => [11; 12; 25; 23; 27]
  | HIIT => [23; 25; 24; 26]
  | Running => [11; 23; 25]
  end%nat.

(** The indices whose visibility that test compares with 0.7. *)
Definition jointsGated (ex : Exercise) : list nat :=
  match ex with
  | Strength => [11; 13]
  | Cardio => [11]
  | Yoga => [11]
  | HIIT => [23; 24]
  | Running => [11; 23]
  end%nat.

(** The message of an analysis function's first test. *)
Definition gateFeedback (ex : Exercise) : string :=
  match ex with
  | Strength => "Ensure your left arm is fully visible to the camera."
  | Cardio => "Please face the camera and be fully visible."
  | Yoga => "Ensure your full body is visible from the side."
  | HIIT => "Please face the camera, ensuring hips are visible."
  | Running => "Please face sideways to the camera for form analysis."
  end.

(** The exercise tags as the template strings print them. *)
Definition Exercise_name (ex : Exercise) : string :=
  match ex with
  | Strength => "Strength"
  | Cardio => "Cardio"
  | Yoga => "Yoga"
  | HIIT => "HIIT"
  | Running => "Running"
  end.

(** [resetExerciseState ()]. *)
Definition resetExerciseState (st : Store) : Store :=
  setLastAITrigger 0
    (setStage start
       (setAiCoachMessage EmptyString
          (setIsPoseCorrect false (setTimer 0 (setRepCount 0 st))))).

(** [handleExerciseChange (exercise)]. *)
Definition handleExerciseChange (exercise : Exercise) (st : Store) : Store :=
  setFeedback ("Switched to " ++ Exercise_name exercise ++ ". Get in position.")%string
    (resetExerciseState (setActiveExercise exercise st)).

(** The timer effect, run for the state of the render that scheduled it:
    the cleanup of its previous run, then its body. *)
Definition timerEffect (st : Store) : Store :=
  let st0 := setIntervalLive false st in
  if (AiStatus_eqb (aiStatus st) ready
      && (Exercise_eqb (activeExercise st) Yoga
          || Exercise_eqb (activeExercise st) Running)
      && isPoseCorrect st)%bool
  then setIntervalLive true st0
  else if negb (isPoseCorrect st) then setTimer 0 st0
  else st0.

(** One period of the interval: [setTimer (prev => prev + 1)] when the handle
    is live. *)
Definition tick (st : Store) : Store :=
  if interval st then setTimer (timer st + 1) st else st.

(** The render whose functions the set-up effect registers with the pose
    detector.  The effect has an empty dependency list, so it runs once,
    after the first render; [onResults] and everything it reaches
    ([analyzePose], the analysis functions, [getAICoaching]) therefore read
    the state of that render for as long as the component lives. *)
Definition mountRender : Render.t := render_of initialStore.

(** [onResults (results)], given [results.poseLandmarks], with the canvas and
    the video element mounted; the drawing is left out. *)
Definition onResults (poseLandmarks : option Landmarks) (st : Store) : Store :=
  match poseLandmarks with
  | Some (p :: ps) => analyzePose mountRender (p :: ps) st
  | _ =>
      setFeedback "No person detected. Position yourself in the camera's view."
        st
  end.

(** What can happen to the mounted component. *)
Inductive Event : Type :=
| CameraStarted
| SetupFailed
| Results (poseLandmarks : option Landmarks)
| Tick
| ExerciseChange (exercise : Exercise)
| Response (i : nat) (o : FetchOutcome).

(** Drop the [i]-th entry of a list. *)
Fixpoint remove_nth {A : Type} (i : nat) (l : list A) : list A :=
  match l, i with
  | [], _ => []
  | _ :: t, O => t
  | h :: t, S j => h :: remove_nth j t
  end.

(** The handler of one event. *)
Definition handle (ev : Event) (st : Store) : Store :=
  match ev with
  | CameraStarted =>
      setFeedback
        ("Ready for " ++ Exercise_name (Render.activeExercise mountRender)
         ++ ". Get in position.")%string
        (setAiStatus ready st)
  | SetupFailed =>
      setFeedback
        "AI failed to start. Please check camera permissions and refresh."
        (setAiStatus error st)
  | Results poseLandmarks => onResults poseLandmarks st
  | Tick => tick st
  | ExerciseChange exercise => handleExerciseChange exercise st
  | Response i o =>
      match nth_error (inFlight st) i with
      | Some _ =>
          getAICoaching_resume (callMistralAPI o)
            (setInFlight (remove_nth i (inFlight st)) st)
      | None => st
      end
  end.

(** The timer effect runs again when one of its dependencies
    ([isPoseCorrect], [activeExercise], [aiStatus]) has changed. *)
Definition timerDepsChanged (old new : Store) : bool :=
  negb (Bool.eqb (isPoseCorrect old) (isPoseCorrect new)
        && Exercise_eqb (activeExercise old) (activeExercise new)
        && AiStatus_eqb (aiStatus old) (aiStatus new))%bool.

(** One event: its handler, then the effects of the render it causes. *)
Definition step (st : Store) (ev : Event) : Store :=
  let st' := handle ev st in
  if timerDepsChanged st st' then timerEffect st' else st'.

(** A sequence of events, from a given state. *)
Definition run (evs : list Event) (st : Store) : Store :=
  fold_left step evs st.

(** The same analysis function over successive frames. *)
Definition frames (ex : Exercise) (r : Render.t) (ls : list Landmarks)
    (st : Store) : Store :=
  fold_left (fun s l => analyze ex r l (getPoseDataString l) s) ls st.

(** ** Sample frames *)

(** A frame holding [f i] at each of the 33 landmark indices. *)
Definition frameOf (f : nat -> option Landmark) : Landmarks :=
  map f (seq 0 33).

(** A fully visible landmark in the image plane. *)
Definition pt (px py : R) : Landmark := mkLandmark px py 0 1.

(** A left arm alone in the frame: shoulder at (1, 0), elbow at the origin,
    and the given wrist. *)
Definition armFrame (w : Landmark) : Landmarks :=
  frameOf (fun i =>
    match i with
    | 11 => Some (pt 1 0)
    | 13 => Some (pt 0 0)
    | 15 => Some w
    | _ => None
    end%nat).

(** A wrist that makes the elbow angle of [armFrame] equal to [d] degrees,
    for [d] between 0 and 180 and other than 90. *)
Definition wristAt (d : R) : Landmark :=
  if Rlt_dec d 90 then pt 1 (tan (d * PI / 180))
  else pt (-1) (tan ((180 - d) * PI / 180)).

(** Hips and knees alone in the frame, all fully visible: the hips at height
    [hipY], the knees at heights [leftKneeY] and [rightKneeY]. *)
Definition kneesFrame (hipY leftKneeY rightKneeY : R) : Landmarks :=
  frameOf (fun i =>
    match i with
    | 23 => Some (pt 0 hipY)
    | 24 => Some (pt 1 hipY)
    | 25 => Some (pt 0 leftKneeY)
    | 26 => Some (pt 1 rightKneeY)
    | _ => None
    end%nat).

(** ** Vocabulary of the statements *)

(** A frame in which a joint the analysis function reads is absent or has
    visibility below 0.7. *)
Definition unreliable (ex : Exercise) (l : Landmarks) : Prop :=
  exists i, In i (jointsRead ex)
    /\ (at_index l i = None
        \/ exists p, at_index l i = Some p /\ visibility p < 7 / 10).

(** A frame that the first test of the analysis function turns away: a joint
    it requires is absent, or a joint whose visibility it compares is below
    0.7. *)
Definition rejected_by_gate (ex : Exercise) (l : Landmarks) : Prop :=
  (exists i, In i (jointsRequired ex) /\ at_index l i = None)
  \/ (exists i p, In i (jointsGated ex)
        /\ at_index l i = Some p /\ visibility p < 7 / 10).

(** The session fields of two stores agree. *)
Definition session_unchanged (st st' : Store) : Prop :=
  stage st' = stage st
  /\ repCount st' = repCount st
  /\ timer st' = timer st
  /\ isPoseCorrect st' = isPoseCorrect st
  /\ lastAITrigger st' = lastAITrigger st.

(** A Yoga session in the middle of a correct hold. *)
Definition yogaHolding : Store :=
  setIsPoseCorrect true (handleExerciseChange Yoga initialStore).

(** A Strength session with the arm lowered. *)
Definition armLowered : Store := setStage down initialStore.

(** A curled arm whose wrist the detector reports with visibility 0. *)
Definition hiddenWristFrame : Landmarks :=
  armFrame (mkLandmark 1 0 0 0).


(** A frame that the first test of the analysis function lets through. *)
Definition passes_gate (ex : Exercise) (l : Landmarks) : Prop :=
  ~ rejected_by_gate ex l.

(** The elbow angle [analyzeBicepCurls] computes for a frame. *)
Definition elbowAngle (l : Landmarks) : R :=
  calculateAngle (at_index l 11) (at_index l 13) (at_index l 15).

(** The [reps] fields of the coaching calls made so far, oldest first. *)
Definition marks (st : Store) : list (option Z) :=
  map Context.reps (coachingCalls st).

(** The condition under which [bicepCurlsUpdater] calls for coaching, for the
    new count [n] and the last trigger mark [m]. *)
Definition countMilestone (n m : Z) : Prop :=
  (0 < n)%Z /\ Z.rem n 5 = 0%Z /\ n <> m.

(** The state after the effects of the first render: the set-up effect
    announces the loading model, the timer effect finds no pose to time. *)
Definition mountedStore : Store :=
  timerEffect
    (setFeedback "Loading AI model, please wait..."
       (setAiStatus loading initialStore)).

(** [n] curls: the arm stretched to 170 degrees, then bent to 35. *)
Definition curlCycles (n : nat) : list Landmarks :=
  List.concat (repeat [armFrame (wristAt 170); armFrame (wristAt 35)] n).


(** The first [q] multiples of five, as [reps] fields. *)
Definition multiplesOfFive (q : Z) : list (option Z) :=
  map (fun k => Some (5 * Z.of_nat k)%Z) (seq 1 (Z.to_nat q)).

(** The coaching call of [bicepCurlsUpdater] at the count [n]. *)
Definition setOfFiveCall (n : Z) (poseData : string) : Context.t :=
  Context.mk Strength (Some n) None
    "User successfully completed a set of 5 reps." poseData.

(** A Strength session in which no call has been made yet. *)
Definition freshSession (st : Store) : Prop :=
  repCount st = 0%Z /\ lastAITrigger st = 0%Z /\ coachingCalls st = [].


(** The invariant of a Strength session: the mark is the last multiple of
    five reached, and the calls made are those of the multiples so far. *)
Definition milestonesInStep (st : Store) : Prop :=
  (0 <= repCount st)%Z
  /\ lastAITrigger st = (5 * (repCount st / 5))%Z
  /\ marks st = multiplesOfFive (repCount st / 5).


(** A frame that [analyzeHighKnees] lets through and in which each knee is
    above its hip (a smaller [y] is higher in the image). *)
Definition bothKneesUp (l : Landmarks) : Prop :=
  exists lh lk rh rk,
    at_index l 23 = Some lh /\ at_index l 25 = Some lk
    /\ at_index l 24 = Some rh /\ at_index l 26 = Some rk
    /\ 7 / 10 <= visibility lh /\ 7 / 10 <= visibility rh
    /\ y lk < y lh /\ y rk < y rh.


(** The HTTP round trip did not yield a usable body: the call threw, the
    status was not OK, or the body had no [choices]. *)
Definition fetchFailed (o : FetchOutcome) : bool :=
  match o with
  | fetchThrows | responseNotOk _ _ | responseOk None => true
  | responseOk (Some _) => false
  end.

(** Repeated periods of the interval. *)
Fixpoint ticks (n : nat) (st : Store) : Store :=
  match n with
  | O => st
  | S k => tick (ticks k st)
  end.

(** A Strength session with one coaching request on its way. *)
Definition awaitingReply : Store :=
  getAICoaching mountRender (setOfFiveCall 5 EmptyString)
    (setRepCount 5 (setLastAITrigger 5 armLowered)).


(** The time milestone as the claim words it: the held seconds [t] are
    positive, a multiple of the bucket size, and their bucket is not the last
    trigger mark [m]. *)
Definition timeMilestone (bucketSize t m : Z) : Prop :=
  (0 < t)%Z /\ Z.rem t bucketSize = 0%Z /\ (t / bucketSize)%Z <> m.

(** The condition under which [analyzeWarriorPose] calls for coaching: the
    time milestone of ten seconds, and the pose-correct flag of the render. *)
Definition yogaMilestone (r : Render.t) (m : Z) : Prop :=
  Render.isPoseCorrect r = true /\ timeMilestone 10 (Render.timer r) m.

(** The condition under which [analyzeRunningForm] calls for coaching. *)
Definition runningMilestone (r : Render.t) (m : Z) : Prop :=
  timeMilestone 30 (Render.timer r) m.

(** A render of a Yoga session ten seconds into the timer whose pose-correct
    flag has just dropped. *)
Definition yogaTenSecondsLapsed : Render.t :=
  Render.mk ready Yoga false 10 false.

(** A frame with every landmark present and fully visible, at the origin. *)
Definition allAtOrigin : Landmarks := frameOf (fun _ => Some (pt 0 0)).

(** A Yoga session ready to time a hold that is correct. *)
Definition yogaReady : Store := setAiStatus ready yogaHolding.


(** A render of a Yoga session ten seconds into a hold that is correct. *)
Definition yogaTenSecondsHeld : Render.t :=
  Render.mk ready Yoga false 10 true.


(** The frames of [n] curls as they reach the component. *)
Definition curlEvents (n : nat) : list Event :=
  map (fun l => Results (Some l)) (curlCycles n).

(** While no response has come back, every call made by a function that saw
    the in-flight flag unset is a request in flight, and the flag is set as
    soon as there is one. *)
Definition allCallsInFlight (st : Store) : Prop :=
  inFlight st = coachingCalls st
  /\ isLoadingAI st = match coachingCalls st with [] => false | _ :: _ => true end.


(** The condition under which the timer effect starts its interval. *)
Definition holdRunning (st : Store) : bool :=
  (AiStatus_eqb (aiStatus st) ready
   && (Exercise_eqb (activeExercise st) Yoga
       || Exercise_eqb (activeExercise st) Running)
   && isPoseCorrect st)%bool.

(** The interval is live exactly when the state calls for it: what the timer
    effect establishes each time it runs. *)
Definition timerInSync (st : Store) : Prop := interval st = holdRunning st.


(** ** Vocabulary for the other analysis functions *)

(** A frame that [analyzeJumpingJacks] lets through, with the values its
    two tests ([legsApart], [armsUp]) take on it. *)
Definition jackFrame (legsApart armsUp : bool) (l : Landmarks) : Prop :=
  exists ls rs lh rh la ra lw rw,
    at_index l 11 = Some ls /\ at_index l 12 = Some rs
    /\ at_index l 23 = Some lh /\ at_index l 24 = Some rh
    /\ at_index l 27 = Some la /\ at_index l 28 = Some ra
    /\ at_index l 15 = Some lw /\ at_index l 16 = Some rw
    /\ lowVisibility ls = false
    /\ legsApart = Rltb (Rabs (x lh - x rh) * (12 / 10)) (Rabs (x la - x ra))
    /\ armsUp = (Rltb (y lw) (y ls) && Rltb (y rw) (y rs))%bool.

(** A frame that [analyzeHighKnees] lets through, with the values of its two
    tests ([leftKneeUp], [rightKneeUp]). *)
Definition kneesSeen (leftKneeUp rightKneeUp : bool) (l : Landmarks) : Prop :=
  exists lh lk rh rk,
    at_index l 23 = Some lh /\ at_index l 25 = Some lk
    /\ at_index l 24 = Some rh /\ at_index l 26 = Some rk
    /\ lowVisibility lh = false /\ lowVisibility rh = false
    /\ leftKneeUp = Rltb (y lk) (y lh)
    /\ rightKneeUp = Rltb (y rk) (y rh).

(** The stage a raised knee leads to: [left_up] for the left one. *)
Definition kneeStage (left : bool) : Stage :=
  if left then left_up else right_up.

(** The sides of a list alternate. *)
Fixpoint alternating (sides : list bool) : Prop :=
  match sides with
  | a :: ((b :: _) as rest) => a <> b /\ alternating rest
  | _ => True
  end.

(** The arm angle [analyzeWarriorPose] computes for a frame. *)
Definition warriorArmAngle (l : Landmarks) : R :=
  calculateAngle (at_index l 15) (at_index l 11) (at_index l 12).

(** The knee angle [analyzeWarriorPose] computes for a frame. *)
Definition warriorKneeAngle (l : Landmarks) : R :=
  calculateAngle (at_index l 23) (at_index l 25) (at_index l 27).

(** The back angle [analyzeRunningForm] computes for a frame. *)
Definition backAngle (l : Landmarks) : R :=
  calculateAngle (at_index l 11) (at_index l 23) (at_index l 25).

(** A body for jumping jacks, every joint fully visible: hips at x = 0 and
    x = 1, ankles [ankleGap] apart, shoulders at height 1 and both wrists at
    height [wristY]. *)
Definition jackBody (ankleGap wristY : R) : Landmarks :=
  frameOf (fun i =>
    match i with
    | 11 => Some (pt 0 1)
    | 12 => Some (pt 1 1)
    | 23 => Some (pt 0 2)
    | 24 => Some (pt 1 2)
    | 27 => Some (pt 0 3)
    | 28 => Some (pt ankleGap 3)
    | 15 => Some (pt 0 wristY)
    | 16 => Some (pt 1 wristY)
    | _ => None
    end%nat).

(** A side view for the warrior pose and the running form, every joint fully
    visible: the arm angle at the left shoulder is [arm] degrees, the angle
    at the left knee is [knee] degrees (both other than 90). *)
Definition warriorBody (arm knee : R) : Landmarks :=
  frameOf (fun i =>
    match i with
    | 15 => Some (pt 1 0)
    | 11 => Some (pt 0 0)
    | 12 => Some (wristAt arm)
    | 23 => Some (pt 1 0)
    | 25 => Some (pt 0 0)
    | 27 => Some (wristAt knee)
    | _ => None
    end%nat).



(** A Cardio session whose stage is down. *)
Definition jacksReady : Store :=
  setStage down (handleExerciseChange Cardio initialStore).

(** A HIIT session that has just been selected. *)
Definition kneesReady : Store := handleExerciseChange HIIT initialStore.


(** What one frame may do to the store, for the analysis function of [ex]
    made by the render [r]: the cells it leaves alone, at most one rep, at
    most one coaching call and one request. *)
Definition frameFootprint (ex : Exercise) (r : Render.t) (st st' : Store)
  : Prop :=
  (timer st' = timer st /\ activeExercise st' = activeExercise st
   /\ aiStatus st' = aiStatus st /\ aiCoachMessage st' = aiCoachMessage st
   /\ interval st' = interval st)
  /\ (repCount st' = repCount st \/ repCount st' = (repCount st + 1)%Z)
  /\ ((coachingCalls st' = coachingCalls st /\ inFlight st' = inFlight st
       /\ isLoadingAI st' = isLoadingAI st)
      \/ exists c : Context.t,
           Context.exercise c = ex
           /\ coachingCalls st' = coachingCalls st ++ [c]
           /\ ((Render.isLoadingAI r = true /\ inFlight st' = inFlight st
                /\ isLoadingAI st' = isLoadingAI st)
               \/ (Render.isLoadingAI r = false
                   /\ inFlight st' = inFlight st ++ [c]
                   /\ isLoadingAI st' = true)))
  /\ (ex = Cardio \/ ex = HIIT ->
      coachingCalls st' = coachingCalls st
      /\ isPoseCorrect st' = isPoseCorrect st
      /\ lastAITrigger st' = lastAITrigger st)
  /\ (ex = Yoga \/ ex = Running ->
      stage st' = stage st /\ repCount st' = repCount st)
  /\ (ex = Strength -> isPoseCorrect st' = isPoseCorrect st).


(** ** What the screen shows *)

(** The number in the feedback box: the timer for Yoga and Running, the rep
    count for the other exercises. *)
Definition shownCounter (st : Store) : Z :=
  if (Exercise_eqb (activeExercise st) Yoga
      || Exercise_eqb (activeExercise st) Running)%bool
  then timer st else repCount st.

(** Whether the coaching panel is rendered: [aiCoachMessage && ...]. *)
Definition coachPanelShown (st : Store) : bool :=
  match aiCoachMessage st with
  | EmptyString => false
  | String _ _ => true
  end.

(** What holds of every state the mounted component can reach: the frames
    are analysed as bicep curls only, so the pose-correct flag, the timer and
    the interval never move, the stage stays among those of the curl, and the
    mark follows the count. *)
Definition curlsOnly (st : Store) : Prop :=
  isPoseCorrect st = false /\ timer st = 0%Z /\ interval st = false
  /\ (stage st = start \/ stage st = down \/ stage st = up)
  /\ (0 <= repCount st)%Z
  /\ lastAITrigger st = (5 * (repCount st / 5))%Z.


(** ** The route handler [POST] of [/api/mistral] *)

Module Route.

(** A JavaScript value, as far as its truthiness goes. *)
Inductive JsValue : Type :=
| JsUndefined
| JsNull
| JsBool (b : bool)
| JsNumber (n : Z)
| JsString (s : string)
| JsObject.
    (* an object or an array, whatever it holds *)

(** [!v] is false. *)
Definition truthy (v : JsValue) : bool :=
  match v with
  | JsUndefined | JsNull => false
  | JsBool b => b
  | JsNumber n => negb (n =? 0)%Z
  | JsString EmptyString => false
  | JsString (String _ _) => true
  | JsObject => true
  end.

(** What [const { messages } = await request.json()] comes to: it throws an
    error with some message, or binds [messages]. *)
Inductive RequestBody : Type :=
| bodyThrows (message : string)
| bodyParsed (messages : JsValue).

(** What the call to the Mistral endpoint comes to, for a body of type
    [Data]: the fetch or the reading of a body throws an error with some
    message; the response is not OK, with the [message] of its body when that
    is a string; or the response is OK with its body. *)
Inductive Upstream (Data : Type) : Type :=
| upstreamThrows (message : string)
| upstreamNotOk (status : Z) (message : option string)
| upstreamOk (data : Data).
Arguments upstreamThrows {Data} message.
Arguments upstreamNotOk {Data} status message.
Arguments upstreamOk {Data} data.

(** The JSON body of a response of the route. *)
Inductive ResponseBody (Data : Type) : Type :=
| errorJson (error : string)
| dataJson (data : Data).
Arguments errorJson {Data} error.
Arguments dataJson {Data} data.

(** [NextResponse.json (body, { status })]. *)
Record Response (Data : Type) : Type := mkResponse
  { status : Z; body : ResponseBody Data }.
Arguments mkResponse {Data} status body.
Arguments status {Data} r.
Arguments body {Data} r.

(** The request the route sends upstream: the bearer key and the messages. *)
Record UpstreamRequest : Type := mkUpstreamRequest
  { bearer : string; sentMessages : JsValue }.

(** A status code as a template string prints it. *)
Definition statusText (status : Z) : string :=
  NilZero.string_of_int (Z.to_int status).

(** The [catch] of the route. *)
Definition failed {Data : Type} (message : string) : Response Data :=
  mkResponse 500 (errorJson ("Failed to get AI response: " ++ message)%string).

(** [POST (request)], given [process.env.MISTRAL_API_KEY], the request body
    and what the upstream call would come to: the response, and the upstream
    request if one is made. *)
Definition POST {Data : Type} (apiKey : option string) (request : RequestBody)
    (upstream : Upstream Data) : Response Data * option UpstreamRequest :=
  match apiKey with
  | None | Some EmptyString =>
      (mkResponse 500
         (errorJson "The server is missing the required API key configuration."),
       None)
  | Some (String a k) =>
      match request with
      | bodyThrows message => (failed message, None)
      | bodyParsed messages =>
          if negb (truthy messages) then
            (mkResponse 400
               (errorJson "Messages are required in the request body."),
             None)
          else
            let sent := Some (mkUpstreamRequest (String a k) messages) in
            match upstream with
            | upstreamThrows message => (failed message, sent)
            | upstreamNotOk status (Some (String b m)) =>
                (failed (String b m), sent)
            | upstreamNotOk status _ =>
                (failed ("Mistral API responded with status "
                         ++ statusText status)%string,
                 sent)
            | upstreamOk data => (mkResponse 200 (dataJson data), sent)
            end
      end
  end.

(** The body of a successful Mistral reply as the client reads it:
    [data.choices], each entry as its [message?.content]. *)
Definition Choices : Type := option (list (option string)).

(** What the client's [fetch ('/api/mistral')] comes to, given the response
    of the route: [response.ok] is a status from 200 to 299. *)
Definition clientOutcome (resp : Response Choices) : FetchOutcome :=
  let ok := ((200 <=? status resp)%Z && (status resp <=? 299)%Z)%bool in
  match body resp with
  | dataJson choices =>
      if ok then responseOk choices else responseNotOk None (status resp)
  | errorJson e =>
      if ok then responseOk None else responseNotOk (Some e) (status resp)
  end.

(** The body the client sends: an object whose [messages] is an array. *)
Definition clientRequest : RequestBody := bodyParsed JsObject.

End Route.


(** ** The summary string *)

(** A whole number in decimal. *)
Definition decimal (n : Z) : string := NilZero.string_of_int (Z.to_int n).

(** [n] is the whole number nearest to [a], the upper one on a tie. *)
Definition nearest (a : R) (n : Z) : Prop := IZR n - / 2 <= a < IZR n + / 2.


(** ** The component of [src/app/page.tsx] *)

(** The same screen before the coaching calls were added: four exercises, no
    mark, no coaching message.  Its functions act on the same [Store] and
    leave the cells they do not know alone. *)
Module Page.

(** [analyzeBicepCurls (landmarks)]. *)
Definition analyzeBicepCurls (landmarks : Landmarks) (st : Store) : Store :=
  match at_index landmarks 11, at_index landmarks 13, at_index landmarks 15
  with
  | Some shoulder, Some elbow, Some wrist =>
      if (lowVisibility shoulder || lowVisibility elbow)%bool then
        setFeedback "Ensure your left arm is fully visible to the camera." st
      else
        let angle :=
          calculateAngle (Some shoulder) (Some elbow) (Some wrist) in
        let stage0 := stage st in
        if Rltb 160 angle then
          setStage down
            (if Stage_eqb stage0 up
             then setFeedback "Lowered fully. Great rep!" st else st)
        else if (Rltb angle 40 && Stage_eqb stage0 down)%bool then
          setRepCountWith (fun prevCount s' => ((prevCount + 1)%Z, s'))
            (setFeedback "Peak contraction! Lower slowly." (setStage up st))
        else st
  | _, _, _ =>
      setFeedback "Ensure your left arm is fully visible to the camera." st
  end.

(** [analyzeJumpingJacks (landmarks)]. *)
Definition analyzeJumpingJacks (landmarks : Landmarks) (st : Store) : Store :=
  match at_index landmarks 11, at_index landmarks 12, at_index landmarks 23,
        at_index landmarks 24, at_index landmarks 27, at_index landmarks 28,
        at_index landmarks 15, at_index landmarks 16 with
  | Some ls, Some rs, Some lh, Some rh, Some la, Some ra, Some lw, Some rw =>
      if lowVisibility ls then
        setFeedback "Please face the camera and be fully visible." st
      else
        let legsApart :=
          Rltb (Rabs (x lh - x rh) * (12 / 10)) (Rabs (x la - x ra)) in
        let armsUp := (Rltb (y lw) (y ls) && Rltb (y rw) (y rs))%bool in
        let stage0 := stage st in
        if (negb legsApart && negb armsUp)%bool then
          setStage down
            (if Stage_eqb stage0 up
             then setFeedback "Ready for the next jump!" st else st)
        else if (legsApart && armsUp && Stage_eqb stage0 down)%bool then
          setRepCountWith (fun prev s' => ((prev + 1)%Z, s'))
            (setFeedback "Excellent! Return to start." (setStage up st))
        else if (Stage_eqb stage0 down && (legsApart || armsUp))%bool then
          if (legsApart && negb armsUp)%bool then
            setFeedback "Bring your arms up!" st
          else if (negb legsApart && armsUp)%bool then
            setFeedback "Jump your feet out!" st
          else st
        else st
  | _, _, _, _, _, _, _, _ =>
      setFeedback "Please face the camera and be fully visible." st
  end.

(** [analyzeWarriorPose (landmarks)]: each message is set in its own branch,
    and no branch sets an empty one. *)
Definition analyzeWarriorPose (r : Render.t) (landmarks : Landmarks)
    (st : Store) : Store :=
  let lw := at_index landmarks 15 in
  match at_index landmarks 11, at_index landmarks 12, at_index landmarks 25,
        at_index landmarks 23, at_index landmarks 27 with
  | Some ls, Some rs, Some lk, Some lh, Some la =>
      if lowVisibility ls then
        setIsPoseCorrect false
          (setFeedback "Ensure your full body is visible from the side." st)
      else
        let armAngle := calculateAngle lw (Some ls) (Some rs) in
        let kneeAngle := calculateAngle (Some lh) (Some lk) (Some la) in
        let armsAreStraight := Rltb 160 armAngle in
        let kneeIsBent := (Rltb 85 kneeAngle && Rltb kneeAngle 110)%bool in
        if (armsAreStraight && kneeIsBent)%bool then
          setIsPoseCorrect true
            (if negb (Render.isPoseCorrect r)
             then setFeedback "Perfect form! Hold it strong." st else st)
        else
          let st1 := setIsPoseCorrect false st in
          if Rleb kneeAngle 85 then
            setFeedback "Front knee is bent too much. Ease up slightly." st1
          else if Rleb 110 kneeAngle then
            setFeedback "Bend the front knee more to a 90-degree angle." st1
          else if negb armsAreStraight then
            setFeedback "Arms are not fully extended. Reach out further!" st1
          else st1
  | _, _, _, _, _ =>
      setIsPoseCorrect false
        (setFeedback "Ensure your full body is visible from the side." st)
  end.

(** [analyzeHighKnees (landmarks)]. *)
Definition analyzeHighKnees (landmarks : Landmarks) (st : Store) : Store :=
  match at_index landmarks 23, at_index landmarks 25, at_index landmarks 24,
        at_index landmarks 26 with
  | Some lh, Some lk, Some rh, Some rk =>
      if (lowVisibility lh || lowVisibility rh)%bool then
        setFeedback "Please face the camera, ensuring hips are visible." st
      else
        let leftKneeUp := Rltb (y lk) (y lh) in
        let rightKneeUp := Rltb (y rk) (y rh) in
        let stage0 := stage st in
        if (leftKneeUp && negb (Stage_eqb stage0 left_up))%bool then
          setRepCountWith (fun p s' => ((p + 1)%Z, s'))
            (setFeedback "Good! Switch." (setStage left_up st))
        else if (rightKneeUp && negb (Stage_eqb stage0 right_up))%bool then
          setRepCountWith (fun p s' => ((p + 1)%Z, s'))
            (setFeedback "Nice! Switch." (setStage right_up st))
        else if (negb leftKneeUp && negb rightKneeUp
                 && (Stage_eqb stage0 left_up || Stage_eqb stage0 right_up))%bool
        then setFeedback "Drive those knees up!" (setStage down st)
        else st
  | _, _, _, _ =>
      setFeedback "Please face the camera, ensuring hips are visible." st
  end.

(** [analyzePose (landmarks)]; Running is not among the exercises of this
    component, and a [switch] without a matching case does nothing. *)
Definition analyzePose (r : Render.t) (landmarks : Landmarks) (st : Store)
  : Store :=
  match Render.activeExercise r with
  | Strength => analyzeBicepCurls landmarks st
  | Cardio => analyzeJumpingJacks landmarks st
  | Yoga => analyzeWarriorPose r landmarks st
  | HIIT => analyzeHighKnees landmarks st
  | Running => st
  end.

(** The timer effect: for Yoga only. *)
Definition timerEffect (st : Store) : Store :=
  let st0 := setIntervalLive false st in
  if (AiStatus_eqb (aiStatus st) ready
      && Exercise_eqb (activeExercise st) Yoga
      && isPoseCorrect st)%bool
  then setIntervalLive true st0
  else if negb (isPoseCorrect st) then setTimer 0 st0
  else st0.

(** [resetExerciseState ()]: the ref holds the stage alone. *)
Definition resetExerciseState (st : Store) : Store :=
  setStage start (setIsPoseCorrect false (setTimer 0 (setRepCount 0 st))).

(** [handleExerciseChange (exercise)]. *)
Definition handleExerciseChange (exercise : Exercise) (st : Store) : Store :=
  setFeedback ("Switched to " ++ Exercise_name exercise ++ ". Get in position.")%string
    (resetExerciseState (setActiveExercise exercise st)).

End Page.

(** What both components keep of a session: the stage, the counters, the
    pose-correct flag, the exercise and the message shown. *)
Definition sessionView (st : Store)
  : Stage * Z * Z * bool * Exercise * string :=
  (stage st, repCount st, timer st, isPoseCorrect st, activeExercise st,
   feedback st).


(** ** The component [LiveAi] and the list of [ExerciseList.tsx] *)

(** The screen that goes with the exercise list: it keeps no session, only
    the feedback text, which each frame sets afresh.  It is the component
    that follows [LiveAiScreen] in [src/app/page.tsx]. *)
Module LiveAi.

(** [type ExerciseType]. *)
Inductive ExerciseType : Type := BicepCurl | Squat | OverheadPress.

(** [const exercises] of the list, in the order of its buttons. *)
Definition exercises : list ExerciseType := [BicepCurl; Squat; OverheadPress].

(** The argument the [i]-th button of the list passes to
    [onSelectExercise]. *)
Definition buttonSelects (i : nat) : option ExerciseType :=
  nth_error exercises i.

(** [p?.visibility > 0.5]: false for an absent landmark. *)
Definition visible (p : option Landmark) : bool :=
  match p with
  | Some q => Rltb (5 / 10) (visibility q)
  | None => false
  end.

(** [p.y], read after [visible p]. *)
Definition height (p : option Landmark) : R :=
  match p with
  | Some q => y q
  | None => 0
  end.

(** [analyzeBicepCurls (landmarks)]: the feedback it sets. *)
Definition analyzeBicepCurls (landmarks : Landmarks) : string :=
  let shoulder := at_index landmarks 11 in
  let elbow := at_index landmarks 13 in
  let wrist := at_index landmarks 15 in
  if (visible shoulder && visible elbow && visible wrist)%bool then
    let angle := calculateAngle shoulder elbow wrist in
    if Rltb 160 angle then "Correct: Down position"
    else if Rltb angle 30 then "Correct: Curled position"
    else "In Progress..."
  else "Make sure your left arm is fully visible.".

(** [analyzeSquats (landmarks)]. *)
Definition analyzeSquats (landmarks : Landmarks) : string :=
  let hip := at_index landmarks 23 in
  let knee := at_index landmarks 25 in
  let ankle := at_index landmarks 27 in
  if (visible hip && visible knee && visible ankle)%bool then
    let kneeAngle := calculateAngle hip knee ankle in
    if Rltb 160 kneeAngle then "Correct: Standing position"
    else if Rltb kneeAngle 90 then "Good depth! Press up."
    else "Lower your hips."
  else "Make sure your left leg is fully visible.".

(** [analyzeOverheadPress (landmarks)]. *)
Definition analyzeOverheadPress (landmarks : Landmarks) : string :=
  let shoulder := at_index landmarks 11 in
  let elbow := at_index landmarks 13 in
  let wrist := at_index landmarks 15 in
  if (visible shoulder && visible elbow && visible wrist)%bool then
    let elbowAngle := calculateAngle shoulder elbow wrist in
    let isArmUp := Rltb (height wrist) (height elbow) in
    if (Rltb 160 elbowAngle && isArmUp)%bool then "Correct: Top position"
    else if (Rltb elbowAngle 90 && Rltb 60 elbowAngle && negb isArmUp)%bool
    then "Correct: Down position. Press up!"
    else "In Progress..."
  else "Make sure your left arm is fully visible.".

(** [onResults (results)], given the [exercise] prop, [results.poseLandmarks]
    and the feedback shown so far: the feedback it leaves.  The canvas is
    taken as mounted and the drawing is left out. *)
Definition onResults (exercise : option ExerciseType)
    (poseLandmarks : option Landmarks) (feedback : string) : string :=
  match poseLandmarks with
  | Some landmarks =>
      match exercise with
      | Some BicepCurl => analyzeBicepCurls landmarks
      | Some Squat => analyzeSquats landmarks
      | Some OverheadPress => analyzeOverheadPress landmarks
      | None => "Select an exercise to begin."
      end
  | None => feedback
  end.

(** The left arm of a frame is visible to this component. *)
Definition armVisible (l : Landmarks) : Prop :=
  exists s e w,
    at_index l 11 = Some s /\ at_index l 13 = Some e
    /\ at_index l 15 = Some w
    /\ 5 / 10 < visibility s /\ 5 / 10 < visibility e
    /\ 5 / 10 < visibility w.

(** The left leg of a frame is visible to this component. *)
Definition legVisible (l : Landmarks) : Prop :=
  exists h k a,
    at_index l 23 = Some h /\ at_index l 25 = Some k
    /\ at_index l 27 = Some a
    /\ 5 / 10 < visibility h /\ 5 / 10 < visibility k
    /\ 5 / 10 < visibility a.

(** The knee angle [analyzeSquats] computes for a frame. *)
Definition kneeAngle (l : Landmarks) : R :=
  calculateAngle (at_index l 23) (at_index l 25) (at_index l 27).

(** The wrist of a frame is above its elbow. *)
Definition armUp (l : Landmarks) : Prop :=
  height (at_index l 15) < height (at_index l 13).

End LiveAi.


(** The feedback [LiveAi] shows after a series of detector results, oldest
    first: [onResults] runs once per result. *)
Definition liveFeedback (exercise : option LiveAi.ExerciseType)
    (results : list (option Landmarks)) (feedback : string) : string :=
  fold_left (fun fb poseLandmarks => LiveAi.onResults exercise poseLandmarks fb)
    results feedback.

(** The landmarks of the latest result that has some. *)
Fixpoint latestPose (results : list (option Landmarks)) : option Landmarks :=
  match results with
  | [] => None
  | poseLandmarks :: rest =>
      match latestPose rest with
      | Some l => Some l
      | None => poseLandmarks
      end
  end.

(** * Properties *)

(** ** Geometry *)

Lemma Rltb_true (a b : R) : Rltb a b = true <-> a < b.
Proof. unfold Rltb; destruct (Rlt_dec a b); split; intros; congruence || lra. Qed.

Lemma Rltb_false (a b : R) : Rltb a b = false <-> b <= a.
Proof. unfold Rltb; destruct (Rlt_dec a b); split; intros; congruence || lra. Qed.

Lemma Rleb_true (a b : R) : Rleb a b = true <-> a <= b.
Proof. unfold Rleb; destruct (Rle_dec a b); split; intros; congruence || lra. Qed.

Lemma Rleb_false (a b : R) : Rleb a b = false <-> b < a.
Proof. unfold Rleb; destruct (Rle_dec a b); split; intros; congruence || lra. Qed.

Lemma atan_nonpos (t : R) : t <= 0 -> atan t <= 0.
Proof.
  intros [Hlt | ->].
  - rewrite <- atan_0. left. now apply atan_increasing.
  - rewrite atan_0. lra.
Qed.

Lemma atan_pos (t : R) : 0 < t -> 0 < atan t.
Proof. intros Ht. rewrite <- atan_0. now apply atan_increasing. Qed.

(** [Math.atan2] stays within half a turn of the positive x axis. *)
Lemma atan2_bound (py px : R) : - PI < atan2 py px <= PI.
Proof.
  pose proof PI_RGT_0 as Hpi.
  unfold atan2.
  destruct (Rlt_dec 0 px) as [Hpos | Hnpos].
  - pose proof (atan_bound (py / px)). lra.
  - destruct (Rlt_dec px 0) as [Hneg | Hnneg].
    + assert (Hinv : / px < 0) by now apply Rinv_lt_0_compat.
      pose proof (atan_bound (py / px)) as Hb.
      destruct (Rle_dec 0 py) as [Hy | Hy].
      * assert (Hq : py / px <= 0) by (unfold Rdiv; nra).
        pose proof (atan_nonpos _ Hq). lra.
      * assert (Hq : 0 < py / px) by (unfold Rdiv; nra).
        pose proof (atan_pos _ Hq). lra.
    + destruct (Rlt_dec 0 py); [lra |].
      destruct (Rlt_dec py 0); lra.
Qed.

(** The magnitude, in degrees, of a difference of two arguments. *)
Lemma degrees_bound (u v : R) :
  - PI < u <= PI -> - PI < v <= PI -> Rabs (((u - v) * 180) / PI) <= 360.
Proof.
  intros Hu Hv.
  pose proof PI_RGT_0 as Hpi.
  assert (Hk : 0 < / PI) by now apply Rinv_0_lt_compat.
  assert (Hone : PI * / PI = 1) by (field; lra).
  apply Rabs_le. unfold Rdiv. split; nra.
Qed.

Lemma calculateAngle_sym (a b c : option Landmark) :
  calculateAngle a b c = calculateAngle c b a.
Proof.
  destruct a as [a |], b as [b |], c as [c |]; simpl; try reflexivity.
  set (u := atan2 (y c - y b) (x c - x b)).
  set (v := atan2 (y a - y b) (x a - x b)).
  replace ((v - u) * 180 / PI) with (- ((u - v) * 180 / PI))
    by (unfold Rdiv; ring).
  now rewrite Rabs_Ropp.
Qed.

Lemma calculateAngle_absent (a b c : option Landmark) :
  a = None \/ b = None \/ c = None -> calculateAngle a b c = 0.
Proof.
  intros [-> | [-> | ->]]; simpl.
  - reflexivity.
  - now destruct a.
  - now destruct a, b.
Qed.

Lemma calculateAngle_range (a b c : option Landmark) :
  0 <= calculateAngle a b c <= 180.
Proof.
  destruct a as [a |], b as [b |], c as [c |]; simpl; try lra.
  set (u := atan2 (y c - y b) (x c - x b)).
  set (v := atan2 (y a - y b) (x a - x b)).
  pose proof (degrees_bound u v (atan2_bound _ _) (atan2_bound _ _)) as Hd.
  pose proof (Rabs_pos ((u - v) * 180 / PI)) as Hp.
  destruct (Rlt_dec 180 (Rabs ((u - v) * 180 / PI))); lra.
Qed.

(** C9. [calculateAngle] is symmetric under exchanging its first and third
    arguments, is 0 as soon as one of its arguments is absent, and always
    lies between 0 and 180 degrees. *)
Theorem calculateAngle_symmetric_absent_bounded :
  forall a b c : option Landmark,
    calculateAngle a b c = calculateAngle c b a
    /\ (a = None \/ b = None \/ c = None -> calculateAngle a b c = 0)
    /\ 0 <= calculateAngle a b c <= 180.
Proof.
  intros a b c. split; [| split].
  - apply calculateAngle_sym.
  - apply calculateAngle_absent.
  - apply calculateAngle_range.
Qed.

(** An angle whose first joint is absent. *)
Lemma calculateAngle_symmetric_absent_bounded_witness :
  calculateAngle None (Some (pt 0 0)) (Some (pt 1 0)) = 0.
Proof.
  exact (proj1 (proj2 (calculateAngle_symmetric_absent_bounded
                         None (Some (pt 0 0)) (Some (pt 1 0))))
           (or_introl eq_refl)).
Defined.

Lemma at_index_frameOf (f : nat -> option Landmark) (i : nat) :
  (i < 33)%nat -> at_index (frameOf f) i = f i.
Proof.
  intros Hi. unfold at_index, frameOf.
  rewrite nth_error_map, nth_error_nth' with (d := 0%nat)
    by (rewrite length_seq; exact Hi).
  rewrite seq_nth by exact Hi. simpl. now destruct (f i).
Qed.

Lemma atan2_pos_x_axis : atan2 (0 - 0) (1 - 0) = 0.
Proof.
  unfold atan2. destruct (Rlt_dec 0 (1 - 0)) as [_ | H]; [| lra].
  replace ((0 - 0) / (1 - 0)) with 0 by (field; lra). apply atan_0.
Qed.

(** The argument of a point on the line [x = 1]. *)
Lemma atan2_right (t : R) :
  - (PI / 2) < t < PI / 2 -> atan2 (tan t - 0) (1 - 0) = t.
Proof.
  intros Ht. unfold atan2.
  destruct (Rlt_dec 0 (1 - 0)) as [_ | H]; [| lra].
  replace ((tan t - 0) / (1 - 0)) with (tan t) by (field; lra).
  now apply atan_tan.
Qed.

(** The argument of a point on the line [x = -1], on or above the x axis. *)
Lemma atan2_left (t : R) :
  0 <= t < PI / 2 -> atan2 (tan t - 0) (-1 - 0) = PI - t.
Proof.
  intros Ht. unfold atan2.
  destruct (Rlt_dec 0 (-1 - 0)) as [H | _]; [lra |].
  destruct (Rlt_dec (-1 - 0) 0) as [_ | H]; [| lra].
  assert (Htan : 0 <= tan t).
  { destruct Ht as [[Hp | <-] Hq].
    - left. apply tan_gt_0; lra.
    - rewrite tan_0. lra. }
  destruct (Rle_dec 0 (tan t - 0)) as [_ | H]; [| lra].
  replace ((tan t - 0) / (-1 - 0)) with (- tan t) by (field; lra).
  rewrite atan_opp, atan_tan by lra. ring.
Qed.

(** [armFrame (wristAt d)] shows an elbow angle of [d] degrees. *)
Lemma armFrame_angle (d : R) :
  0 <= d <= 180 -> d <> 90 ->
  calculateAngle (Some (pt 1 0)) (Some (pt 0 0)) (Some (wristAt d)) = d.
Proof.
  intros Hd Hne. pose proof PI_RGT_0 as Hpi.
  assert (Hk : 0 < / PI) by now apply Rinv_0_lt_compat.
  unfold calculateAngle, wristAt.
  destruct (Rlt_dec d 90) as [Hlt | Hge]; cbn [x y pt].
  - rewrite atan2_pos_x_axis, atan2_right.
    2:{ assert (d * PI / 180 < 90 * PI / 180) by nra.
        assert (0 <= d * PI / 180) by nra. lra. }
    replace ((d * PI / 180 - 0) * 180 / PI) with d by (field; lra).
    rewrite Rabs_pos_eq by lra.
    destruct (Rlt_dec 180 d); lra.
  - rewrite atan2_pos_x_axis, atan2_left.
    2:{ assert ((180 - d) * PI / 180 < 90 * PI / 180) by nra.
        assert (0 <= (180 - d) * PI / 180) by nra. lra. }
    replace ((PI - (180 - d) * PI / 180 - 0) * 180 / PI) with d
      by (field; lra).
    rewrite Rabs_pos_eq by lra.
    destruct (Rlt_dec 180 d); lra.
Qed.

(** ** Dispatch *)

(** [analyzePose] runs the analysis function of the exercise its render saw,
    on the frame and its summary string. *)
Lemma analyzePose_analyze (r : Render.t) (l : Landmarks) (st : Store) :
  analyzePose r l st
  = analyze (Render.activeExercise r) r l (getPoseDataString l) st.
Proof. unfold analyzePose, analyze. now destruct (Render.activeExercise r). Qed.

(** ** The first test of the analysis functions *)

Lemma lowVisibility_true (p : Landmark) :
  visibility p < 7 / 10 -> lowVisibility p = true.
Proof. intros H. now apply Rltb_true. Qed.

(** Case analysis on every landmark the goal looks up. *)
Ltac split_lookups l :=
  repeat match goal with
    | |- context [at_index l ?i] =>
        let E := fresh "E" in destruct (at_index l i) eqn:E
    end.

(** The low-visibility joint makes the test of the goal succeed. *)
Ltac use_low_visibility :=
  match goal with
  | Hv : visibility ?p < 7 / 10 |- _ =>
      rewrite (lowVisibility_true p Hv); rewrite ?orb_true_r; cbn [orb]
  end.

Lemma gate_Strength (r : Render.t) (l : Landmarks) (pd : string) (st : Store) :
  rejected_by_gate Strength l ->
  analyzeBicepCurls r l pd st = setFeedback (gateFeedback Strength) st.
Proof.
  intros [(i & Hi & Ha) | (i & p & Hi & Ha & Hv)];
    cbn [jointsRequired jointsGated In] in Hi;
    unfold analyzeBicepCurls;
    repeat (destruct Hi as [<- | Hi]; [| try contradiction]);
    split_lookups l; try congruence; try reflexivity;
    injection Ha as ->; now use_low_visibility.
Qed.

Lemma gate_Cardio (r : Render.t) (l : Landmarks) (pd : string) (st : Store) :
  rejected_by_gate Cardio l ->
  analyzeJumpingJacks r l pd st = setFeedback (gateFeedback Cardio) st.
Proof.
  intros [(i & Hi & Ha) | (i & p & Hi & Ha & Hv)];
    cbn [jointsRequired jointsGated In] in Hi;
    unfold analyzeJumpingJacks;
    repeat (destruct Hi as [<- | Hi]; [| try contradiction]);
    split_lookups l; try congruence; try reflexivity;
    injection Ha as ->; now use_low_visibility.
Qed.

Lemma gate_Yoga (r : Render.t) (l : Landmarks) (pd : string) (st : Store) :
  rejected_by_gate Yoga l ->
  analyzeWarriorPose r l pd st
  = setIsPoseCorrect false (setFeedback (gateFeedback Yoga) st).
Proof.
  intros [(i & Hi & Ha) | (i & p & Hi & Ha & Hv)];
    cbn [jointsRequired jointsGated In] in Hi;
    unfold analyzeWarriorPose;
    repeat (destruct Hi as [<- | Hi]; [| try contradiction]);
    split_lookups l; try congruence; try reflexivity;
    injection Ha as ->; now use_low_visibility.
Qed.

Lemma gate_HIIT (r : Render.t) (l : Landmarks) (pd : string) (st : Store) :
  rejected_by_gate HIIT l ->
  analyzeHighKnees r l pd st = setFeedback (gateFeedback HIIT) st.
Proof.
  intros [(i & Hi & Ha) | (i & p & Hi & Ha & Hv)];
    cbn [jointsRequired jointsGated In] in Hi;
    unfold analyzeHighKnees;
    repeat (destruct Hi as [<- | Hi]; [| try contradiction]);
    split_lookups l; try congruence; try reflexivity;
    injection Ha as ->; now use_low_visibility.
Qed.

Lemma gate_Running (r : Render.t) (l : Landmarks) (pd : string) (st : Store) :
  rejected_by_gate Running l ->
  analyzeRunningForm r l pd st
  = setIsPoseCorrect false (setFeedback (gateFeedback Running) st).
Proof.
  intros [(i & Hi & Ha) | (i & p & Hi & Ha & Hv)];
    cbn [jointsRequired jointsGated In] in Hi;
    unfold analyzeRunningForm;
    repeat (destruct Hi as [<- | Hi]; [| try contradiction]);
    split_lookups l; try congruence; try reflexivity;
    injection Ha as ->; now use_low_visibility.
Qed.

(** C1 (as amended).  On a frame that the first test of an analysis function
    turns away (one of the joints it requires is absent, or one of the
    joints whose visibility it compares is below 0.7) the function shows its
    corrective message, leaves the stage, the rep count, the timer and the
    last trigger mark as they were and makes no coaching call; Strength,
    Cardio and HIIT leave the pose-correct flag as it was, Yoga and Running
    set it to false, so that the timer effect which follows them resets the
    timer. *)
Theorem gate_rejection_effect :
  forall (ex : Exercise) (r : Render.t) (l : Landmarks) (poseData : string)
         (st : Store),
    rejected_by_gate ex l ->
    let st' := analyze ex r l poseData st in
    feedback st' = gateFeedback ex
    /\ stage st' = stage st
    /\ lastAITrigger st' = lastAITrigger st
    /\ repCount st' = repCount st
    /\ timer st' = timer st
    /\ isPoseCorrect st'
       = match ex with
         | Yoga | Running => false
         | Strength | Cardio | HIIT => isPoseCorrect st
         end
    /\ coachingCalls st' = coachingCalls st
    /\ inFlight st' = inFlight st
    /\ (ex = Yoga \/ ex = Running -> timer (timerEffect st') = 0%Z).
Proof.
  intros ex r l poseData st H st'. subst st'.
  destruct ex; cbn [analyze].
  - rewrite gate_Strength by exact H. repeat split.
    intros [E | E]; discriminate E.
  - rewrite gate_Cardio by exact H. repeat split.
    intros [E | E]; discriminate E.
  - rewrite gate_Yoga by exact H. repeat split.
    intros _. unfold timerEffect.
    cbn [isPoseCorrect setIsPoseCorrect]. rewrite andb_false_r. reflexivity.
  - rewrite gate_HIIT by exact H. repeat split.
    intros [E | E]; discriminate E.
  - rewrite gate_Running by exact H. repeat split.
    intros _. unfold timerEffect.
    cbn [isPoseCorrect setIsPoseCorrect]. rewrite andb_false_r. reflexivity.
Qed.

(** An empty Yoga frame in the middle of a correct hold: the stage and the
    counters stay, the flag drops. *)
Lemma gate_rejection_effect_witness :
  rejected_by_gate Yoga []
  /\ let st' := analyze Yoga mountRender [] EmptyString yogaHolding in
     feedback st' = gateFeedback Yoga
     /\ stage st' = stage yogaHolding
     /\ lastAITrigger st' = lastAITrigger yogaHolding
     /\ repCount st' = repCount yogaHolding
     /\ timer st' = timer yogaHolding
     /\ isPoseCorrect st' = false
     /\ coachingCalls st' = coachingCalls yogaHolding
     /\ inFlight st' = inFlight yogaHolding
     /\ (Yoga = Yoga \/ Yoga = Running -> timer (timerEffect st') = 0%Z).
Proof.
  assert (H : rejected_by_gate Yoga []).
  { left. exists 11%nat. split; [simpl; auto | reflexivity]. }
  split; [exact H |].
  exact (gate_rejection_effect Yoga mountRender [] EmptyString yogaHolding H).
Defined.

Lemma hiddenWristFrame_lookup :
  at_index hiddenWristFrame 11 = Some (pt 1 0)
  /\ at_index hiddenWristFrame 13 = Some (pt 0 0)
  /\ at_index hiddenWristFrame 15 = Some (mkLandmark 1 0 0 0).
Proof.
  unfold hiddenWristFrame, armFrame.
  rewrite !at_index_frameOf by lia. repeat split.
Qed.

Lemma pt_visible (px py : R) : lowVisibility (pt px py) = false.
Proof. apply Rltb_false. cbn [visibility pt]. lra. Qed.

(** C1 as stated fails twice over.  A Yoga frame with every joint absent
    clears the pose-correct flag of a session in a correct hold; and a
    Strength frame whose wrist has visibility 0 is analysed all the same: from
    the lowered stage the curled arm registers a rep. *)
Lemma gate_counterexample :
  (unreliable Yoga []
   /\ ~ session_unchanged yogaHolding
          (analyze Yoga mountRender [] EmptyString yogaHolding))
  /\ (unreliable Strength hiddenWristFrame
      /\ ~ session_unchanged armLowered
             (analyze Strength mountRender hiddenWristFrame EmptyString
                armLowered)).
Proof.
  split; split.
  - exists 11%nat. split; [simpl; auto | left; reflexivity].
  - intros (_ & _ & _ & H & _). discriminate H.
  - exists 15%nat. split; [simpl; auto |]. right.
    exists (mkLandmark 1 0 0 0). split.
    + apply hiddenWristFrame_lookup.
    + cbn [visibility]. lra.
  - intros (H & _). revert H.
    cbn [analyze]. unfold analyzeBicepCurls.
    destruct hiddenWristFrame_lookup as (-> & -> & ->).
    rewrite !pt_visible. cbn [orb].
    assert (Ha : calculateAngle (Some (pt 1 0)) (Some (pt 0 0))
                   (Some (mkLandmark 1 0 0 0)) = 0).
    { unfold calculateAngle. cbn [x y pt].
      rewrite atan2_pos_x_axis.
      replace ((0 - 0) * 180 / PI) with 0
        by (field; pose proof PI_RGT_0; lra).
      rewrite Rabs_R0. destruct (Rlt_dec 180 0); lra. }
    rewrite Ha.
    replace (Rltb 160 0) with false by (symmetry; apply Rltb_false; lra).
    replace (Rltb 0 40) with true by (symmetry; apply Rltb_true; lra).
    discriminate.
Qed.

(** ** Bicep curls *)

Lemma lowVisibility_false (p : Landmark) :
  lowVisibility p = false <-> 7 / 10 <= visibility p.
Proof. apply Rltb_false. Qed.

Lemma lowVisibility_cases (p : Landmark) :
  {visibility p < 7 / 10} + {lowVisibility p = false}.
Proof.
  destruct (Rlt_dec (visibility p) (7 / 10)) as [H | H]; [now left | right].
  apply lowVisibility_false. lra.
Qed.

(** What a frame that passes the test of [analyzeBicepCurls] holds. *)
Lemma passes_Strength (l : Landmarks) :
  passes_gate Strength l ->
  exists s e w,
    at_index l 11 = Some s /\ at_index l 13 = Some e /\ at_index l 15 = Some w
    /\ lowVisibility s = false /\ lowVisibility e = false.
Proof.
  intros H.
  destruct (at_index l 11) as [s |] eqn:Es;
    [| exfalso; apply H; left; exists 11%nat; simpl; auto].
  destruct (at_index l 13) as [e |] eqn:Ee;
    [| exfalso; apply H; left; exists 13%nat; simpl; auto].
  destruct (at_index l 15) as [w |] eqn:Ew;
    [| exfalso; apply H; left; exists 15%nat; simpl; auto].
  exists s, e, w. repeat split.
  - destruct (lowVisibility_cases s) as [Hs | Hs]; [| exact Hs].
    exfalso; apply H; right; exists 11%nat, s; simpl; auto.
  - destruct (lowVisibility_cases e) as [He | He]; [| exact He].
    exfalso; apply H; right; exists 13%nat, e; simpl; auto.
Qed.

(** The three ways [analyzeBicepCurls] treats a frame it lets through. *)
Lemma bicep_extended (r : Render.t) (l : Landmarks) (pd : string) (st : Store) :
  passes_gate Strength l -> 160 < elbowAngle l ->
  analyzeBicepCurls r l pd st
  = setStage down
      (if Stage_eqb (stage st) up
       then setFeedback "Lowered fully. Great rep!" st else st).
Proof.
  intros Hg Ha. destruct (passes_Strength l Hg) as (s & e & w & Es & Ee & Ew & Vs & Ve).
  unfold analyzeBicepCurls, elbowAngle in *.
  rewrite Es, Ee, Ew in *. rewrite Vs, Ve. cbn [orb].
  apply Rltb_true in Ha. now rewrite Ha.
Qed.

Lemma bicep_curled (r : Render.t) (l : Landmarks) (pd : string) (st : Store) :
  passes_gate Strength l -> elbowAngle l < 40 -> stage st = down ->
  analyzeBicepCurls r l pd st
  = setRepCountWith (bicepCurlsUpdater r pd)
      (setFeedback "Peak contraction! Lower slowly." (setStage up st)).
Proof.
  intros Hg Ha Hs. destruct (passes_Strength l Hg) as (s & e & w & Es & Ee & Ew & Vs & Ve).
  unfold analyzeBicepCurls, elbowAngle in *.
  rewrite Es, Ee, Ew in *. rewrite Vs, Ve. cbn [orb].
  replace (Rltb 160 _) with false by (symmetry; apply Rltb_false; lra).
  apply Rltb_true in Ha. rewrite Ha, Hs. reflexivity.
Qed.

Lemma bicep_idle (r : Render.t) (l : Landmarks) (pd : string) (st : Store) :
  passes_gate Strength l -> elbowAngle l <= 160 ->
  40 <= elbowAngle l \/ stage st <> down ->
  analyzeBicepCurls r l pd st = st.
Proof.
  intros Hg Ha Hs. destruct (passes_Strength l Hg) as (s & e & w & Es & Ee & Ew & Vs & Ve).
  unfold analyzeBicepCurls, elbowAngle in *.
  rewrite Es, Ee, Ew in *. rewrite Vs, Ve. cbn [orb].
  replace (Rltb 160 _) with false by (symmetry; apply Rltb_false; lra).
  destruct Hs as [Hs | Hs].
  - replace (Rltb _ 40) with false by (symmetry; apply Rltb_false; lra).
    reflexivity.
  - destruct (stage st); try congruence; now rewrite andb_false_r.
Qed.

(** Every frame is of one of four kinds for [analyzeBicepCurls]. *)
Lemma bicep_cases (l : Landmarks) (st : Store) :
  rejected_by_gate Strength l
  \/ (passes_gate Strength l /\ 160 < elbowAngle l)
  \/ (passes_gate Strength l /\ elbowAngle l < 40 /\ stage st = down)
  \/ (passes_gate Strength l /\ elbowAngle l <= 160
      /\ (40 <= elbowAngle l \/ stage st <> down)).
Proof.
  assert (Hdec : rejected_by_gate Strength l \/ passes_gate Strength l).
  { unfold passes_gate, rejected_by_gate. cbn [jointsRequired jointsGated].
    destruct (at_index l 11) as [s |] eqn:Es;
      [| left; left; exists 11%nat; simpl; auto].
    destruct (at_index l 13) as [e |] eqn:Ee;
      [| left; left; exists 13%nat; simpl; auto].
    destruct (at_index l 15) as [w |] eqn:Ew;
      [| left; left; exists 15%nat; simpl; auto].
    destruct (lowVisibility_cases s) as [Hs | Hs];
      [left; right; exists 11%nat, s; simpl; auto |].
    destruct (lowVisibility_cases e) as [He | He];
      [left; right; exists 13%nat, e; simpl; auto |].
    apply lowVisibility_false in Hs, He.
    right. intros [(i & Hi & Ha) | (i & p & Hi & Ha & Hv)]; simpl in Hi;
      repeat (destruct Hi as [<- | Hi]; [| try contradiction]);
      try congruence.
    - rewrite Es in Ha. injection Ha as <-. lra.
    - rewrite Ee in Ha. injection Ha as <-. lra. }
  destruct Hdec as [Hr | Hp]; [now left | right].
  destruct (Rlt_dec 160 (elbowAngle l)) as [H1 | H1]; [now left | right].
  destruct (Rlt_dec (elbowAngle l) 40) as [H2 | H2].
  - assert (Hst : stage st = down \/ stage st <> down)
      by (destruct (stage st); (now left) || (right; discriminate)).
    destruct Hst as [Hst | Hst]; [left; auto | right].
    repeat split; auto; lra.
  - right. repeat split; auto; lra.
Qed.

(** What registering a rep changes, whatever the coaching decision. *)
Lemma curl_registered (r : Render.t) (pd : string) (st : Store) :
  let st' := setRepCountWith (bicepCurlsUpdater r pd) st in
  repCount st' = (repCount st + 1)%Z
  /\ stage st' = stage st
  /\ timer st' = timer st
  /\ isPoseCorrect st' = isPoseCorrect st
  /\ feedback st' = feedback st
  /\ activeExercise st' = activeExercise st
  /\ aiStatus st' = aiStatus st
  /\ interval st' = interval st.
Proof.
  unfold setRepCountWith, bicepCurlsUpdater, getAICoaching.
  destruct (_ && _ && _)%bool; destruct (Render.isLoadingAI r);
    cbn; repeat split.
Qed.

(** One frame of [analyzeBicepCurls]: the stage goes from down to up exactly
    on a visible arm bent below 40 degrees, and the count moves exactly then. *)
Lemma bicep_frame (r : Render.t) (l : Landmarks) (pd : string) (st : Store) :
  let st' := analyzeBicepCurls r l pd st in
  (stage st = down /\ stage st' = up
   <-> passes_gate Strength l /\ elbowAngle l < 40 /\ stage st = down)
  /\ (stage st = down /\ stage st' = up -> repCount st' = (repCount st + 1)%Z)
  /\ (~ (stage st = down /\ stage st' = up) -> repCount st' = repCount st)
  /\ (stage st = up -> repCount st' = repCount st).
Proof.
  intros st'. subst st'.
  destruct (bicep_cases l st)
    as [Hr | [(Hp & Ha) | [(Hp & Ha & Hs) | (Hp & Ha & Hs)]]].
  - rewrite gate_Strength by exact Hr. cbn [stage repCount setFeedback].
    unfold passes_gate. intuition congruence.
  - rewrite bicep_extended by assumption. cbn [stage setStage].
    assert (Hc : repCount
                   (setStage down
                      (if Stage_eqb (stage st) up
                       then setFeedback "Lowered fully. Great rep!" st
                       else st)) = repCount st)
      by (destruct (Stage_eqb (stage st) up); reflexivity).
    rewrite Hc. intuition (discriminate || lra).
  - rewrite bicep_curled by assumption.
    destruct (curl_registered r pd
                (setFeedback "Peak contraction! Lower slowly." (setStage up st)))
      as (Hc & Hst & _).
    cbn [repCount stage setFeedback setStage] in Hc, Hst.
    rewrite Hc, Hst. intuition congruence.
  - rewrite bicep_idle by assumption.
    intuition (congruence || lra).
Qed.

(** The count along the angles 170, 150, 35, 170. *)
Lemma bicep_four_samples (r : Render.t) (l1 l2 l3 l4 : Landmarks) (st : Store) :
  passes_gate Strength l1 -> passes_gate Strength l2 ->
  passes_gate Strength l3 -> passes_gate Strength l4 ->
  elbowAngle l1 = 170 -> elbowAngle l2 = 150 ->
  elbowAngle l3 = 35 -> elbowAngle l4 = 170 ->
  repCount (frames Strength r [l1] st) = repCount st
  /\ repCount (frames Strength r [l1; l2] st) = repCount st
  /\ repCount (frames Strength r [l1; l2; l3] st) = (repCount st + 1)%Z
  /\ repCount (frames Strength r [l1; l2; l3; l4] st) = (repCount st + 1)%Z
  /\ stage (frames Strength r [l1; l2] st) = down
  /\ stage (frames Strength r [l1; l2; l3] st) = up.
Proof.
  intros G1 G2 G3 G4 A1 A2 A3 A4.
  unfold frames. cbn [fold_left analyze].
  set (st1 := analyzeBicepCurls r l1 (getPoseDataString l1) st).
  assert (E1 : st1 = setStage down
                       (if Stage_eqb (stage st) up
                        then setFeedback "Lowered fully. Great rep!" st
                        else st))
    by (apply bicep_extended; [assumption | lra]).
  assert (C1 : repCount st1 = repCount st)
    by (rewrite E1; destruct (Stage_eqb (stage st) up); reflexivity).
  assert (S1 : stage st1 = down) by (rewrite E1; reflexivity).
  rewrite (bicep_idle r l2 _ st1) by (try assumption; lra || (left; lra)).
  set (st3 := analyzeBicepCurls r l3 (getPoseDataString l3) st1).
  assert (E3 : st3 = setRepCountWith (bicepCurlsUpdater r (getPoseDataString l3))
                       (setFeedback "Peak contraction! Lower slowly."
                          (setStage up st1)))
    by (apply bicep_curled; [assumption | lra | assumption]).
  destruct (curl_registered r (getPoseDataString l3)
              (setFeedback "Peak contraction! Lower slowly." (setStage up st1)))
    as (C3 & S3 & _).
  rewrite <- E3 in C3, S3. cbn [repCount stage setFeedback setStage] in C3, S3.
  rewrite (bicep_extended r l4 _ st3) by (try assumption; lra).
  assert (C4 : repCount
                 (setStage down
                    (if Stage_eqb (stage st3) up
                     then setFeedback "Lowered fully. Great rep!" st3
                     else st3)) = repCount st3)
    by (destruct (Stage_eqb (stage st3) up); reflexivity).
  rewrite C4, C3, C1. repeat split; auto.
Qed.

(** C5.  In [analyzeBicepCurls] a rep is registered on the frame that takes
    the stage from down to up (a visible arm with an elbow angle below 40
    degrees while the stage is down) and on no other frame, in particular on
    none that finds the stage up; and the elbow angles 170, 150, 35, 170, all
    joints visible, add exactly one rep, at the third sample. *)
Theorem curl_rep_edge_triggered :
  (forall (r : Render.t) (l : Landmarks) (poseData : string) (st : Store),
      let st' := analyzeBicepCurls r l poseData st in
      (stage st = down /\ stage st' = up
       <-> passes_gate Strength l /\ elbowAngle l < 40 /\ stage st = down)
      /\ (stage st = down /\ stage st' = up
          -> repCount st' = (repCount st + 1)%Z)
      /\ (~ (stage st = down /\ stage st' = up) -> repCount st' = repCount st)
      /\ (stage st = up -> repCount st' = repCount st))
  /\ (forall (r : Render.t) (l1 l2 l3 l4 : Landmarks) (st : Store),
      passes_gate Strength l1 -> passes_gate Strength l2 ->
      passes_gate Strength l3 -> passes_gate Strength l4 ->
      elbowAngle l1 = 170 -> elbowAngle l2 = 150 ->
      elbowAngle l3 = 35 -> elbowAngle l4 = 170 ->
      repCount (frames Strength r [l1] st) = repCount st
      /\ repCount (frames Strength r [l1; l2] st) = repCount st
      /\ repCount (frames Strength r [l1; l2; l3] st) = (repCount st + 1)%Z
      /\ repCount (frames Strength r [l1; l2; l3; l4] st)
         = (repCount st + 1)%Z).
Proof.
  split.
  - intros r l poseData st. apply bicep_frame.
  - intros r l1 l2 l3 l4 st G1 G2 G3 G4 A1 A2 A3 A4.
    destruct (bicep_four_samples r l1 l2 l3 l4 st G1 G2 G3 G4 A1 A2 A3 A4)
      as (H1 & H2 & H3 & H4 & _).
    auto.
Qed.

Lemma armFrame_lookup (w : Landmark) :
  at_index (armFrame w) 11 = Some (pt 1 0)
  /\ at_index (armFrame w) 13 = Some (pt 0 0)
  /\ at_index (armFrame w) 15 = Some w.
Proof. unfold armFrame. rewrite !at_index_frameOf by lia. repeat split. Qed.

(** The test of [analyzeBicepCurls] never looks at the wrist's visibility. *)
Lemma armFrame_passes (w : Landmark) : passes_gate Strength (armFrame w).
Proof.
  destruct (armFrame_lookup w) as (Es & Ee & Ew).
  intros [(i & Hi & Ha) | (i & p & Hi & Ha & Hv)]; simpl in Hi;
    repeat (destruct Hi as [<- | Hi]; [| try contradiction]);
    try congruence.
  - rewrite Es in Ha. injection Ha as <-. cbn [visibility pt] in Hv. lra.
  - rewrite Ee in Ha. injection Ha as <-. cbn [visibility pt] in Hv. lra.
Qed.

Lemma armFrame_elbow (d : R) :
  0 <= d <= 180 -> d <> 90 -> elbowAngle (armFrame (wristAt d)) = d.
Proof.
  intros Hd Hne. unfold elbowAngle.
  destruct (armFrame_lookup (wristAt d)) as (-> & -> & ->).
  now apply armFrame_angle.
Qed.

(** The four samples of C5 on a fresh session: the count is 0, 0, 1, 1. *)
Lemma curl_rep_edge_triggered_witness :
  let l1 := armFrame (wristAt 170) in
  let l2 := armFrame (wristAt 150) in
  let l3 := armFrame (wristAt 35) in
  let l4 := armFrame (wristAt 170) in
  (elbowAngle l1 = 170 /\ elbowAngle l2 = 150
   /\ elbowAngle l3 = 35 /\ elbowAngle l4 = 170)
  /\ repCount (frames Strength mountRender [l1] initialStore) = 0%Z
  /\ repCount (frames Strength mountRender [l1; l2] initialStore) = 0%Z
  /\ repCount (frames Strength mountRender [l1; l2; l3] initialStore) = 1%Z
  /\ repCount (frames Strength mountRender [l1; l2; l3; l4] initialStore) = 1%Z.
Proof.
  intros l1 l2 l3 l4.
  assert (A1 : elbowAngle l1 = 170) by (apply armFrame_elbow; lra).
  assert (A2 : elbowAngle l2 = 150) by (apply armFrame_elbow; lra).
  assert (A3 : elbowAngle l3 = 35) by (apply armFrame_elbow; lra).
  split; [repeat split; assumption |].
  exact (proj2 curl_rep_edge_triggered mountRender l1 l2 l3 l4 initialStore
           (armFrame_passes _) (armFrame_passes _) (armFrame_passes _)
           (armFrame_passes _) A1 A2 A3 A1).
Defined.

(** C6 as stated fails: on a fresh session (stage start) a visible arm bent
    to 35 degrees changes nothing, where from the stage down the same frame
    moves the stage to up and the count to 1. *)
Lemma start_is_not_down_counterexample :
  let l := armFrame (wristAt 35) in
  let fromStart := analyzeBicepCurls mountRender l EmptyString initialStore in
  let fromDown := analyzeBicepCurls mountRender l EmptyString armLowered in
  stage initialStore = start
  /\ passes_gate Strength l /\ elbowAngle l < 40
  /\ ~ (stage fromStart = up /\ repCount fromStart = 1%Z)
  /\ (stage fromStart = start /\ repCount fromStart = 0%Z)
  /\ (stage fromDown = up /\ repCount fromDown = 1%Z).
Proof.
  intros l fromStart fromDown.
  assert (Ha : elbowAngle l = 35) by (apply armFrame_elbow; lra).
  assert (Hs : fromStart = initialStore).
  { apply bicep_idle; [apply armFrame_passes | lra | right; discriminate]. }
  assert (Hd : fromDown
               = setRepCountWith (bicepCurlsUpdater mountRender EmptyString)
                   (setFeedback "Peak contraction! Lower slowly."
                      (setStage up armLowered))).
  { apply bicep_curled; [apply armFrame_passes | lra | reflexivity]. }
  rewrite Hs, Hd.
  repeat split; try reflexivity.
  - apply armFrame_passes.
  - lra.
  - intros (H & _). discriminate H.
Qed.

(** C6 (as amended).  The stage start is not treated as down.  From the stage
    start a frame that passes the test with an elbow angle of at most 160
    degrees, bent below 40 or not, changes nothing; a frame with an angle
    above 160 moves the stage to down without counting, and it is from there
    that a frame with an angle below 40 moves the stage to up and adds one
    rep. *)
Theorem start_requires_extension :
  forall (r : Render.t) (l : Landmarks) (poseData : string) (st : Store),
    stage st = start ->
    passes_gate Strength l ->
    (elbowAngle l <= 160 -> analyzeBicepCurls r l poseData st = st)
    /\ (160 < elbowAngle l ->
        let st1 := analyzeBicepCurls r l poseData st in
        stage st1 = down /\ repCount st1 = repCount st
        /\ forall (l' : Landmarks) (poseData' : string),
             passes_gate Strength l' -> elbowAngle l' < 40 ->
             let st2 := analyzeBicepCurls r l' poseData' st1 in
             stage st2 = up /\ repCount st2 = (repCount st + 1)%Z).
Proof.
  intros r l poseData st Hs Hg. split.
  - intros Ha. apply bicep_idle; [assumption | assumption |].
    right. rewrite Hs. discriminate.
  - intros Ha st1. subst st1.
    rewrite bicep_extended by assumption. rewrite Hs. cbn [Stage_eqb].
    split; [reflexivity | split; [reflexivity |]].
    intros l' poseData' Hg' Ha'.
    rewrite bicep_curled by (assumption || reflexivity).
    destruct (curl_registered r poseData'
                (setFeedback "Peak contraction! Lower slowly."
                   (setStage up (setStage down st))))
      as (Hc & Hst & _).
    cbn [repCount stage setFeedback setStage] in Hc, Hst.
    now rewrite Hc, Hst.
Qed.

(** A fresh session shown a bent arm: nothing moves. *)
Lemma start_requires_extension_witness :
  let l := armFrame (wristAt 35) in
  elbowAngle l <= 160
  /\ analyzeBicepCurls mountRender l EmptyString initialStore = initialStore.
Proof.
  intros l.
  assert (Ha : elbowAngle l <= 160)
    by (unfold l; rewrite armFrame_elbow; lra).
  split; [exact Ha |].
  exact (proj1 (start_requires_extension mountRender l EmptyString initialStore
                  eq_refl (armFrame_passes _)) Ha).
Defined.

(** ** The count-based coaching trigger *)

Lemma countMilestone_reflect (n m : Z) :
  ((0 <? n)%Z && (Z.rem n 5 =? 0)%Z && negb (n =? m)%Z)%bool = true
  <-> countMilestone n m.
Proof.
  unfold countMilestone.
  rewrite !andb_true_iff, negb_true_iff, Z.ltb_lt, Z.eqb_eq, Z.eqb_neq.
  tauto.
Qed.

(** The coaching decision taken while a rep is registered. *)
Lemma updater_decision (r : Render.t) (pd : string) (st : Store) :
  let n := (repCount st + 1)%Z in
  let st' := setRepCountWith (bicepCurlsUpdater r pd) st in
  (countMilestone n (lastAITrigger st) ->
   coachingCalls st' = coachingCalls st ++ [setOfFiveCall n pd]
   /\ lastAITrigger st' = n)
  /\ (~ countMilestone n (lastAITrigger st) ->
      coachingCalls st' = coachingCalls st
      /\ lastAITrigger st' = lastAITrigger st).
Proof.
  intros n st'. subst n st'.
  unfold setRepCountWith, bicepCurlsUpdater, getAICoaching.
  destruct (_ && _ && _)%bool eqn:E.
  - apply countMilestone_reflect in E.
    destruct (Render.isLoadingAI r); cbn; split; intros; tauto.
  - assert (~ countMilestone (repCount st + 1) (lastAITrigger st))
      by (intros H; apply countMilestone_reflect in H; congruence).
    cbn; split; intros; tauto.
Qed.

(** A frame that registers no rep makes no call and moves no mark. *)
Lemma bicep_quiet (r : Render.t) (l : Landmarks) (pd : string) (st : Store) :
  let st' := analyzeBicepCurls r l pd st in
  repCount st' = repCount st ->
  coachingCalls st' = coachingCalls st
  /\ lastAITrigger st' = lastAITrigger st.
Proof.
  intros st'. subst st'.
  destruct (bicep_cases l st)
    as [Hr | [(Hp & Ha) | [(Hp & Ha & Hs) | (Hp & Ha & Hs)]]].
  - rewrite gate_Strength by exact Hr. now split.
  - rewrite bicep_extended by assumption.
    destruct (Stage_eqb (stage st) up); now split.
  - rewrite bicep_curled by assumption.
    destruct (curl_registered r pd
                (setFeedback "Peak contraction! Lower slowly." (setStage up st)))
      as (Hc & _).
    cbn [repCount setFeedback setStage] in Hc. rewrite Hc. lia.
  - rewrite bicep_idle by assumption. now split.
Qed.

Lemma multiplesOfFive_succ (q : Z) :
  (0 <= q)%Z ->
  multiplesOfFive (q + 1) = multiplesOfFive q ++ [Some (5 * (q + 1))%Z].
Proof.
  intros Hq. unfold multiplesOfFive.
  replace (Z.to_nat (q + 1)) with (S (Z.to_nat q)) by lia.
  rewrite seq_S, map_app. cbn [map]. do 3 f_equal. lia.
Qed.

Lemma milestonesInStep_frame (r : Render.t) (l : Landmarks) (pd : string)
    (st : Store) :
  milestonesInStep st -> milestonesInStep (analyzeBicepCurls r l pd st).
Proof.
  intros (Hc & Hm & Hk).
  destruct (bicep_cases l st)
    as [Hr | [(Hp & Ha) | [(Hp & Ha & Hs) | (Hp & Ha & Hs)]]].
  - rewrite gate_Strength by exact Hr. now repeat split.
  - rewrite bicep_extended by assumption.
    destruct (Stage_eqb (stage st) up); now repeat split.
  - rewrite bicep_curled by assumption.
    set (st1 := setFeedback "Peak contraction! Lower slowly." (setStage up st)).
    destruct (curl_registered r pd st1) as (Hn & _).
    destruct (updater_decision r pd st1) as (Hyes & Hno).
    change (repCount st1) with (repCount st) in *.
    change (lastAITrigger st1) with (lastAITrigger st) in *.
    change (coachingCalls st1) with (coachingCalls st) in *.
    unfold milestonesInStep, marks in *. rewrite Hn.
    assert (Hrem : Z.rem (repCount st + 1) 5 = ((repCount st + 1) mod 5)%Z)
      by (apply Z.rem_mod_nonneg; lia).
    destruct (Z.eq_dec ((repCount st + 1) mod 5) 0) as [H0 | H0].
    + assert (Hq : ((repCount st + 1) / 5 = repCount st / 5 + 1)%Z)
        by (Z.div_mod_to_equations; lia).
      destruct Hyes as (Hcalls & Hmark).
      { unfold countMilestone. rewrite Hrem, Hm.
        Z.div_mod_to_equations; lia. }
      rewrite Hcalls, Hmark, Hq, map_app, Hk, multiplesOfFive_succ
        by (Z.div_mod_to_equations; lia).
      cbn [map setOfFiveCall Context.reps].
      assert (E : (repCount st + 1 = 5 * (repCount st / 5 + 1))%Z)
        by (Z.div_mod_to_equations; lia).
      rewrite <- E. split; [lia | split; reflexivity].
    + assert (Hq : ((repCount st + 1) / 5 = repCount st / 5)%Z)
        by (Z.div_mod_to_equations; lia).
      destruct Hno as (Hcalls & Hmark).
      { unfold countMilestone. rewrite Hrem. tauto. }
      rewrite Hcalls, Hmark, Hq. repeat split; auto; lia.
  - rewrite bicep_idle by assumption. now repeat split.
Qed.

Lemma milestonesInStep_frames (r : Render.t) (ls : list Landmarks) (st : Store) :
  milestonesInStep st -> milestonesInStep (frames Strength r ls st).
Proof.
  revert st. induction ls as [| l ls IH]; intros st H; [exact H |].
  apply IH. now apply milestonesInStep_frame.
Qed.

Lemma multiplesOfFive_NoDup (q : Z) : NoDup (multiplesOfFive q).
Proof.
  unfold multiplesOfFive. apply NoDup_map_NoDup_ForallPairs.
  - intros a b _ _ H.
    assert (5 * Z.of_nat a = 5 * Z.of_nat b)%Z by congruence. lia.
  - apply seq_NoDup.
Qed.

Lemma freshSession_inStep (st : Store) :
  freshSession st -> milestonesInStep st.
Proof.
  intros (Hc & Hm & Hk). unfold milestonesInStep, marks.
  rewrite Hc, Hm, Hk. repeat split. lia.
Qed.

(** C3.  In [analyzeBicepCurls] the frame that registers a rep calls for
    coaching exactly when the count [n] it reaches satisfies [n > 0],
    [n % 5 = 0] and [n <> lastAITrigger], and the call sets [lastAITrigger]
    to [n]; no other frame calls or moves the mark.  Hence, over any run of
    Strength frames from a fresh session, the calls made are those of the
    multiples of five reached so far, each once: one call (at 5) while the
    count is between 5 and 9, two (at 5 and at 10) when it is 10. *)
Theorem strength_trigger_every_fifth_rep :
  (forall (r : Render.t) (l : Landmarks) (poseData : string) (st : Store),
      passes_gate Strength l -> elbowAngle l < 40 -> stage st = down ->
      let n := (repCount st + 1)%Z in
      let st' := analyzeBicepCurls r l poseData st in
      repCount st' = n
      /\ (countMilestone n (lastAITrigger st) ->
          coachingCalls st' = coachingCalls st ++ [setOfFiveCall n poseData]
          /\ lastAITrigger st' = n)
      /\ (~ countMilestone n (lastAITrigger st) ->
          coachingCalls st' = coachingCalls st
          /\ lastAITrigger st' = lastAITrigger st))
  /\ (forall (r : Render.t) (l : Landmarks) (poseData : string) (st : Store),
      let st' := analyzeBicepCurls r l poseData st in
      repCount st' = repCount st ->
      coachingCalls st' = coachingCalls st
      /\ lastAITrigger st' = lastAITrigger st)
  /\ (forall (r : Render.t) (ls : list Landmarks) (st0 : Store),
      freshSession st0 ->
      let st := frames Strength r ls st0 in
      marks st = multiplesOfFive (repCount st / 5)
      /\ NoDup (marks st)
      /\ ((5 <= repCount st <= 9)%Z -> marks st = [Some 5%Z])
      /\ (repCount st = 10%Z -> marks st = [Some 5%Z; Some 10%Z])).
Proof.
  split; [| split].
  - intros r l poseData st Hg Ha Hs n st'. subst n st'.
    rewrite bicep_curled by assumption.
    set (st1 := setFeedback "Peak contraction! Lower slowly." (setStage up st)).
    destruct (curl_registered r poseData st1) as (Hn & _).
    pose proof (updater_decision r poseData st1) as Hd.
    cbv zeta in Hd.
    change (repCount st1) with (repCount st) in *.
    change (lastAITrigger st1) with (lastAITrigger st) in *.
    change (coachingCalls st1) with (coachingCalls st) in *.
    split; [exact Hn | exact Hd].
  - intros r l poseData st. apply bicep_quiet.
  - intros r ls st0 Hf st.
    destruct (milestonesInStep_frames r ls st0 (freshSession_inStep _ Hf))
      as (Hc & _ & Hk).
    fold st in Hc, Hk. rewrite Hk.
    split; [reflexivity | split; [apply multiplesOfFive_NoDup | split]].
    + intros H. replace (repCount st / 5)%Z with 1%Z
        by (Z.div_mod_to_equations; lia).
      reflexivity.
    + intros ->. reflexivity.
Qed.

(** One curl of [curlCycles] adds one rep, whatever the stage before. *)
Lemma curlCycles_count (r : Render.t) (n : nat) (st : Store) :
  repCount (frames Strength r (curlCycles n) st)
  = (repCount st + Z.of_nat n)%Z.
Proof.
  revert st. induction n as [| n IH]; intros st.
  - cbn. lia.
  - change (curlCycles (S n))
      with (armFrame (wristAt 170) :: armFrame (wristAt 35) :: curlCycles n).
    unfold frames in *. cbn [fold_left analyze]. rewrite IH.
    assert (A1 : elbowAngle (armFrame (wristAt 170)) = 170)
      by (apply armFrame_elbow; lra).
    assert (A3 : elbowAngle (armFrame (wristAt 35)) = 35)
      by (apply armFrame_elbow; lra).
    rewrite (bicep_extended r (armFrame (wristAt 170)))
      by (apply armFrame_passes || lra).
    rewrite bicep_curled by (apply armFrame_passes || lra || reflexivity).
    match goal with
    | |- context [setRepCountWith (bicepCurlsUpdater r ?pd) ?s] =>
        destruct (curl_registered r pd s) as (Hc & _); rewrite Hc
    end.
    destruct (Stage_eqb (stage st) up); cbn [repCount setFeedback setStage]; lia.
Qed.

(** Ten curls on a fresh session: two calls, at 5 and at 10. *)
Lemma strength_trigger_every_fifth_rep_witness :
  freshSession initialStore
  /\ marks (frames Strength mountRender (curlCycles 10) initialStore)
     = [Some 5%Z; Some 10%Z].
Proof.
  assert (Hf : freshSession initialStore) by (repeat split).
  split; [exact Hf |].
  exact (proj2 (proj2 (proj2
           (proj2 (proj2 strength_trigger_every_fifth_rep)
              mountRender (curlCycles 10) initialStore Hf)))
           (curlCycles_count mountRender 10 initialStore)).
Defined.

(** ** High knees *)

(** One frame with both knees up: the left branch is tried first and taken
    unless the stage is already [left_up], in which case the right branch is
    taken; either way a rep is counted. *)
Lemma highKnees_both_up (r : Render.t) (l : Landmarks) (pd : string)
    (st : Store) :
  bothKneesUp l ->
  analyzeHighKnees r l pd st
  = if Stage_eqb (stage st) left_up
    then setRepCount (repCount st + 1)
           (setFeedback "Nice! Switch." (setStage right_up st))
    else setRepCount (repCount st + 1)
           (setFeedback "Good! Switch." (setStage left_up st)).
Proof.
  intros (lh & lk & rh & rk & E1 & E2 & E3 & E4 & V1 & V2 & K1 & K2).
  unfold analyzeHighKnees. rewrite E1, E2, E3, E4.
  apply lowVisibility_false in V1, V2. rewrite V1, V2. cbn [orb].
  apply Rltb_true in K1, K2. rewrite K1, K2.
  destruct (stage st); reflexivity.
Qed.

Lemma highKnees_both_up_frames (r : Render.t) (ls : list Landmarks)
    (st : Store) :
  Forall bothKneesUp ls ->
  repCount (frames HIIT r ls st) = (repCount st + Z.of_nat (List.length ls))%Z.
Proof.
  intros H. revert st.
  induction H as [| l ls Hl _ IH]; intros st.
  - cbn. lia.
  - unfold frames in *. cbn [fold_left analyze List.length]. rewrite IH.
    rewrite highKnees_both_up by exact Hl.
    destruct (Stage_eqb (stage st) left_up); cbn [repCount setRepCount]; lia.
Qed.

(** C10.  In [analyzeHighKnees], on a frame with both knees above their hips
    the left-knee branch comes first: the stage becomes [left_up] unless it
    already is, and then it becomes [right_up]; each such frame counts a rep,
    so a posture with both knees up held for N frames adds N reps. *)
Theorem both_knees_up_counts_every_frame :
  forall (r : Render.t) (ls : list Landmarks) (st : Store),
    Forall bothKneesUp ls ->
    (forall (l : Landmarks) (poseData : string) (s : Store),
        In l ls ->
        let s' := analyzeHighKnees r l poseData s in
        repCount s' = (repCount s + 1)%Z
        /\ stage s' = (if Stage_eqb (stage s) left_up
                       then right_up else left_up))
    /\ repCount (frames HIIT r ls st)
       = (repCount st + Z.of_nat (List.length ls))%Z.
Proof.
  intros r ls st H. split.
  - intros l poseData s Hin s'. subst s'.
    rewrite Forall_forall in H.
    rewrite highKnees_both_up by (apply H; exact Hin).
    destruct (Stage_eqb (stage s) left_up); now split.
  - now apply highKnees_both_up_frames.
Qed.

Lemma kneesFrame_bothKneesUp (hipY leftKneeY rightKneeY : R) :
  leftKneeY < hipY -> rightKneeY < hipY ->
  bothKneesUp (kneesFrame hipY leftKneeY rightKneeY).
Proof.
  intros Hl Hr.
  exists (pt 0 hipY), (pt 0 leftKneeY), (pt 1 hipY), (pt 1 rightKneeY).
  unfold kneesFrame. rewrite !at_index_frameOf by lia.
  cbn [visibility y pt]. repeat split; lra.
Qed.

(** Both knees held up for three frames of a fresh session: three reps. *)
Lemma both_knees_up_counts_every_frame_witness :
  let l := kneesFrame 1 0 0 in
  Forall bothKneesUp [l; l; l]
  /\ repCount (frames HIIT mountRender [l; l; l] initialStore) = 3%Z.
Proof.
  intros l.
  assert (Hl : bothKneesUp l) by (apply kneesFrame_bothKneesUp; lra).
  assert (H : Forall bothKneesUp [l; l; l]) by (repeat constructor; exact Hl).
  split; [exact H |].
  exact (proj2 (both_knees_up_counts_every_frame mountRender [l; l; l]
                  initialStore H)).
Defined.

(** ** The hold timer *)

Lemma Exercise_eqb_eq (a b : Exercise) : Exercise_eqb a b = true <-> a = b.
Proof. destruct a, b; cbn; split; intros; congruence. Qed.

Lemma AiStatus_eqb_eq (a b : AiStatus) : AiStatus_eqb a b = true <-> a = b.
Proof. destruct a, b; cbn; split; intros; congruence. Qed.

Lemma Stage_eqb_eq (a b : Stage) : Stage_eqb a b = true <-> a = b.
Proof. destruct a, b; cbn; split; intros; congruence. Qed.

(** The interval is live after the effect exactly under its three conditions. *)
Lemma timerEffect_interval (st : Store) :
  interval (timerEffect st) = true
  <-> aiStatus st = ready
      /\ (activeExercise st = Yoga \/ activeExercise st = Running)
      /\ isPoseCorrect st = true.
Proof.
  unfold timerEffect.
  destruct (aiStatus st), (activeExercise st), (isPoseCorrect st); cbn;
    intuition congruence.
Qed.

Lemma tick_timer (st : Store) :
  timer (tick st) = if interval st then (timer st + 1)%Z else timer st.
Proof. unfold tick. now destruct (interval st). Qed.

Lemma tick_interval (st : Store) : interval (tick st) = interval st.
Proof. unfold tick. destruct (interval st) eqn:E; exact E. Qed.

Lemma ticks_live (n : nat) (st : Store) :
  interval st = true ->
  timer (ticks n st) = (timer st + Z.of_nat n)%Z
  /\ interval (ticks n st) = true.
Proof.
  intros Hi. induction n as [| n (IHt & IHi)].
  - cbn. split; [lia | exact Hi].
  - cbn [ticks].
    rewrite tick_timer, tick_interval, IHi. split; [lia | reflexivity].
Qed.

Lemma holdRunning_true (st : Store) :
  holdRunning st = true
  <-> aiStatus st = ready
      /\ (activeExercise st = Yoga \/ activeExercise st = Running)
      /\ isPoseCorrect st = true.
Proof.
  unfold holdRunning.
  destruct (aiStatus st), (activeExercise st), (isPoseCorrect st); cbn;
    intuition congruence.
Qed.

Lemma timerEffect_inSync (st : Store) : timerInSync (timerEffect st).
Proof.
  unfold timerInSync, holdRunning, timerEffect.
  destruct (aiStatus st) eqn:E1, (activeExercise st) eqn:E2,
    (isPoseCorrect st) eqn:E3; cbn; rewrite E1, E2, E3; reflexivity.
Qed.

(** No handler touches the interval: only the timer effect does. *)
Lemma handle_interval (ev : Event) (st : Store) :
  interval (handle ev st) = interval st.
Proof.
  destruct ev as [| | [[| p ps] |] | | ex | i o]; cbn [handle onResults];
    try reflexivity.
  - rewrite analyzePose_analyze. cbn [analyze Render.activeExercise mountRender
      render_of initialStore activeExercise].
    destruct (bicep_cases (p :: ps) st)
      as [Hr | [(Hp & Ha) | [(Hp & Ha & Hs) | (Hp & Ha & Hs)]]].
    + now rewrite gate_Strength by exact Hr.
    + rewrite bicep_extended by assumption.
      now destruct (Stage_eqb (stage st) up).
    + rewrite bicep_curled by assumption.
      match goal with
      | |- context [setRepCountWith (bicepCurlsUpdater ?r ?pd) ?s] =>
          destruct (curl_registered r pd s) as (_ & _ & _ & _ & _ & _ & _ & H)
      end.
      exact H.
    + now rewrite bicep_idle by assumption.
  - apply tick_interval.
  - destruct (nth_error (inFlight st) i); [| reflexivity].
    unfold getAICoaching_resume. now destruct (callMistralAPI o).
Qed.

Lemma timerDepsChanged_false (st st' : Store) :
  timerDepsChanged st st' = false -> holdRunning st' = holdRunning st.
Proof.
  unfold timerDepsChanged, holdRunning. intros H.
  apply negb_false_iff in H. rewrite !andb_true_iff in H.
  destruct H as ((H1 & H2) & H3).
  apply Bool.eqb_prop in H1. apply Exercise_eqb_eq in H2.
  apply AiStatus_eqb_eq in H3. now rewrite H1, H2, H3.
Qed.

(** Every step leaves the interval in line with the state. *)
Lemma step_inSync (st : Store) (ev : Event) :
  timerInSync st -> timerInSync (step st ev).
Proof.
  intros H. unfold step.
  destruct (timerDepsChanged st (handle ev st)) eqn:E.
  - apply timerEffect_inSync.
  - unfold timerInSync in *.
    now rewrite handle_interval, (timerDepsChanged_false _ _ E).
Qed.

Lemma step_Tick (st : Store) : step st Tick = tick st.
Proof.
  unfold step, handle, timerDepsChanged, tick.
  destruct (interval st); cbn;
    destruct (isPoseCorrect st), (activeExercise st), (aiStatus st);
    reflexivity.
Qed.

(** C7.  The timer effect keeps its interval live exactly while the exercise
    is Yoga or Running, the engine is ready and the pose is correct, and
    every step of the component preserves this; so a tick adds exactly one
    second if and only if these three conditions hold, and otherwise adds
    nothing.  The effect of a state whose pose is not correct sets the timer
    to zero, and so does the step of any event that turns the flag from true
    to false; a correct hold that follows counts from zero again. *)
Theorem hold_timer_advances_iff_holding :
  forall st : Store,
    let st1 := timerEffect st in
    (timer (tick st1) = (timer st1 + 1)%Z
     <-> aiStatus st = ready
         /\ (activeExercise st = Yoga \/ activeExercise st = Running)
         /\ isPoseCorrect st = true)
    /\ (timer (tick st1) = timer st1 \/ timer (tick st1) = (timer st1 + 1)%Z)
    /\ (timerInSync st1
        /\ forall ev : Event, timerInSync st -> timerInSync (step st ev))
    /\ (timerInSync st ->
        (timer (step st Tick) = (timer st + 1)%Z
         <-> aiStatus st = ready
             /\ (activeExercise st = Yoga \/ activeExercise st = Running)
             /\ isPoseCorrect st = true)
        /\ (timer (step st Tick) = timer st
            \/ timer (step st Tick) = (timer st + 1)%Z))
    /\ (isPoseCorrect st = false -> timer st1 = 0%Z /\ timer (tick st1) = 0%Z)
    /\ (forall ev : Event,
          isPoseCorrect st = true -> isPoseCorrect (handle ev st) = false ->
          timer (step st ev) = 0%Z)
    /\ (forall n : nat,
          aiStatus st = ready ->
          activeExercise st = Yoga \/ activeExercise st = Running ->
          timer (ticks n (timerEffect (setIsPoseCorrect true
                   (timerEffect (setIsPoseCorrect false st)))))
          = Z.of_nat n).
Proof.
  intros st st1. subst st1.
  pose proof (timerEffect_interval st) as Hi.
  rewrite tick_timer.
  split; [| split; [| split; [| split; [| split; [| split]]]]].
  - destruct (interval (timerEffect st)).
    + split; [intros _; now apply Hi | reflexivity].
    + split; [lia | intros H; apply Hi in H; discriminate].
  - destruct (interval (timerEffect st)); auto.
  - split; [apply timerEffect_inSync | intros ev; apply step_inSync].
  - intros Hs. rewrite step_Tick, tick_timer, Hs.
    pose proof (holdRunning_true st) as Hh.
    destruct (holdRunning st).
    + split; [| auto]. split; [intros _; now apply Hh | reflexivity].
    + split; [| auto].
      split; [lia | intros H; apply Hh in H; discriminate].
  - intros Hp. unfold timerEffect. rewrite Hp, andb_false_r. now cbn.
  - intros ev Ht Hf. unfold step, timerDepsChanged. rewrite Ht, Hf. cbn.
    unfold timerEffect. rewrite Hf, andb_false_r. now cbn.
  - intros n Hr He.
    set (st0 := timerEffect (setIsPoseCorrect false st)).
    assert (H0 : timer st0 = 0%Z /\ aiStatus st0 = ready
                 /\ activeExercise st0 = activeExercise st).
    { unfold st0, timerEffect.
      cbn [isPoseCorrect setIsPoseCorrect]. rewrite andb_false_r. cbn.
      auto. }
    destruct H0 as (Ht0 & Hr0 & He0).
    set (st2 := timerEffect (setIsPoseCorrect true st0)).
    assert (Hlive : interval st2 = true).
    { apply timerEffect_interval. cbn [aiStatus activeExercise isPoseCorrect
        setIsPoseCorrect]. rewrite He0. auto. }
    assert (Ht2 : timer st2 = 0%Z).
    { unfold st2, timerEffect.
      cbn [aiStatus activeExercise isPoseCorrect setIsPoseCorrect].
      rewrite Hr0, He0.
      destruct He as [-> | ->]; cbn; exact Ht0. }
    destruct (ticks_live n st2 Hlive) as (Hn & _). rewrite Hn, Ht2. lia.
Qed.

(** A Yoga hold that is correct, with the engine ready: the tick after the
    effect adds one second. *)
Lemma hold_timer_advances_iff_holding_witness :
  timer (tick (timerEffect yogaReady))
  = (timer (timerEffect yogaReady) + 1)%Z.
Proof.
  exact (proj2 (proj1 (hold_timer_advances_iff_holding yogaReady))
           (conj eq_refl (conj (or_introl eq_refl) eq_refl))).
Defined.

(** ** Failure of the coaching call *)

Lemma callMistralAPI_failed (o : FetchOutcome) :
  fetchFailed o = true ->
  callMistralAPI o = resolved "AI coach is temporarily unavailable.".
Proof. destruct o as [| e s | [c |]]; cbn; congruence. Qed.

Lemma callMistralAPI_never_rejects (o : FetchOutcome) :
  exists s : string, callMistralAPI o = resolved s /\ s <> EmptyString.
Proof.
  destruct o as [| e s | [[| [[| a t] |] c] |]]; cbn; eexists; split;
    try reflexivity; discriminate.
Qed.

(** C8 (as amended).  When the HTTP call of a request in flight fails,
    [callMistralAPI] absorbs the failure and resolves to its fixed fallback
    text, which becomes the coaching message (it is never empty, and the
    promise never rejects); the request is not sent again, the in-flight flag
    is cleared, and the stage, the mark, the rep count, the timer and the
    pose-correct flag stay as they were. *)
Theorem coaching_failure_shows_fallback :
  forall (o : FetchOutcome) (i : nat) (c : Context.t) (st : Store),
    fetchFailed o = true ->
    nth_error (inFlight st) i = Some c ->
    let st' := step st (Response i o) in
    aiCoachMessage st' = "AI coach is temporarily unavailable."
    /\ callMistralAPI o <> rejected
    /\ isLoadingAI st' = false
    /\ inFlight st' = remove_nth i (inFlight st)
    /\ coachingCalls st' = coachingCalls st
    /\ stage st' = stage st
    /\ lastAITrigger st' = lastAITrigger st
    /\ repCount st' = repCount st
    /\ timer st' = timer st
    /\ isPoseCorrect st' = isPoseCorrect st.
Proof.
  intros o i c st Hf Hi st'. subst st'.
  unfold step, handle. rewrite Hi, (callMistralAPI_failed o Hf).
  unfold timerDepsChanged, getAICoaching_resume.
  cbn [isPoseCorrect activeExercise aiStatus setIsLoadingAI setAiCoachMessage
       setInFlight].
  replace (Bool.eqb (isPoseCorrect st) (isPoseCorrect st)) with true
    by (now destruct (isPoseCorrect st)).
  replace (Exercise_eqb (activeExercise st) (activeExercise st)) with true
    by (now destruct (activeExercise st)).
  replace (AiStatus_eqb (aiStatus st) (aiStatus st)) with true
    by (now destruct (aiStatus st)).
  cbn. repeat split. discriminate.
Qed.

(** The one request of [awaitingReply] fails on the network. *)
Lemma coaching_failure_shows_fallback_witness :
  let st' := step awaitingReply (Response 0 fetchThrows) in
  aiCoachMessage st' = "AI coach is temporarily unavailable."
  /\ isLoadingAI st' = false
  /\ inFlight st' = []
  /\ repCount st' = 5%Z.
Proof.
  pose proof (coaching_failure_shows_fallback fetchThrows 0
                (setOfFiveCall 5 EmptyString) awaitingReply eq_refl eq_refl)
    as H.
  cbv zeta in H. decompose [and] H.
  repeat split; assumption.
Defined.

(** C8 as stated fails: after a network failure the coaching message is the
    fallback text, not the empty string. *)
Lemma coaching_failure_counterexample :
  fetchFailed fetchThrows = true
  /\ inFlight awaitingReply = [setOfFiveCall 5 EmptyString]
  /\ aiCoachMessage (step awaitingReply (Response 0 fetchThrows))
     <> EmptyString.
Proof. repeat split. discriminate. Qed.

(** ** The time-based coaching trigger *)

Lemma timeMilestone_reflect (b t m : Z) :
  ((0 <? t)%Z && (Z.rem t b =? 0)%Z && negb (m =? (t / b))%Z)%bool = true
  <-> timeMilestone b t m.
Proof.
  unfold timeMilestone.
  rewrite !andb_true_iff, negb_true_iff, Z.ltb_lt, Z.eqb_eq, Z.eqb_neq.
  intuition congruence.
Qed.

(** The decision of [warriorTrigger]. *)
Lemma warriorTrigger_decision (r : Render.t) (issue pd : string) (st : Store) :
  let st' := warriorTrigger r issue pd st in
  (yogaMilestone r (lastAITrigger st) ->
   coachingCalls st'
   = coachingCalls st
     ++ [Context.mk Yoga None (Some (Render.timer r)) issue pd]
   /\ lastAITrigger st' = (Render.timer r / 10)%Z)
  /\ (~ yogaMilestone r (lastAITrigger st) ->
      coachingCalls st' = coachingCalls st
      /\ lastAITrigger st' = lastAITrigger st).
Proof.
  intros st'. subst st'. unfold warriorTrigger, yogaMilestone, getAICoaching.
  pose proof (timeMilestone_reflect 10 (Render.timer r) (lastAITrigger st)) as Hm.
  destruct (Render.isPoseCorrect r); cbn [andb].
  - destruct (_ && _ && _)%bool.
    + destruct (Render.isLoadingAI r); cbn; split; intros; tauto.
    + assert (~ timeMilestone 10 (Render.timer r) (lastAITrigger st))
        by (intros H; apply Hm in H; discriminate).
      cbn; split; intros; tauto.
  - split; [intros (H & _); discriminate | intros _; now split].
Qed.

(** The decision of [runningTrigger]. *)
Lemma runningTrigger_decision (r : Render.t) (issue pd : string) (st : Store) :
  let st' := runningTrigger r issue pd st in
  (runningMilestone r (lastAITrigger st) ->
   coachingCalls st'
   = coachingCalls st
     ++ [Context.mk Running None (Some (Render.timer r)) issue pd]
   /\ lastAITrigger st' = (Render.timer r / 30)%Z)
  /\ (~ runningMilestone r (lastAITrigger st) ->
      coachingCalls st' = coachingCalls st
      /\ lastAITrigger st' = lastAITrigger st).
Proof.
  intros st'. subst st'. unfold runningTrigger, runningMilestone, getAICoaching.
  pose proof (timeMilestone_reflect 30 (Render.timer r) (lastAITrigger st)) as Hm.
  destruct (_ && _ && _)%bool.
  - destruct (Render.isLoadingAI r); cbn; split; intros; tauto.
  - assert (~ timeMilestone 30 (Render.timer r) (lastAITrigger st))
      by (intros H; apply Hm in H; discriminate).
    cbn; split; intros; tauto.
Qed.

(** What a frame that passes the test of [analyzeWarriorPose] holds. *)
Lemma passes_Yoga (l : Landmarks) :
  passes_gate Yoga l ->
  exists ls rs lk lh la,
    at_index l 11 = Some ls /\ at_index l 12 = Some rs
    /\ at_index l 25 = Some lk /\ at_index l 23 = Some lh
    /\ at_index l 27 = Some la /\ lowVisibility ls = false.
Proof.
  intros H.
  destruct (at_index l 11) as [ls |] eqn:E1;
    [| exfalso; apply H; left; exists 11%nat; simpl; intuition].
  destruct (at_index l 12) as [rs |] eqn:E2;
    [| exfalso; apply H; left; exists 12%nat; simpl; intuition].
  destruct (at_index l 25) as [lk |] eqn:E3;
    [| exfalso; apply H; left; exists 25%nat; simpl; intuition].
  destruct (at_index l 23) as [lh |] eqn:E4;
    [| exfalso; apply H; left; exists 23%nat; simpl; intuition].
  destruct (at_index l 27) as [la |] eqn:E5;
    [| exfalso; apply H; left; exists 27%nat; simpl; intuition].
  exists ls, rs, lk, lh, la. repeat split.
  destruct (lowVisibility_cases ls) as [Hs | Hs]; [| exact Hs].
  exfalso; apply H; right; exists 11%nat, ls; simpl; intuition.
Qed.

(** What a frame that passes the test of [analyzeRunningForm] holds. *)
Lemma passes_Running (l : Landmarks) :
  passes_gate Running l ->
  exists ls lh lk,
    at_index l 11 = Some ls /\ at_index l 23 = Some lh
    /\ at_index l 25 = Some lk
    /\ lowVisibility ls = false /\ lowVisibility lh = false.
Proof.
  intros H.
  destruct (at_index l 11) as [ls |] eqn:E1;
    [| exfalso; apply H; left; exists 11%nat; simpl; intuition].
  destruct (at_index l 23) as [lh |] eqn:E2;
    [| exfalso; apply H; left; exists 23%nat; simpl; intuition].
  destruct (at_index l 25) as [lk |] eqn:E3;
    [| exfalso; apply H; left; exists 25%nat; simpl; intuition].
  exists ls, lh, lk. repeat split.
  - destruct (lowVisibility_cases ls) as [Hs | Hs]; [| exact Hs].
    exfalso; apply H; right; exists 11%nat, ls; simpl; intuition.
  - destruct (lowVisibility_cases lh) as [Hs | Hs]; [| exact Hs].
    exfalso; apply H; right; exists 23%nat, lh; simpl; intuition.
Qed.

(** A frame let through by [analyzeWarriorPose] ends in its trigger, entered
    with the mark and the calls it found. *)
Lemma warrior_reaches_trigger (r : Render.t) (l : Landmarks) (pd : string)
    (st : Store) :
  passes_gate Yoga l ->
  exists (issue : string) (st0 : Store),
    analyzeWarriorPose r l pd st = warriorTrigger r issue pd st0
    /\ lastAITrigger st0 = lastAITrigger st
    /\ coachingCalls st0 = coachingCalls st.
Proof.
  intros Hg.
  destruct (passes_Yoga l Hg) as (ls & rs & lk & lh & la & E1 & E2 & E3 & E4 & E5 & V).
  unfold analyzeWarriorPose. rewrite E1, E2, E3, E4, E5, V.
  destruct (_ && _)%bool.
  - eexists _, _. split; [reflexivity |].
    destruct (negb (Render.isPoseCorrect r)); now split.
  - eexists _, _. split; [reflexivity | now split].
Qed.

(** The same for [analyzeRunningForm]. *)
Lemma running_reaches_trigger (r : Render.t) (l : Landmarks) (pd : string)
    (st : Store) :
  passes_gate Running l ->
  exists (issue : string) (st0 : Store),
    analyzeRunningForm r l pd st = runningTrigger r issue pd st0
    /\ lastAITrigger st0 = lastAITrigger st
    /\ coachingCalls st0 = coachingCalls st.
Proof.
  intros Hg.
  destruct (passes_Running l Hg) as (ls & lh & lk & E1 & E2 & E3 & V1 & V2).
  unfold analyzeRunningForm. rewrite E1, E2, E3, V1, V2. cbn [orb].
  destruct (Rltb _ 165).
  - eexists _, _. split; [reflexivity |].
    destruct (Render.isPoseCorrect r); now split.
  - eexists _, _. split; [reflexivity |].
    destruct (negb (Render.isPoseCorrect r)); now split.
Qed.

(** C4 (as amended).  A frame that passes the first test of
    [analyzeWarriorPose] calls for coaching exactly when the pose-correct flag
    of the render is true and the timer [t] of the render satisfies [t > 0],
    [t % 10 = 0] and [floor (t / 10) <> lastAITrigger]; one that passes the
    test of [analyzeRunningForm], exactly when [t > 0], [t % 30 = 0] and
    [floor (t / 30) <> lastAITrigger]; the call sets [lastAITrigger] to that
    bucket.  A frame that the first test turns away makes no call and leaves
    the mark. *)
Theorem hold_trigger_by_time :
  (forall (r : Render.t) (l : Landmarks) (poseData : string) (st : Store),
      passes_gate Yoga l ->
      let st' := analyzeWarriorPose r l poseData st in
      (yogaMilestone r (lastAITrigger st) ->
       (exists issue : string,
           coachingCalls st'
           = coachingCalls st
             ++ [Context.mk Yoga None (Some (Render.timer r)) issue poseData])
       /\ lastAITrigger st' = (Render.timer r / 10)%Z)
      /\ (~ yogaMilestone r (lastAITrigger st) ->
          coachingCalls st' = coachingCalls st
          /\ lastAITrigger st' = lastAITrigger st))
  /\ (forall (r : Render.t) (l : Landmarks) (poseData : string) (st : Store),
      passes_gate Running l ->
      let st' := analyzeRunningForm r l poseData st in
      (runningMilestone r (lastAITrigger st) ->
       (exists issue : string,
           coachingCalls st'
           = coachingCalls st
             ++ [Context.mk Running None (Some (Render.timer r)) issue
                   poseData])
       /\ lastAITrigger st' = (Render.timer r / 30)%Z)
      /\ (~ runningMilestone r (lastAITrigger st) ->
          coachingCalls st' = coachingCalls st
          /\ lastAITrigger st' = lastAITrigger st))
  /\ (forall (ex : Exercise) (r : Render.t) (l : Landmarks) (poseData : string)
             (st : Store),
      ex = Yoga \/ ex = Running ->
      rejected_by_gate ex l ->
      let st' := analyze ex r l poseData st in
      coachingCalls st' = coachingCalls st
      /\ lastAITrigger st' = lastAITrigger st).
Proof.
  split; [| split].
  - intros r l poseData st Hg st'. subst st'.
    destruct (warrior_reaches_trigger r l poseData st Hg)
      as (issue & st0 & -> & Hm & Hc).
    destruct (warriorTrigger_decision r issue poseData st0) as (Hyes & Hno).
    rewrite Hm, Hc in Hyes, Hno. split.
    + intros H. destruct (Hyes H) as (H1 & H2). split; [now exists issue | exact H2].
    + exact Hno.
  - intros r l poseData st Hg st'. subst st'.
    destruct (running_reaches_trigger r l poseData st Hg)
      as (issue & st0 & -> & Hm & Hc).
    destruct (runningTrigger_decision r issue poseData st0) as (Hyes & Hno).
    rewrite Hm, Hc in Hyes, Hno. split.
    + intros H. destruct (Hyes H) as (H1 & H2). split; [now exists issue | exact H2].
    + exact Hno.
  - intros ex r l poseData st [-> | ->] Hr st'; subst st'; cbn [analyze].
    + rewrite gate_Yoga by exact Hr. now split.
    + rewrite gate_Running by exact Hr. now split.
Qed.

Lemma allAtOrigin_passes_Yoga : passes_gate Yoga allAtOrigin.
Proof.
  intros [(i & Hi & Ha) | (i & p & Hi & Ha & Hv)]; simpl in Hi;
    repeat (destruct Hi as [<- | Hi]; [| try contradiction]);
    unfold allAtOrigin in Ha; rewrite at_index_frameOf in Ha by lia;
    try discriminate.
  injection Ha as <-. cbn [visibility pt] in Hv. lra.
Qed.

(** Ten seconds into a correct Yoga hold, with no call made yet: the frame
    calls for coaching and the mark becomes 1. *)
Lemma hold_trigger_by_time_witness :
  let st := handleExerciseChange Yoga initialStore in
  let st' := analyzeWarriorPose yogaTenSecondsHeld allAtOrigin EmptyString st in
  passes_gate Yoga allAtOrigin
  /\ yogaMilestone yogaTenSecondsHeld (lastAITrigger st)
  /\ (exists issue : string,
         coachingCalls st'
         = [Context.mk Yoga None (Some 10%Z) issue EmptyString])
  /\ lastAITrigger st' = 1%Z.
Proof.
  intros st st'.
  assert (Hm : yogaMilestone yogaTenSecondsHeld (lastAITrigger st)).
  { split; [reflexivity |]. repeat split. discriminate. }
  split; [exact allAtOrigin_passes_Yoga | split; [exact Hm |]].
  exact (proj1 (proj1 hold_trigger_by_time yogaTenSecondsHeld allAtOrigin
                  EmptyString st allAtOrigin_passes_Yoga) Hm).
Defined.

(** C4 as stated fails for Yoga: with ten seconds on the timer and the mark
    at 0 the claim's condition holds, yet a frame analysed under a render
    whose pose-correct flag is false makes no call and leaves the mark. *)
Lemma hold_trigger_counterexample :
  let st := handleExerciseChange Yoga initialStore in
  let st' :=
    analyzeWarriorPose yogaTenSecondsLapsed allAtOrigin EmptyString st in
  passes_gate Yoga allAtOrigin
  /\ timeMilestone 10 (Render.timer yogaTenSecondsLapsed) (lastAITrigger st)
  /\ coachingCalls st = []
  /\ coachingCalls st' = []
  /\ lastAITrigger st' = 0%Z.
Proof.
  intros st st'.
  destruct (warrior_reaches_trigger yogaTenSecondsLapsed allAtOrigin EmptyString
              st allAtOrigin_passes_Yoga) as (issue & st0 & He & Hm & Hc).
  destruct (warriorTrigger_decision yogaTenSecondsLapsed issue EmptyString st0)
    as (_ & Hno).
  fold st' in He. rewrite <- He in Hno.
  destruct Hno as (H1 & H2).
  { intros (H & _). discriminate H. }
  rewrite H1, H2, Hm, Hc.
  repeat split; try exact allAtOrigin_passes_Yoga. discriminate.
Qed.

(** ** The in-flight guard *)

(** A copy of [getAICoaching] made by a render that saw the flag set drops
    the request; one made by a render that saw it unset sends it. *)
Lemma getAICoaching_guard (r : Render.t) (c : Context.t) (st : Store) :
  inFlight (getAICoaching r c st)
  = if Render.isLoadingAI r then inFlight st else inFlight st ++ [c].
Proof. unfold getAICoaching. now destruct (Render.isLoadingAI r). Qed.

(** [analyzeBicepCurls] leaves alone what the timer effect depends on. *)
Lemma bicep_keeps (r : Render.t) (l : Landmarks) (pd : string) (st : Store) :
  let st' := analyzeBicepCurls r l pd st in
  isPoseCorrect st' = isPoseCorrect st
  /\ activeExercise st' = activeExercise st
  /\ aiStatus st' = aiStatus st.
Proof.
  intros st'. subst st'.
  destruct (bicep_cases l st)
    as [Hr | [(Hp & Ha) | [(Hp & Ha & Hs) | (Hp & Ha & Hs)]]].
  - rewrite gate_Strength by exact Hr. now repeat split.
  - rewrite bicep_extended by assumption.
    destruct (Stage_eqb (stage st) up); now repeat split.
  - rewrite bicep_curled by assumption.
    destruct (curl_registered r pd
                (setFeedback "Peak contraction! Lower slowly." (setStage up st)))
      as (_ & _ & _ & H1 & _ & H2 & H3 & _).
    now repeat split.
  - rewrite bicep_idle by assumption. now repeat split.
Qed.

Lemma run_cons (ev : Event) (evs : list Event) (st : Store) :
  run (ev :: evs) st = run evs (step st ev).
Proof. reflexivity. Qed.

Lemma timerDepsChanged_same (st st' : Store) :
  isPoseCorrect st' = isPoseCorrect st ->
  activeExercise st' = activeExercise st ->
  aiStatus st' = aiStatus st ->
  timerDepsChanged st st' = false.
Proof.
  intros H1 H2 H3. unfold timerDepsChanged. rewrite H1, H2, H3.
  destruct (isPoseCorrect st), (activeExercise st), (aiStatus st); reflexivity.
Qed.

(** A frame with landmarks reaches [analyzeBicepCurls], whatever exercise is
    selected: [onResults] dispatches on the exercise of the first render. *)
Lemma step_Results (l : Landmarks) (st : Store) :
  l <> [] ->
  step st (Results (Some l))
  = analyzeBicepCurls mountRender l (getPoseDataString l) st.
Proof.
  intros Hl. destruct l as [| p ps]; [contradiction |].
  unfold step, handle, onResults.
  change (analyzePose mountRender (p :: ps) st)
    with (analyzeBicepCurls mountRender (p :: ps)
            (getPoseDataString (p :: ps)) st).
  destruct (bicep_keeps mountRender (p :: ps) (getPoseDataString (p :: ps)) st)
    as (H1 & H2 & H3).
  now rewrite timerDepsChanged_same.
Qed.

Lemma curlCycles_nonempty (n : nat) : Forall (fun l => l <> []) (curlCycles n).
Proof.
  induction n as [| n IH]; [constructor |].
  change (curlCycles (S n))
    with (armFrame (wristAt 170) :: armFrame (wristAt 35) :: curlCycles n).
  repeat constructor; try exact IH; discriminate.
Qed.

Lemma run_Results (ls : list Landmarks) (st : Store) :
  Forall (fun l => l <> []) ls ->
  run (map (fun l => Results (Some l)) ls) st = frames Strength mountRender ls st.
Proof.
  intros H. revert st. induction H as [| l ls Hl _ IH]; intros st.
  - reflexivity.
  - unfold run, frames in *. cbn [map fold_left analyze].
    rewrite step_Results by exact Hl. apply IH.
Qed.

Lemma allCallsInFlight_frame (l : Landmarks) (pd : string) (st : Store) :
  allCallsInFlight st ->
  allCallsInFlight (analyzeBicepCurls mountRender l pd st).
Proof.
  intros (Hi & Hl).
  destruct (bicep_cases l st)
    as [Hr | [(Hp & Ha) | [(Hp & Ha & Hs) | (Hp & Ha & Hs)]]].
  - rewrite gate_Strength by exact Hr. now split.
  - rewrite bicep_extended by assumption.
    destruct (Stage_eqb (stage st) up); now split.
  - rewrite bicep_curled by assumption.
    unfold allCallsInFlight, setRepCountWith, bicepCurlsUpdater, getAICoaching.
    cbn [Render.isLoadingAI mountRender render_of initialStore isLoadingAI].
    destruct (_ && _ && _)%bool; cbn.
    + rewrite Hi. split; [reflexivity |].
      now destruct (coachingCalls st).
    + now split.
  - rewrite bicep_idle by assumption. now split.
Qed.

Lemma allCallsInFlight_frames (ls : list Landmarks) (st : Store) :
  allCallsInFlight st -> allCallsInFlight (frames Strength mountRender ls st).
Proof.
  revert st. induction ls as [| l ls IH]; intros st H; [exact H |].
  apply IH. now apply allCallsInFlight_frame.
Qed.

(** The state of a run of curls: count, flag and requests in flight. *)
Lemma curls_in_flight (n : nat) (st : Store) :
  milestonesInStep st -> allCallsInFlight st ->
  let st' := run (curlEvents n) st in
  milestonesInStep st' /\ allCallsInFlight st'
  /\ repCount st' = (repCount st + Z.of_nat n)%Z
  /\ map Context.reps (inFlight st') = multiplesOfFive (repCount st' / 5).
Proof.
  intros Hm Hf st'. subst st'. unfold curlEvents.
  rewrite run_Results by apply curlCycles_nonempty.
  pose proof (milestonesInStep_frames mountRender (curlCycles n) st Hm) as Hm'.
  pose proof (allCallsInFlight_frames (curlCycles n) st Hf) as Hf'.
  repeat split; try apply Hm'; try apply Hf'.
  - apply curlCycles_count.
  - destruct Hf' as (-> & _). apply Hm'.
Qed.

(** C2, at the failing input.  On the mounted component, five curls send the
    coaching request of rep 5 and set the in-flight flag; with no response
    in between, five more curls send the request of rep 10 as well: the guard
    of [getAICoaching] reads the flag of the first render, which is unset, so
    two requests are outstanding at once. *)
Theorem stale_guard_sends_second_request :
  let st5 := run (CameraStarted :: curlEvents 5) mountedStore in
  let st10 := run (curlEvents 5) st5 in
  (repCount st5 = 5%Z
   /\ isLoadingAI st5 = true
   /\ map Context.reps (inFlight st5) = [Some 5%Z])
  /\ (repCount st10 = 10%Z
      /\ isLoadingAI st10 = true
      /\ map Context.reps (inFlight st10) = [Some 5%Z; Some 10%Z]).
Proof.
  cbv zeta. rewrite run_cons.
  set (st1 := step mountedStore CameraStarted).
  assert (Hm1 : milestonesInStep st1)
    by (apply freshSession_inStep; repeat split).
  assert (Hf1 : allCallsInFlight st1) by (split; reflexivity).
  assert (Hc1 : repCount st1 = 0%Z) by reflexivity.
  clearbody st1.
  destruct (curls_in_flight 5 st1 Hm1 Hf1) as (Hm5 & Hf5 & Hc5 & Hi5).
  set (st5 := run (curlEvents 5) st1) in *. clearbody st5.
  destruct (curls_in_flight 5 st5 Hm5 Hf5) as (Hm10 & Hf10 & Hc10 & Hi10).
  set (st10 := run (curlEvents 5) st5) in *. clearbody st10.
  assert (H5 : repCount st5 = 5%Z) by (rewrite Hc5, Hc1; reflexivity).
  assert (H10 : repCount st10 = 10%Z) by (rewrite Hc10, H5; reflexivity).
  rewrite H5 in Hi5. rewrite H10 in Hi10.
  change (multiplesOfFive (5 / 5)) with [Some 5%Z] in Hi5.
  change (multiplesOfFive (10 / 5)) with [Some 5%Z; Some 10%Z] in Hi10.
  destruct Hf5 as (Hq5 & Hl5). destruct Hf10 as (Hq10 & Hl10).
  repeat split; try assumption.
  - rewrite Hl5, <- Hq5. destruct (inFlight st5); [discriminate | reflexivity].
  - rewrite Hl10, <- Hq10.
    destruct (inFlight st10); [discriminate | reflexivity].
Qed.

(** * Further properties of the component *)

(** ** Jumping jacks *)

(** [analyzeJumpingJacks] on a frame it lets through, by the values of its
    two tests. *)
Lemma jumpingJacks_frame (r : Render.t) (l : Landmarks) (pd : string)
    (st : Store) (legs arms : bool) :
  jackFrame legs arms l ->
  analyzeJumpingJacks r l pd st
  = if (negb legs && negb arms)%bool then
      setStage down
        (if Stage_eqb (stage st) up
         then setFeedback "Ready for the next jump!" st else st)
    else if (legs && arms && Stage_eqb (stage st) down)%bool then
      setRepCount (repCount st + 1)
        (setFeedback "Excellent! Return to start." (setStage up st))
    else if (Stage_eqb (stage st) down && (legs || arms))%bool then
      if (legs && negb arms)%bool then setFeedback "Bring your arms up!" st
      else if (negb legs && arms)%bool then
        setFeedback "Jump your feet out!" st
      else st
    else st.
Proof.
  intros (ls & rs & lh & rh & la & ra & lw & rw
          & E1 & E2 & E3 & E4 & E5 & E6 & E7 & E8 & V & -> & ->).
  unfold analyzeJumpingJacks.
  rewrite E1, E2, E3, E4, E5, E6, E7, E8, V. reflexivity.
Qed.


Lemma jack_held_from_other_stage (r : Render.t) (ls : list Landmarks)
    (st : Store) :
  stage st <> down -> Forall (jackFrame true true) ls ->
  frames Cardio r ls st = st.
Proof.
  intros Hs H. induction H as [| l ls Hl _ IH]; [reflexivity |].
  unfold frames in *. cbn [fold_left analyze].
  rewrite (jumpingJacks_frame r l _ st true true Hl). cbn [negb andb].
  destruct (stage st); try congruence; exact IH.
Qed.

(** X2.  A jumping jack held over several frames (legs apart and arms up in
    each) is counted once if the stage was down when it began, and not at all
    otherwise: the next count needs the neutral position in between. *)
Theorem jumping_jack_held_counts_once :
  forall (r : Render.t) (l : Landmarks) (ls : list Landmarks) (st : Store),
    Forall (jackFrame true true) (l :: ls) ->
    repCount (frames Cardio r (l :: ls) st)
    = (if Stage_eqb (stage st) down then repCount st + 1 else repCount st)%Z
    /\ (stage st = down -> stage (frames Cardio r (l :: ls) st) = up)
    /\ (stage st <> down -> frames Cardio r (l :: ls) st = st).
Proof.
  intros r l ls st H.
  assert (Hother : stage st <> down -> frames Cardio r (l :: ls) st = st)
    by (intros Hs; now apply jack_held_from_other_stage).
  inversion H as [| l0 ls0 Hl Hls]; subst.
  destruct (stage st) eqn:Es; cbn [Stage_eqb];
    try (rewrite Hother by discriminate; rewrite ?Es;
         repeat split; congruence).
  change (frames Cardio r (l :: ls) st)
    with (frames Cardio r ls
            (analyzeJumpingJacks r l (getPoseDataString l) st)).
  rewrite (jumpingJacks_frame r l _ st true true Hl), Es. cbn [negb andb Stage_eqb].
  rewrite jack_held_from_other_stage by (cbn; congruence || assumption).
  repeat split; congruence.
Qed.

Lemma Rabs_0_minus_1 : Rabs (0 - 1) = 1.
Proof. unfold Rabs. destruct (Rcase_abs (0 - 1)); lra. Qed.

Lemma Rabs_0_minus (g : R) : 0 <= g -> Rabs (0 - g) = g.
Proof. intros H. unfold Rabs. destruct (Rcase_abs (0 - g)); lra. Qed.

(** [jackBody] with the ankles wide and the wrists above the shoulders. *)
Lemma jackBody_up (gap wristY : R) :
  12 / 10 < gap -> wristY < 1 -> jackFrame true true (jackBody gap wristY).
Proof.
  intros Hg Hw.
  exists (pt 0 1), (pt 1 1), (pt 0 2), (pt 1 2), (pt 0 3), (pt gap 3),
    (pt 0 wristY), (pt 1 wristY).
  unfold jackBody. rewrite !at_index_frameOf by lia.
  cbn [x y pt]. rewrite pt_visible, Rabs_0_minus_1, Rabs_0_minus by lra.
  repeat split.
  - symmetry. apply Rltb_true. lra.
  - symmetry. apply andb_true_iff. split; apply Rltb_true; lra.
Qed.

(** [jackBody] with the feet together and the wrists below the shoulders. *)
Lemma jackBody_neutral (gap wristY : R) :
  0 <= gap <= 12 / 10 -> 1 <= wristY ->
  jackFrame false false (jackBody gap wristY).
Proof.
  intros Hg Hw.
  exists (pt 0 1), (pt 1 1), (pt 0 2), (pt 1 2), (pt 0 3), (pt gap 3),
    (pt 0 wristY), (pt 1 wristY).
  unfold jackBody. rewrite !at_index_frameOf by lia.
  cbn [x y pt]. rewrite pt_visible, Rabs_0_minus_1, Rabs_0_minus by lra.
  repeat split.
  - symmetry. apply Rltb_false. lra.
  - symmetry. apply andb_false_iff. left. apply Rltb_false. lra.
Qed.


(** A jack held for three frames from the stage down is counted once. *)
Lemma jumping_jack_held_counts_once_witness :
  let l := jackBody 3 0 in
  Forall (jackFrame true true) [l; l; l]
  /\ repCount (frames Cardio mountRender [l; l; l] jacksReady) = 1%Z.
Proof.
  intros l.
  assert (Hl : jackFrame true true l) by (apply jackBody_up; lra).
  assert (H : Forall (jackFrame true true) [l; l; l])
    by (repeat constructor; exact Hl).
  split; [exact H |].
  exact (proj1 (jumping_jack_held_counts_once mountRender l [l; l] jacksReady
                  H)).
Defined.

(** ** High knees, one knee at a time *)

(** [analyzeHighKnees] on a frame it lets through, by the values of its two
    tests. *)
Lemma highKnees_frame (r : Render.t) (l : Landmarks) (pd : string)
    (st : Store) (left right : bool) :
  kneesSeen left right l ->
  analyzeHighKnees r l pd st
  = if (left && negb (Stage_eqb (stage st) left_up))%bool then
      setRepCount (repCount st + 1)
        (setFeedback "Good! Switch." (setStage left_up st))
    else if (right && negb (Stage_eqb (stage st) right_up))%bool then
      setRepCount (repCount st + 1)
        (setFeedback "Nice! Switch." (setStage right_up st))
    else if (negb left && negb right
             && (Stage_eqb (stage st) left_up
                 || Stage_eqb (stage st) right_up))%bool then
      setFeedback "Drive those knees up!" (setStage down st)
    else st.
Proof.
  intros (lh & lk & rh & rk & E1 & E2 & E3 & E4 & V1 & V2 & -> & ->).
  unfold analyzeHighKnees. rewrite E1, E2, E3, E4, V1, V2. reflexivity.
Qed.

(** X3.  On a frame that [analyzeHighKnees] lets through, a rep is counted
    exactly when a knee is up whose stage is not the current one; a knee that
    is up alone and stays up changes nothing; and with both knees down the
    stage returns to down, without a count, only from [left_up] or
    [right_up]. *)
Theorem high_knee_counts_on_change_of_side :
  forall (r : Render.t) (l : Landmarks) (poseData : string) (st : Store)
         (left right : bool),
    kneesSeen left right l ->
    let st' := analyzeHighKnees r l poseData st in
    (repCount st' = (repCount st + 1)%Z
     <-> (left = true /\ stage st <> left_up)
         \/ (right = true /\ stage st <> right_up))
    /\ (repCount st' = repCount st \/ repCount st' = (repCount st + 1)%Z)
    /\ (left = true -> stage st <> left_up -> stage st' = left_up)
    /\ (left = true -> right = false -> stage st = left_up -> st' = st)
    /\ (left = false -> right = true -> stage st = right_up -> st' = st)
    /\ (left = false -> right = true -> stage st <> right_up ->
        stage st' = right_up)
    /\ (left = false -> right = false ->
        repCount st' = repCount st
        /\ (stage st = left_up \/ stage st = right_up ->
            stage st' = down /\ feedback st' = "Drive those knees up!")
        /\ (stage st <> left_up -> stage st <> right_up -> st' = st)).
Proof.
  intros r l poseData st left right H st'. subst st'.
  rewrite (highKnees_frame r l poseData st left right H).
  destruct left, right, (stage st) eqn:Es; cbn;
    repeat split; intros; try congruence; try discriminate; try lia;
    try tauto; auto;
    repeat match goal with
      | H : _ /\ _ |- _ => destruct H
      | H : _ \/ _ |- _ => destruct H
      end; try congruence; try discriminate; try lia;
    try (left; split; congruence); try (right; split; congruence).
Qed.

Lemma kneeStage_inj (a b : bool) : a <> b -> kneeStage a <> kneeStage b.
Proof. destruct a, b; cbn; congruence. Qed.

(** One knee raised alone, from a stage other than its own. *)
Lemma single_knee_frame (r : Render.t) (l : Landmarks) (pd : string)
    (st : Store) (side : bool) :
  kneesSeen side (negb side) l -> stage st <> kneeStage side ->
  let st' := analyzeHighKnees r l pd st in
  repCount st' = (repCount st + 1)%Z /\ stage st' = kneeStage side.
Proof.
  intros H Hs st'. subst st'.
  rewrite (highKnees_frame r l pd st side (negb side) H).
  destruct side, (stage st) eqn:Es; cbn in *; try congruence; now split.
Qed.

Lemma alternating_knees_run (r : Render.t) (sides : list bool)
    (ls : list Landmarks) :
  Forall2 (fun side l => kneesSeen side (negb side) l) sides ls ->
  forall st : Store,
    alternating sides ->
    (forall side rest, sides = side :: rest -> stage st <> kneeStage side) ->
    repCount (frames HIIT r ls st)
    = (repCount st + Z.of_nat (List.length ls))%Z.
Proof.
  induction 1 as [| side l sides ls Hl Hrest IH]; intros st Halt Hfirst.
  - cbn. lia.
  - change (frames HIIT r (l :: ls) st)
      with (frames HIIT r ls (analyzeHighKnees r l (getPoseDataString l) st)).
    destruct (single_knee_frame r l (getPoseDataString l) st side Hl
                (Hfirst side sides eq_refl)) as (Hc & Hs).
    rewrite IH.
    + rewrite Hc. cbn [List.length]. lia.
    + destruct sides as [| b rest]; [exact I | exact (proj2 Halt)].
    + intros b rest ->. rewrite Hs.
      apply kneeStage_inj. exact (proj1 Halt).
Qed.

Lemma same_knee_held (r : Render.t) (side : bool) (ls : list Landmarks)
    (st : Store) :
  Forall (kneesSeen side (negb side)) ls -> stage st = kneeStage side ->
  frames HIIT r ls st = st.
Proof.
  intros H Hs. induction H as [| l ls Hl _ IH]; [reflexivity |].
  change (frames HIIT r (l :: ls) st)
    with (frames HIIT r ls (analyzeHighKnees r l (getPoseDataString l) st)).
  rewrite (highKnees_frame r l _ st side (negb side) Hl), Hs.
  destruct side; exact IH.
Qed.

(** X4.  Knees raised alone and in alternation count one rep per frame, from
    any stage other than that of the first knee; the same knee raised alone
    over several frames counts once, or not at all if the stage was already
    that knee's. *)
Theorem alternating_knees_count_each_raise :
  (forall (r : Render.t) (sides : list bool) (ls : list Landmarks)
          (st : Store),
      Forall2 (fun side l => kneesSeen side (negb side) l) sides ls ->
      (forall side rest, sides = side :: rest -> stage st <> kneeStage side) ->
      alternating sides ->
      repCount (frames HIIT r ls st)
      = (repCount st + Z.of_nat (List.length ls))%Z)
  /\ (forall (r : Render.t) (side : bool) (l : Landmarks)
             (ls : list Landmarks) (st : Store),
      Forall (kneesSeen side (negb side)) (l :: ls) ->
      repCount (frames HIIT r (l :: ls) st)
      = (if Stage_eqb (stage st) (kneeStage side)
         then repCount st else repCount st + 1)%Z).
Proof.
  split.
  - intros r sides ls st H Hfirst Halt.
    now apply (alternating_knees_run r sides ls H).
  - intros r side l ls st H.
    destruct (Stage_eqb (stage st) (kneeStage side)) eqn:E.
    + apply Stage_eqb_eq in E. now rewrite (same_knee_held r side (l :: ls)).
    + assert (Hs : stage st <> kneeStage side)
        by (intros Heq; apply Stage_eqb_eq in Heq; congruence).
      inversion H as [| l0 ls0 Hl Hls]; subst.
      change (frames HIIT r (l :: ls) st)
        with (frames HIIT r ls
                (analyzeHighKnees r l (getPoseDataString l) st)).
      destruct (single_knee_frame r l (getPoseDataString l) st side Hl Hs)
        as (Hc & Hst).
      now rewrite (same_knee_held r side ls).
Qed.

(** [kneesFrame] with exactly one knee above its hip. *)
Lemma kneesFrame_single (hipY upY downY : R) (side : bool) :
  upY < hipY -> hipY <= downY ->
  kneesSeen side (negb side)
    (if side then kneesFrame hipY upY downY else kneesFrame hipY downY upY).
Proof.
  intros Hu Hd.
  destruct side.
  - exists (pt 0 hipY), (pt 0 upY), (pt 1 hipY), (pt 1 downY).
    unfold kneesFrame. rewrite !at_index_frameOf by lia.
    cbn [y pt]. rewrite !pt_visible. repeat split; symmetry.
    + apply Rltb_true. lra.
    + apply Rltb_false. lra.
  - exists (pt 0 hipY), (pt 0 downY), (pt 1 hipY), (pt 1 upY).
    unfold kneesFrame. rewrite !at_index_frameOf by lia.
    cbn [y pt]. rewrite !pt_visible. repeat split; symmetry.
    + apply Rltb_false. lra.
    + apply Rltb_true. lra.
Qed.

(** The left knee raised alone on a fresh HIIT session: one rep. *)
Lemma high_knee_counts_on_change_of_side_witness :
  kneesSeen true false (kneesFrame 1 0 2)
  /\ repCount (analyzeHighKnees mountRender (kneesFrame 1 0 2) EmptyString
                 kneesReady)
     = (repCount kneesReady + 1)%Z.
Proof.
  assert (H : kneesSeen true false (kneesFrame 1 0 2))
    by (apply (kneesFrame_single 1 0 2 true); lra).
  split; [exact H |].
  refine (proj2 (proj1 (high_knee_counts_on_change_of_side mountRender
                          (kneesFrame 1 0 2) EmptyString kneesReady true false
                          H)) _).
  left. split; [reflexivity | discriminate].
Defined.

(** Left, right, left on a fresh HIIT session: three reps. *)
Lemma alternating_knees_count_each_raise_witness :
  let leftUp := kneesFrame 1 0 2 in
  let rightUp := kneesFrame 1 2 0 in
  repCount (frames HIIT mountRender [leftUp; rightUp; leftUp] kneesReady)
  = 3%Z.
Proof.
  intros leftUp rightUp.
  assert (Hl : kneesSeen true false leftUp)
    by (apply (kneesFrame_single 1 0 2 true); lra).
  assert (Hr : kneesSeen false true rightUp)
    by (apply (kneesFrame_single 1 0 2 false); lra).
  assert (H : Forall2 (fun side l => kneesSeen side (negb side) l)
                [true; false; true] [leftUp; rightUp; leftUp])
    by (repeat constructor; assumption).
  refine (proj1 alternating_knees_count_each_raise mountRender
            [true; false; true] [leftUp; rightUp; leftUp] kneesReady H _ _).
  - intros side rest E. injection E as <- _. discriminate.
  - cbn. repeat split; discriminate.
Defined.

(** ** Warrior pose and running form *)

Lemma warriorTrigger_keeps (r : Render.t) (issue pd : string) (st : Store) :
  let st' := warriorTrigger r issue pd st in
  stage st' = stage st /\ repCount st' = repCount st /\ timer st' = timer st
  /\ isPoseCorrect st' = isPoseCorrect st /\ feedback st' = feedback st.
Proof.
  unfold warriorTrigger, getAICoaching.
  destruct (_ && _ && _ && _)%bool; destruct (Render.isLoadingAI r);
    cbn; repeat split.
Qed.


(** [analyzeWarriorPose] on a frame it lets through, by its two angles. *)
Lemma warrior_frame (r : Render.t) (l : Landmarks) (pd : string) (st : Store) :
  passes_gate Yoga l ->
  analyzeWarriorPose r l pd st
  = let armsAreStraight := Rltb 160 (warriorArmAngle l) in
    let kneeIsBent :=
      (Rltb 85 (warriorKneeAngle l) && Rltb (warriorKneeAngle l) 110)%bool in
    if (armsAreStraight && kneeIsBent)%bool then
      warriorTrigger r "User is holding the pose correctly." pd
        (setIsPoseCorrect true
           (if negb (Render.isPoseCorrect r)
            then setFeedback "Perfect form! Hold it strong." st else st))
    else
      let detectedIssue :=
        if Rleb (warriorKneeAngle l) 85 then
          "Front knee is bent too much. Ease up slightly."
        else if Rleb 110 (warriorKneeAngle l) then
          "Bend the front knee more to a 90-degree angle."
        else if negb armsAreStraight then
          "Arms are not fully extended. Reach out further!"
        else EmptyString in
      warriorTrigger r detectedIssue pd
        (setFeedback detectedIssue (setIsPoseCorrect false st)).
Proof.
  intros Hg.
  destruct (passes_Yoga l Hg)
    as (ls & rs & lk & lh & la & E1 & E2 & E3 & E4 & E5 & V).
  unfold analyzeWarriorPose, warriorArmAngle, warriorKneeAngle.
  rewrite E1, E2, E3, E4, E5, V. reflexivity.
Qed.

(** Case analysis on a comparison of reals, with its meaning. *)
Ltac case_Rltb a b :=
  let B := fresh "B" in
  destruct (Rltb a b) eqn:B;
  [apply Rltb_true in B | apply Rltb_false in B].

Ltac case_Rleb a b :=
  let B := fresh "B" in
  destruct (Rleb a b) eqn:B;
  [apply Rleb_true in B | apply Rleb_false in B].

(** X5.  On a frame that [analyzeWarriorPose] lets through, the pose is
    judged correct exactly when the arm angle is above 160 degrees and the
    knee angle strictly between 85 and 110; an incorrect pose always gets one
    of three messages, the knee bent too much before the knee not bent
    enough before the arms; a correct pose gets its message only if the
    render's flag was false; an absent left wrist, which the first test does
    not require, makes the pose incorrect; and the stage, the rep count and
    the timer stay as they were. *)
Theorem warrior_pose_judgement :
  forall (r : Render.t) (l : Landmarks) (poseData : string) (st : Store),
    passes_gate Yoga l ->
    let st' := analyzeWarriorPose r l poseData st in
    let arm := warriorArmAngle l in
    let knee := warriorKneeAngle l in
    (isPoseCorrect st' = true <-> 160 < arm /\ 85 < knee /\ knee < 110)
    /\ (isPoseCorrect st' = true ->
        feedback st' = if Render.isPoseCorrect r then feedback st
                       else "Perfect form! Hold it strong.")
    /\ (knee <= 85 ->
        feedback st' = "Front knee is bent too much. Ease up slightly.")
    /\ (110 <= knee ->
        feedback st' = "Bend the front knee more to a 90-degree angle.")
    /\ (85 < knee -> knee < 110 -> arm <= 160 ->
        feedback st' = "Arms are not fully extended. Reach out further!")
    /\ (at_index l 15 = None -> isPoseCorrect st' = false)
    /\ stage st' = stage st /\ repCount st' = repCount st
    /\ timer st' = timer st.
Proof.
  intros r l poseData st Hg st' arm knee. subst st'.
  assert (Hw : at_index l 15 = None -> arm = 0)
    by (intros E; unfold arm, warriorArmAngle; now rewrite E).
  rewrite (warrior_frame r l poseData st Hg). cbv zeta.
  fold arm knee.
  case_Rltb 160 arm; case_Rltb 85 knee; case_Rltb knee 110; cbn [andb negb];
    match goal with
    | |- context [warriorTrigger r ?i poseData ?s] =>
        destruct (warriorTrigger_keeps r i poseData s)
          as (-> & -> & -> & -> & ->)
    end;
    case_Rleb knee 85; case_Rleb 110 knee;
    cbn [isPoseCorrect feedback stage repCount timer setIsPoseCorrect
         setFeedback];
    try (destruct (Render.isPoseCorrect r); cbn [negb]);
    repeat split; intros; try reflexivity; try discriminate; try lra;
    try (exfalso; rewrite Hw in * by assumption; lra);
    repeat match goal with H : _ /\ _ |- _ => destruct H end; try lra.
Qed.

(** [analyzeRunningForm] on a frame it lets through, by its angle. *)
Lemma running_frame (r : Render.t) (l : Landmarks) (pd : string) (st : Store) :
  passes_gate Running l ->
  analyzeRunningForm r l pd st
  = if Rltb (backAngle l) 165 then
      runningTrigger r
        "Slight slouch detected. Try to keep your back straighter." pd
        (setIsPoseCorrect false
           (if Render.isPoseCorrect r
            then setFeedback
                   "Slight slouch detected. Try to keep your back straighter."
                   st
            else st))
    else
      runningTrigger r "Excellent posture! Keep up the great pace." pd
        (setIsPoseCorrect true
           (if negb (Render.isPoseCorrect r)
            then setFeedback "Excellent posture! Keep up the great pace." st
            else st)).
Proof.
  intros Hg.
  destruct (passes_Running l Hg) as (ls & lh & lk & E1 & E2 & E3 & V1 & V2).
  unfold analyzeRunningForm, backAngle.
  rewrite E1, E2, E3, V1, V2. reflexivity.
Qed.


Lemma warriorBody_spec (arm knee : R) :
  0 <= arm <= 180 -> arm <> 90 -> 0 <= knee <= 180 -> knee <> 90 ->
  passes_gate Yoga (warriorBody arm knee)
  /\ warriorArmAngle (warriorBody arm knee) = arm
  /\ warriorKneeAngle (warriorBody arm knee) = knee.
Proof.
  intros Ha Ha' Hk Hk'. split; [| split].
  - intros [(i & Hi & He) | (i & p & Hi & He & Hv)]; simpl in Hi;
      repeat (destruct Hi as [<- | Hi]; [| try contradiction]);
      unfold warriorBody in He; rewrite at_index_frameOf in He by lia;
      try discriminate.
    injection He as <-. cbn [visibility pt] in Hv. lra.
  - unfold warriorArmAngle, warriorBody. rewrite !at_index_frameOf by lia.
    now apply armFrame_angle.
  - unfold warriorKneeAngle, warriorBody. rewrite !at_index_frameOf by lia.
    now apply armFrame_angle.
Qed.


(** Arms at 170 degrees and the knee at 100: the pose is correct. *)
Lemma warrior_pose_judgement_witness :
  passes_gate Yoga (warriorBody 170 100)
  /\ isPoseCorrect
       (analyzeWarriorPose mountRender (warriorBody 170 100) EmptyString
          initialStore) = true.
Proof.
  destruct (warriorBody_spec 170 100) as (Hg & Ha & Hk); try lra.
  split; [exact Hg |].
  refine (proj2 (proj1 (warrior_pose_judgement mountRender (warriorBody 170 100)
                          EmptyString initialStore Hg)) _).
  rewrite Ha, Hk. lra.
Defined.


(** ** What no analysis function does *)

(** Every test of the goal, one branch at a time. *)
Ltac analysis_branches :=
  repeat match goal with
    | |- context [if ?b then _ else _] => destruct b
    end.

(** Closes a footprint goal on an explicit store. *)
Ltac footprint_done :=
  unfold frameFootprint; cbn;
  (split; [repeat split |]);
  (split; [auto |]);
  (split; [first [ left; repeat split; reflexivity
                 | right; eexists; refine (conj _ (conj eq_refl _));
                   [reflexivity
                   | first [ left; repeat split; reflexivity
                           | right; repeat split; reflexivity ] ] ] |]);
  repeat split; intros; try reflexivity;
  repeat match goal with H : _ \/ _ |- _ => destruct H end;
  discriminate.

(** The first test of an analysis function either turns a frame away or lets
    it through. *)
Lemma required_dec (l : Landmarks) (L : list nat) :
  (exists i, In i L /\ at_index l i = None)
  \/ (forall i, In i L -> exists p, at_index l i = Some p).
Proof.
  induction L as [| a L [IH | IH]].
  - right. intros i [].
  - left. destruct IH as (i & Hi & E). exists i. split; [now right | exact E].
  - destruct (at_index l a) as [p |] eqn:E.
    + right. intros i [<- | Hi]; [now exists p | now apply IH].
    + left. exists a. split; [now left | exact E].
Qed.

Lemma gated_dec (l : Landmarks) (L : list nat) :
  (exists i p, In i L /\ at_index l i = Some p /\ visibility p < 7 / 10)
  \/ (forall i p, In i L -> at_index l i = Some p -> lowVisibility p = false).
Proof.
  induction L as [| a L [IH | IH]].
  - right. intros i p [].
  - left. destruct IH as (i & p & Hi & E & V).
    exists i, p. split; [now right | now split].
  - destruct (at_index l a) as [p |] eqn:E.
    + destruct (lowVisibility_cases p) as [V | V].
      * left. exists a, p. split; [now left | now split].
      * right. intros i q [<- | Hi] Eq; [congruence | now apply (IH i)].
    + right. intros i q [<- | Hi] Eq; [congruence | now apply (IH i)].
Qed.

Lemma gate_dec (ex : Exercise) (l : Landmarks) :
  rejected_by_gate ex l \/ passes_gate ex l.
Proof.
  unfold passes_gate, rejected_by_gate.
  destruct (required_dec l (jointsRequired ex)) as [H | H]; [left; left; exact H |].
  destruct (gated_dec l (jointsGated ex)) as [G | G]; [left; right; exact G |].
  right. intros [(i & Hi & E) | (i & p & Hi & E & V)].
  - destruct (H i Hi) as (p & Ep). congruence.
  - pose proof (G i p Hi E) as V'. apply lowVisibility_false in V'. lra.
Qed.

(** What a frame that passes the test of [analyzeJumpingJacks] holds. *)
Lemma passes_Cardio (l : Landmarks) :
  passes_gate Cardio l -> exists legs arms, jackFrame legs arms l.
Proof.
  intros H.
  assert (Hreq : forall i, In i (jointsRequired Cardio) ->
                           exists p, at_index l i = Some p).
  { intros i Hi. destruct (at_index l i) as [p |] eqn:E; [now exists p |].
    exfalso. apply H. left. now exists i. }
  destruct (Hreq 11%nat) as (ls & E1); [simpl; tauto |].
  destruct (Hreq 12%nat) as (rs & E2); [simpl; tauto |].
  destruct (Hreq 23%nat) as (lh & E3); [simpl; tauto |].
  destruct (Hreq 24%nat) as (rh & E4); [simpl; tauto |].
  destruct (Hreq 27%nat) as (la & E5); [simpl; tauto |].
  destruct (Hreq 28%nat) as (ra & E6); [simpl; tauto |].
  destruct (Hreq 15%nat) as (lw & E7); [simpl; tauto |].
  destruct (Hreq 16%nat) as (rw & E8); [simpl; tauto |].
  eexists _, _. exists ls, rs, lh, rh, la, ra, lw, rw.
  repeat split; try eassumption.
  destruct (lowVisibility_cases ls) as [V | V]; [| exact V].
  exfalso. apply H. right. exists 11%nat, ls. simpl. tauto.
Qed.

(** What a frame that passes the test of [analyzeHighKnees] holds. *)
Lemma passes_HIIT (l : Landmarks) :
  passes_gate HIIT l -> exists left right, kneesSeen left right l.
Proof.
  intros H.
  assert (Hreq : forall i, In i (jointsRequired HIIT) ->
                           exists p, at_index l i = Some p).
  { intros i Hi. destruct (at_index l i) as [p |] eqn:E; [now exists p |].
    exfalso. apply H. left. now exists i. }
  destruct (Hreq 23%nat) as (lh & E1); [simpl; tauto |].
  destruct (Hreq 25%nat) as (lk & E2); [simpl; tauto |].
  destruct (Hreq 24%nat) as (rh & E3); [simpl; tauto |].
  destruct (Hreq 26%nat) as (rk & E4); [simpl; tauto |].
  eexists _, _. exists lh, lk, rh, rk.
  repeat split; try eassumption.
  - destruct (lowVisibility_cases lh) as [V | V]; [| exact V].
    exfalso. apply H. right. exists 23%nat, lh. simpl. tauto.
  - destruct (lowVisibility_cases rh) as [V | V]; [| exact V].
    exfalso. apply H. right. exists 24%nat, rh. simpl. tauto.
Qed.

Lemma footprint_Strength (r : Render.t) (l : Landmarks) (pd : string)
    (st : Store) :
  frameFootprint Strength r st (analyzeBicepCurls r l pd st).
Proof.
  unfold frameFootprint.
  destruct (bicep_cases l st)
    as [Hr | [(Hp & Ha) | [(Hp & Ha & Hs) | (Hp & Ha & Hs)]]].
  - rewrite gate_Strength by exact Hr. footprint_done.
  - rewrite bicep_extended by assumption. analysis_branches; footprint_done.
  - rewrite bicep_curled by assumption.
    unfold setRepCountWith, bicepCurlsUpdater, getAICoaching.
    analysis_branches; footprint_done.
  - rewrite bicep_idle by assumption. footprint_done.
Qed.

Lemma footprint_Cardio (r : Render.t) (l : Landmarks) (pd : string)
    (st : Store) :
  frameFootprint Cardio r st (analyzeJumpingJacks r l pd st).
Proof.
  unfold frameFootprint.
  destruct (gate_dec Cardio l) as [Hr | Hp].
  - rewrite gate_Cardio by exact Hr. footprint_done.
  - destruct (passes_Cardio l Hp) as (legs & arms & H).
    rewrite (jumpingJacks_frame r l pd st legs arms H).
    analysis_branches; footprint_done.
Qed.

Lemma footprint_Yoga (r : Render.t) (l : Landmarks) (pd : string)
    (st : Store) :
  frameFootprint Yoga r st (analyzeWarriorPose r l pd st).
Proof.
  unfold frameFootprint.
  destruct (gate_dec Yoga l) as [Hr | Hp].
  - rewrite gate_Yoga by exact Hr. footprint_done.
  - rewrite (warrior_frame r l pd st Hp). cbv zeta.
    unfold warriorTrigger, getAICoaching.
    analysis_branches; footprint_done.
Qed.

Lemma footprint_HIIT (r : Render.t) (l : Landmarks) (pd : string)
    (st : Store) :
  frameFootprint HIIT r st (analyzeHighKnees r l pd st).
Proof.
  unfold frameFootprint.
  destruct (gate_dec HIIT l) as [Hr | Hp].
  - rewrite gate_HIIT by exact Hr. footprint_done.
  - destruct (passes_HIIT l Hp) as (left & right & H).
    rewrite (highKnees_frame r l pd st left right H).
    analysis_branches; footprint_done.
Qed.

Lemma footprint_Running (r : Render.t) (l : Landmarks) (pd : string)
    (st : Store) :
  frameFootprint Running r st (analyzeRunningForm r l pd st).
Proof.
  unfold frameFootprint.
  destruct (gate_dec Running l) as [Hr | Hp].
  - rewrite gate_Running by exact Hr. footprint_done.
  - rewrite (running_frame r l pd st Hp).
    unfold runningTrigger, getAICoaching.
    analysis_branches; footprint_done.
Qed.

(** X7.  Whatever the frame, an analysis function leaves the timer, the
    selected exercise, the engine status, the coaching message and the
    interval alone; it adds at most one rep and never removes one; it makes
    at most one coaching call, for its own exercise, and sends at most that
    one request, only if its render saw the in-flight flag unset.  Jumping
    jacks and high knees never call for coaching nor touch the pose-correct
    flag or the mark; the warrior pose and the running form never touch the
    stage or the rep count; bicep curls never touch the pose-correct flag. *)
Theorem analysis_frame_footprint :
  forall (ex : Exercise) (r : Render.t) (l : Landmarks) (poseData : string)
         (st : Store),
    let st' := analyze ex r l poseData st in
    (timer st' = timer st /\ activeExercise st' = activeExercise st
     /\ aiStatus st' = aiStatus st /\ aiCoachMessage st' = aiCoachMessage st
     /\ interval st' = interval st)
    /\ (repCount st' = repCount st \/ repCount st' = (repCount st + 1)%Z)
    /\ ((coachingCalls st' = coachingCalls st /\ inFlight st' = inFlight st
         /\ isLoadingAI st' = isLoadingAI st)
        \/ exists c : Context.t,
             Context.exercise c = ex
             /\ coachingCalls st' = coachingCalls st ++ [c]
             /\ ((Render.isLoadingAI r = true /\ inFlight st' = inFlight st
                  /\ isLoadingAI st' = isLoadingAI st)
                 \/ (Render.isLoadingAI r = false
                     /\ inFlight st' = inFlight st ++ [c]
                     /\ isLoadingAI st' = true)))
    /\ (ex = Cardio \/ ex = HIIT ->
        coachingCalls st' = coachingCalls st
        /\ isPoseCorrect st' = isPoseCorrect st
        /\ lastAITrigger st' = lastAITrigger st)
    /\ (ex = Yoga \/ ex = Running ->
        stage st' = stage st /\ repCount st' = repCount st)
    /\ (ex = Strength -> isPoseCorrect st' = isPoseCorrect st).
Proof.
  intros ex r l poseData st.
  destruct ex; cbn [analyze].
  - apply footprint_Strength.
  - apply footprint_Cardio.
  - apply footprint_Yoga.
  - apply footprint_HIIT.
  - apply footprint_Running.
Qed.

(** ** Changing the exercise *)

Lemma step_cases (st : Store) (ev : Event) :
  (timerDepsChanged st (handle ev st) = true
   /\ step st ev = timerEffect (handle ev st))
  \/ (timerDepsChanged st (handle ev st) = false
      /\ step st ev = handle ev st).
Proof.
  unfold step. destruct (timerDepsChanged st (handle ev st)); auto.
Qed.

(** The timer effect of a state whose pose is not correct. *)
Lemma timerEffect_not_correct (st : Store) :
  isPoseCorrect st = false ->
  timerEffect st = setTimer 0 (setIntervalLive false st).
Proof.
  intros H. unfold timerEffect. now rewrite H, andb_false_r.
Qed.

(** X8.  Selecting an exercise puts the session back to its initial values
    (stage start, mark 0, no rep, timer 0, pose not correct, no coaching
    message) under the new exercise, so the screen shows 0 and no coaching
    panel; it stops the interval; but it neither cancels the requests in
    flight nor clears the in-flight flag, so the reply to a request made
    before the change still brings the coaching panel back.  Selecting twice
    in a row is the same as selecting the second exercise alone. *)
Theorem exercise_change_resets_session :
  forall (st : Store) (exercise : Exercise),
    let st' := step st (ExerciseChange exercise) in
    (activeExercise st' = exercise /\ stage st' = start
     /\ lastAITrigger st' = 0%Z /\ repCount st' = 0%Z /\ timer st' = 0%Z
     /\ isPoseCorrect st' = false /\ aiCoachMessage st' = EmptyString
     /\ feedback st'
        = ("Switched to " ++ Exercise_name exercise ++ ". Get in position.")%string)
    /\ (shownCounter st' = 0%Z /\ coachPanelShown st' = false)
    /\ (timerInSync st -> interval st' = false)
    /\ (inFlight st' = inFlight st /\ isLoadingAI st' = isLoadingAI st
        /\ coachingCalls st' = coachingCalls st /\ aiStatus st' = aiStatus st)
    /\ (forall (i : nat) (o : FetchOutcome) (c : Context.t),
          nth_error (inFlight st) i = Some c ->
          coachPanelShown (step st' (Response i o)) = true)
    /\ (forall previous : Exercise,
          handleExerciseChange exercise (handleExerciseChange previous st)
          = handleExerciseChange exercise st).
Proof.
  intros st exercise st'.
  assert (Hh : isPoseCorrect (handle (ExerciseChange exercise) st) = false)
    by reflexivity.
  assert (Hfields :
    (activeExercise st' = exercise /\ stage st' = start
     /\ lastAITrigger st' = 0%Z /\ repCount st' = 0%Z /\ timer st' = 0%Z
     /\ isPoseCorrect st' = false /\ aiCoachMessage st' = EmptyString
     /\ feedback st'
        = ("Switched to " ++ Exercise_name exercise ++ ". Get in position.")%string)
    /\ (inFlight st' = inFlight st /\ isLoadingAI st' = isLoadingAI st
        /\ coachingCalls st' = coachingCalls st /\ aiStatus st' = aiStatus st)).
  { subst st'.
    destruct (step_cases st (ExerciseChange exercise)) as [(_ & ->) | (_ & ->)].
    - rewrite timerEffect_not_correct by exact Hh. repeat split.
    - repeat split. }
  destruct Hfields as (Hreset & Hkept).
  split; [exact Hreset |].
  destruct Hreset as (Ha & _ & _ & Hr & Ht & _ & Hm & _).
  split; [| split; [| split; [exact Hkept | split]]].
  - unfold shownCounter, coachPanelShown. rewrite Ht, Hr, Hm.
    split; [now destruct (_ || _)%bool | reflexivity].
  - intros Hsync. subst st'.
    destruct (step_cases st (ExerciseChange exercise)) as [(_ & ->) | (E & ->)].
    + now rewrite timerEffect_not_correct by exact Hh.
    + rewrite handle_interval, Hsync, <- (timerDepsChanged_false _ _ E).
      unfold holdRunning. rewrite Hh. apply andb_false_r.
  - intros i o c Hi.
    destruct Hkept as (Hf & _).
    destruct (callMistralAPI_never_rejects o) as (s & Hs & Hne).
    assert (Hmsg : aiCoachMessage (handle (Response i o) st') = s).
    { cbn [handle]. rewrite Hf, Hi, Hs. reflexivity. }
    unfold coachPanelShown.
    destruct (step_cases st' (Response i o)) as [(_ & ->) | (_ & ->)].
    + assert (E : aiCoachMessage (timerEffect (handle (Response i o) st'))
                  = aiCoachMessage (handle (Response i o) st')).
      { unfold timerEffect. analysis_branches; reflexivity. }
      rewrite E, Hmsg. destruct s; [contradiction | reflexivity].
    + rewrite Hmsg. destruct s; [contradiction | reflexivity].
  - intros previous. reflexivity.
Qed.

(** ** The mounted component analyses curls only *)

Lemma curlsOnly_timerEffect (st : Store) :
  curlsOnly st -> curlsOnly (timerEffect st).
Proof.
  intros (H1 & H2 & H3 & H4 & H5 & H6).
  rewrite timerEffect_not_correct by exact H1.
  repeat split; assumption.
Qed.

Lemma curlsOnly_frame (l : Landmarks) (pd : string) (st : Store) :
  curlsOnly st -> curlsOnly (analyzeBicepCurls mountRender l pd st).
Proof.
  intros (H1 & H2 & H3 & H4 & H5 & H6).
  destruct (bicep_cases l st)
    as [Hr | [(Hp & Ha) | [(Hp & Ha & Hs) | (Hp & Ha & Hs)]]].
  - rewrite gate_Strength by exact Hr. repeat split; assumption.
  - rewrite bicep_extended by assumption.
    destruct (Stage_eqb (stage st) up); repeat split; auto.
  - rewrite bicep_curled by assumption.
    set (st1 := setFeedback "Peak contraction! Lower slowly." (setStage up st)).
    destruct (curl_registered mountRender pd st1)
      as (Hn & Hst & Ht & Hpc & _ & _ & _ & Hi).
    destruct (updater_decision mountRender pd st1) as (Hyes & Hno).
    change (repCount st1) with (repCount st) in *.
    change (lastAITrigger st1) with (lastAITrigger st) in *.
    change (stage st1) with up in Hst.
    change (timer st1) with (timer st) in Ht.
    change (isPoseCorrect st1) with (isPoseCorrect st) in Hpc.
    change (interval st1) with (interval st) in Hi.
    unfold curlsOnly. rewrite Hn, Hst, Ht, Hpc, Hi.
    assert (Hrem : Z.rem (repCount st + 1) 5 = ((repCount st + 1) mod 5)%Z)
      by (apply Z.rem_mod_nonneg; lia).
    assert (Hmark : lastAITrigger
                      (setRepCountWith (bicepCurlsUpdater mountRender pd) st1)
                    = (5 * ((repCount st + 1) / 5))%Z).
    { destruct (Z.eq_dec ((repCount st + 1) mod 5) 0) as [H0 | H0].
      - destruct Hyes as (_ & ->).
        + unfold countMilestone. rewrite Hrem, H6.
          Z.div_mod_to_equations; lia.
        + Z.div_mod_to_equations; lia.
      - destruct Hno as (_ & ->).
        + unfold countMilestone. rewrite Hrem. tauto.
        + rewrite H6. Z.div_mod_to_equations; lia. }
    repeat split; auto; lia.
  - rewrite bicep_idle by assumption. repeat split; assumption.
Qed.

Lemma curlsOnly_handle (ev : Event) (st : Store) :
  curlsOnly st -> curlsOnly (handle ev st).
Proof.
  intros H. pose proof H as (H1 & H2 & H3 & H4 & H5 & H6).
  destruct ev as [| | [[| p ps] |] | | ex | i o]; cbn [handle onResults].
  - repeat split; assumption.
  - repeat split; assumption.
  - repeat split; assumption.
  - rewrite analyzePose_analyze. now apply curlsOnly_frame.
  - repeat split; assumption.
  - unfold tick. rewrite H3. exact H.
  - repeat split; auto; first [reflexivity | lia].
  - destruct (nth_error (inFlight st) i); [| exact H].
    unfold getAICoaching_resume. destruct (callMistralAPI o);
      repeat split; assumption.
Qed.

Lemma curlsOnly_step (st : Store) (ev : Event) :
  curlsOnly st -> curlsOnly (step st ev).
Proof.
  intros H. apply (curlsOnly_handle ev) in H.
  destruct (step_cases st ev) as [(_ & ->) | (_ & ->)];
    [now apply curlsOnly_timerEffect | exact H].
Qed.

Lemma curlsOnly_mounted : curlsOnly mountedStore.
Proof. repeat split; auto; first [reflexivity | lia]. Qed.

(** X9.  On the mounted component a frame with landmarks is analysed by
    [analyzeBicepCurls] whatever exercise is selected, because [onResults]
    dispatches on the exercise of the first render.  Hence, after any
    sequence of events, the pose-correct flag is false, the timer is zero
    and its interval is off, the stage is one of start, down and up, the rep
    count is not negative and the mark is the last multiple of five it
    reached; for Yoga and Running the screen shows 0. *)
Theorem mounted_component_analyses_curls_only :
  forall evs : list Event,
    let st := run evs mountedStore in
    (forall l : Landmarks,
        l <> [] ->
        step st (Results (Some l))
        = analyzeBicepCurls mountRender l (getPoseDataString l) st)
    /\ isPoseCorrect st = false /\ timer st = 0%Z /\ interval st = false
    /\ (stage st = start \/ stage st = down \/ stage st = up)
    /\ (0 <= repCount st)%Z
    /\ lastAITrigger st = (5 * (repCount st / 5))%Z
    /\ (activeExercise st = Yoga \/ activeExercise st = Running ->
        shownCounter st = 0%Z).
Proof.
  intros evs st.
  assert (H : curlsOnly st).
  { subst st. generalize mountedStore, curlsOnly_mounted.
    induction evs as [| ev evs IH]; intros s Hs; [exact Hs |].
    rewrite run_cons. apply IH. now apply curlsOnly_step. }
  destruct H as (H1 & H2 & H3 & H4 & H5 & H6).
  split; [intros l Hl; now apply step_Results |].
  repeat split; try assumption.
  intros He. unfold shownCounter.
  destruct He as [-> | ->]; cbn; exact H2.
Qed.

(** ** Replies to coaching requests *)




(** ** The route handler *)

(** X11.  The route answers 200, 400 or 500 and nothing else.  It calls the
    Mistral endpoint exactly when the API key is set and the request body
    yields a truthy [messages], and then with that key and those messages;
    the key is checked before the body is read, so without a key the answer
    is the configuration error whatever the request.  It answers 200
    exactly when, besides, the upstream response is OK, and then forwards the
    upstream body unchanged; 400 exactly when the key is set and [messages]
    is falsy; and every answer other than 200 carries an error text. *)
Theorem route_checks_before_calling :
  forall (Data : Type) (apiKey : option string) (request : Route.RequestBody)
         (upstream : Route.Upstream Data),
    let resp := fst (Route.POST apiKey request upstream) in
    let sent := snd (Route.POST apiKey request upstream) in
    let keySet := exists a k, apiKey = Some (String a k) in
    let messagesGiven :=
      exists m, request = Route.bodyParsed m /\ Route.truthy m = true in
    (Route.status resp = 200%Z \/ Route.status resp = 400%Z
     \/ Route.status resp = 500%Z)
    /\ ((exists u, sent = Some u) <-> keySet /\ messagesGiven)
    /\ (forall u, sent = Some u ->
        apiKey = Some (Route.bearer u)
        /\ request = Route.bodyParsed (Route.sentMessages u))
    /\ (~ keySet ->
        resp = Route.mkResponse 500
                 (Route.errorJson
                    "The server is missing the required API key configuration.")
        /\ sent = None)
    /\ (Route.status resp = 200%Z
        <-> keySet /\ messagesGiven
            /\ exists d, upstream = Route.upstreamOk d
                         /\ Route.body resp = Route.dataJson d)
    /\ (Route.status resp = 400%Z
        <-> keySet
            /\ exists m, request = Route.bodyParsed m
                         /\ Route.truthy m = false)
    /\ (Route.status resp <> 200%Z ->
        exists e, Route.body resp = Route.errorJson e).
Proof.
  intros Data apiKey request upstream resp sent keySet messagesGiven.
  subst resp sent keySet messagesGiven. unfold Route.POST, Route.failed.
  destruct apiKey as [[| a k] |];
    [| destruct request as [msg | m];
       [| destruct (Route.truthy m) eqn:T; cbn [negb];
          [destruct upstream as [msg | s [[| b t] |] | d] |]] |];
    cbn; repeat split; intros;
    repeat match goal with
      | H : exists _, _ |- _ => destruct H
      | H : _ /\ _ |- _ => destruct H
      | H : Some _ = Some _ |- _ => injection H as <-
      end;
    try discriminate; try lia; try congruence; try reflexivity;
    first [ solve [eauto 10]
          | match goal with
            | H : ~ (exists _, _) |- _ => exfalso; apply H; eauto
            end ].
Qed.

(** The store after the reply to a request in flight. *)
Lemma step_Response (o : FetchOutcome) (i : nat) (c : Context.t) (st : Store) :
  nth_error (inFlight st) i = Some c ->
  step st (Response i o)
  = setIsLoadingAI false
      (setAiCoachMessage
         (match callMistralAPI o with
          | resolved s => s
          | rejected => EmptyString
          end)
         (setInFlight (remove_nth i (inFlight st)) st)).
Proof.
  intros Hi.
  assert (Hh : handle (Response i o) st
               = getAICoaching_resume (callMistralAPI o)
                   (setInFlight (remove_nth i (inFlight st)) st))
    by (cbn [handle]; now rewrite Hi).
  destruct (step_cases st (Response i o)) as [(D & _) | (_ & ->)].
  - rewrite Hh in D. unfold getAICoaching_resume in D.
    rewrite timerDepsChanged_same in D;
      destruct (callMistralAPI o); try reflexivity; discriminate.
  - rewrite Hh. unfold getAICoaching_resume.
    now destruct (callMistralAPI o).
Qed.

(** X12.  The client behind the route.  Whenever the route answers anything
    but 200 (no API key, an unreadable request, an upstream failure) the
    text [callMistralAPI] resolves to is the fallback, so none of the
    route's error texts reaches the screen; when the route answers 200 the
    client resolves to what it would make of the upstream body itself.  The
    body the client sends always carries its messages, so the route never
    answers it with 400.  In the component, a request in flight whose reply
    comes from a route without an API key leaves the fallback as the
    coaching message. *)
Theorem coach_text_behind_route :
  forall (apiKey : option string) (request : Route.RequestBody)
         (upstream : Route.Upstream Route.Choices),
    let resp := fst (Route.POST apiKey request upstream) in
    (Route.status resp <> 200%Z ->
     callMistralAPI (Route.clientOutcome resp)
     = resolved "AI coach is temporarily unavailable.")
    /\ (forall choices : Route.Choices,
          Route.status resp = 200%Z ->
          Route.body resp = Route.dataJson choices ->
          upstream = Route.upstreamOk choices
          /\ callMistralAPI (Route.clientOutcome resp)
             = callMistralAPI (responseOk choices))
    /\ (request = Route.clientRequest -> Route.status resp <> 400%Z)
    /\ (forall (i : nat) (c : Context.t) (st : Store),
          nth_error (inFlight st) i = Some c ->
          apiKey = None ->
          aiCoachMessage (step st (Response i (Route.clientOutcome resp)))
          = "AI coach is temporarily unavailable.").
Proof.
  intros apiKey request upstream resp.
  assert (Hfail : Route.status resp <> 200%Z ->
                  fetchFailed (Route.clientOutcome resp) = true).
  { subst resp. unfold Route.POST, Route.failed, Route.clientOutcome.
    destruct apiKey as [[| a k] |];
      [| destruct request as [msg | m];
         [| destruct (Route.truthy m); cbn [negb];
            [destruct upstream as [msg | s [[| b t] |] | d] |]] |];
      cbn; intros H; congruence. }
  split; [| split; [| split]].
  - intros H. apply callMistralAPI_failed. now apply Hfail.
  - subst resp. unfold Route.POST, Route.failed, Route.clientOutcome.
    destruct apiKey as [[| a k] |];
      [| destruct request as [msg | m];
         [| destruct (Route.truthy m); cbn [negb];
            [destruct upstream as [msg | s [[| b t] |] | d] |]] |];
      cbn; intros choices Hs Hb; try discriminate.
    injection Hb as <-. now split.
  - intros ->. subst resp. unfold Route.POST, Route.failed, Route.clientRequest.
    destruct apiKey as [[| a k] |];
      [| destruct upstream as [msg | s [[| b t] |] | d] |];
      cbn; discriminate.
  - intros i c st Hi ->. subst resp. cbn [Route.POST fst].
    now rewrite (step_Response _ i c st Hi).
Qed.

(** The component asks a route that has no API key. *)
Lemma coach_text_behind_route_witness :
  aiCoachMessage
    (step awaitingReply
       (Response 0
          (Route.clientOutcome
             (fst (Route.POST None Route.clientRequest
                     (Route.upstreamOk (Some [Some "tip"])))))))
  = "AI coach is temporarily unavailable.".
Proof.
  exact (proj2 (proj2 (proj2
           (coach_text_behind_route None Route.clientRequest
              (Route.upstreamOk (Some [Some "tip"]))))) 0%nat
           (setOfFiveCall 5 EmptyString) awaitingReply eq_refl eq_refl).
Defined.

(** ** The summary string *)

(** [toFixed (0)] of an angle is a whole number of degrees from 0 to 180. *)
Lemma toFixed0_angle (a : R) :
  0 <= a <= 180 ->
  exists n : Z,
    (0 <= n <= 180)%Z /\ nearest a n /\ toFixed0 a = decimal n.
Proof.
  intros Ha. unfold toFixed0, decimal, nearest.
  destruct (archimed (a - / 2)) as (H1 & H2).
  set (n := Rdefinitions.up (a - / 2)) in *.
  exists n. repeat split; try lra.
  - assert (H : IZR (-1) < IZR n) by lra.
    apply lt_IZR in H. lia.
  - assert (H : IZR n < IZR 181) by lra.
    apply lt_IZR in H. lia.
Qed.

Lemma nearest_zero (n : Z) : nearest 0 n -> n = 0%Z.
Proof.
  unfold nearest. intros (H1 & H2).
  assert (Ha : IZR (-1) < IZR n) by lra.
  assert (Hb : IZR n < IZR 1) by lra.
  apply lt_IZR in Ha, Hb. lia.
Qed.

(** X13.  The summary string of a frame always has the same shape, with four
    whole numbers of degrees between 0 and 180, each the whole number nearest
    to the angle it reports; an angle one of whose joints is absent is
    reported as 0. *)
Theorem pose_summary_reports_whole_degrees :
  forall l : Landmarks,
    exists a b c d : Z,
      getPoseDataString l
      = ("Key Angles: L-Arm(" ++ decimal a ++ "°), R-Arm(" ++ decimal b
         ++ "°), L-Leg(" ++ decimal c ++ "°), R-Leg(" ++ decimal d
         ++ "°)")%string
      /\ ((0 <= a <= 180)%Z /\ (0 <= b <= 180)%Z /\ (0 <= c <= 180)%Z
          /\ (0 <= d <= 180)%Z)
      /\ nearest
           (calculateAngle (at_index l 11) (at_index l 13) (at_index l 15)) a
      /\ nearest
           (calculateAngle (at_index l 12) (at_index l 14) (at_index l 16)) b
      /\ nearest
           (calculateAngle (at_index l 23) (at_index l 25) (at_index l 27)) c
      /\ nearest
           (calculateAngle (at_index l 24) (at_index l 26) (at_index l 28)) d
      /\ (at_index l 11 = None \/ at_index l 13 = None \/ at_index l 15 = None
          -> a = 0%Z)
      /\ (at_index l 12 = None \/ at_index l 14 = None \/ at_index l 16 = None
          -> b = 0%Z)
      /\ (at_index l 23 = None \/ at_index l 25 = None \/ at_index l 27 = None
          -> c = 0%Z)
      /\ (at_index l 24 = None \/ at_index l 26 = None \/ at_index l 28 = None
          -> d = 0%Z).
Proof.
  intros l.
  destruct (toFixed0_angle _ (calculateAngle_range (at_index l 11)
              (at_index l 13) (at_index l 15))) as (a & Ba & Na & Ea).
  destruct (toFixed0_angle _ (calculateAngle_range (at_index l 12)
              (at_index l 14) (at_index l 16))) as (b & Bb & Nb & Eb).
  destruct (toFixed0_angle _ (calculateAngle_range (at_index l 23)
              (at_index l 25) (at_index l 27))) as (c & Bc & Nc & Ec).
  destruct (toFixed0_angle _ (calculateAngle_range (at_index l 24)
              (at_index l 26) (at_index l 28))) as (d & Bd & Nd & Ed).
  exists a, b, c, d.
  split; [unfold getPoseDataString; now rewrite Ea, Eb, Ec, Ed |].
  split; [auto |].
  repeat split; try assumption; try apply Na; try apply Nb; try apply Nc;
    try apply Nd;
    intros H; apply nearest_zero;
    match goal with
    | N : nearest (calculateAngle ?x ?y ?z) ?n |- nearest 0 ?n =>
        now rewrite <- (calculateAngle_absent x y z H)
    end.
Qed.

(** ** The component without coaching *)

Lemma page_Strength (r : Render.t) (l : Landmarks) (pd : string) (st : Store) :
  let a := analyzeBicepCurls r l pd st in
  let b := Page.analyzeBicepCurls l st in
  sessionView a = sessionView b
  /\ lastAITrigger b = lastAITrigger st /\ coachingCalls b = coachingCalls st
  /\ inFlight b = inFlight st /\ isLoadingAI b = isLoadingAI st
  /\ aiCoachMessage b = aiCoachMessage st.
Proof.
  unfold analyzeBicepCurls, Page.analyzeBicepCurls, sessionView,
    setRepCountWith, bicepCurlsUpdater, getAICoaching.
  split_lookups l; analysis_branches; cbn; repeat split.
Qed.

Lemma page_Cardio (r : Render.t) (l : Landmarks) (pd : string) (st : Store) :
  let a := analyzeJumpingJacks r l pd st in
  let b := Page.analyzeJumpingJacks l st in
  a = b
  /\ lastAITrigger b = lastAITrigger st /\ coachingCalls b = coachingCalls st
  /\ inFlight b = inFlight st /\ isLoadingAI b = isLoadingAI st
  /\ aiCoachMessage b = aiCoachMessage st.
Proof.
  split; [reflexivity |].
  destruct (footprint_Cardio r l pd st)
    as ((_ & _ & _ & Hm & _) & _ & Hc & Hk & _).
  destruct (Hk (or_introl eq_refl)) as (Hcalls & _ & Hmark).
  change (Page.analyzeJumpingJacks l st) with (analyzeJumpingJacks r l pd st).
  destruct Hc as [(_ & Hi & Hl) | (c & _ & Hbad & _)].
  - repeat split; assumption.
  - rewrite Hcalls in Hbad. apply (f_equal (@List.length _)) in Hbad.
    rewrite length_app in Hbad. cbn in Hbad. lia.
Qed.

Lemma page_HIIT (r : Render.t) (l : Landmarks) (pd : string) (st : Store) :
  let a := analyzeHighKnees r l pd st in
  let b := Page.analyzeHighKnees l st in
  a = b
  /\ lastAITrigger b = lastAITrigger st /\ coachingCalls b = coachingCalls st
  /\ inFlight b = inFlight st /\ isLoadingAI b = isLoadingAI st
  /\ aiCoachMessage b = aiCoachMessage st.
Proof.
  split; [reflexivity |].
  destruct (footprint_HIIT r l pd st)
    as ((_ & _ & _ & Hm & _) & _ & Hc & Hk & _).
  destruct (Hk (or_intror eq_refl)) as (Hcalls & _ & Hmark).
  change (Page.analyzeHighKnees l st) with (analyzeHighKnees r l pd st).
  destruct Hc as [(_ & Hi & Hl) | (c & _ & Hbad & _)].
  - repeat split; assumption.
  - rewrite Hcalls in Hbad. apply (f_equal (@List.length _)) in Hbad.
    rewrite length_app in Hbad. cbn in Hbad. lia.
Qed.

Lemma page_Yoga (r : Render.t) (l : Landmarks) (pd : string) (st : Store) :
  let a := analyzeWarriorPose r l pd st in
  let b := Page.analyzeWarriorPose r l st in
  sessionView a = sessionView b
  /\ lastAITrigger b = lastAITrigger st /\ coachingCalls b = coachingCalls st
  /\ inFlight b = inFlight st /\ isLoadingAI b = isLoadingAI st
  /\ aiCoachMessage b = aiCoachMessage st.
Proof.
  unfold analyzeWarriorPose, Page.analyzeWarriorPose, sessionView.
  destruct (at_index l 11) as [ls |]; [| cbn; repeat split].
  destruct (at_index l 12) as [rs |]; [| cbn; repeat split].
  destruct (at_index l 25) as [lk |]; [| cbn; repeat split].
  destruct (at_index l 23) as [lh |]; [| cbn; repeat split].
  destruct (at_index l 27) as [la |]; [| cbn; repeat split].
  destruct (lowVisibility ls); [cbn; repeat split |].
  set (arm := calculateAngle (at_index l 15) (Some ls) (Some rs)).
  set (knee := calculateAngle (Some lh) (Some lk) (Some la)).
  case_Rltb 160 arm; case_Rltb 85 knee; case_Rltb knee 110;
    case_Rleb knee 85; case_Rleb 110 knee; try lra; cbn [andb negb];
    match goal with
    | |- context [warriorTrigger r ?i pd ?s] =>
        destruct (warriorTrigger_keeps r i pd s) as (-> & -> & -> & -> & ->);
        assert (Ha : activeExercise (warriorTrigger r i pd s)
                     = activeExercise s)
          by (unfold warriorTrigger, getAICoaching;
              analysis_branches; reflexivity);
        rewrite Ha
    end;
    destruct (Render.isPoseCorrect r); cbn; repeat split.
Qed.

(** X14.  For the four exercises the two components share, one frame leaves
    the same stage, rep count, timer, pose-correct flag, exercise and
    message under the component with coaching as under the one of
    [page.tsx], which touches neither the mark nor the coaching cells; the
    two agree as well on what selecting an exercise leaves, and their timer
    effects are the same unless the exercise is Running. *)
Theorem coaching_version_refines_page :
  forall (r : Render.t) (l : Landmarks) (st : Store),
    Render.activeExercise r <> Running ->
    let a := analyzePose r l st in
    let b := Page.analyzePose r l st in
    sessionView a = sessionView b
    /\ (lastAITrigger b = lastAITrigger st
        /\ coachingCalls b = coachingCalls st
        /\ inFlight b = inFlight st /\ isLoadingAI b = isLoadingAI st
        /\ aiCoachMessage b = aiCoachMessage st)
    /\ (forall exercise : Exercise,
          sessionView (handleExerciseChange exercise st)
          = sessionView (Page.handleExerciseChange exercise st))
    /\ (activeExercise st <> Running -> timerEffect st = Page.timerEffect st).
Proof.
  intros r l st Hr a b. subst a b.
  unfold analyzePose, Page.analyzePose.
  split; [| split; [| split]].
  - destruct (Render.activeExercise r); try contradiction.
    + apply page_Strength.
    + now rewrite (proj1 (page_Cardio r l (getPoseDataString l) st)).
    + apply page_Yoga.
    + now rewrite (proj1 (page_HIIT r l (getPoseDataString l) st)).
  - destruct (Render.activeExercise r); try contradiction.
    + apply (page_Strength r l (getPoseDataString l) st).
    + apply (page_Cardio r l (getPoseDataString l) st).
    + apply (page_Yoga r l (getPoseDataString l) st).
    + apply (page_HIIT r l (getPoseDataString l) st).
  - intros exercise. reflexivity.
  - intros He. unfold timerEffect, Page.timerEffect.
    destruct (activeExercise st); try contradiction; cbn [Exercise_eqb orb];
      now rewrite ?orb_false_r.
Qed.

(** A bent arm shown to a Strength session with the arm lowered: both
    components count the rep. *)
Lemma coaching_version_refines_page_witness :
  let l := armFrame (wristAt 35) in
  sessionView (analyzePose mountRender l armLowered)
  = sessionView (Page.analyzePose mountRender l armLowered).
Proof.
  intros l.
  refine (proj1 (coaching_version_refines_page mountRender l armLowered _)).
  discriminate.
Defined.

(** ** Counters over the events *)

Lemma timerEffect_cells (st : Store) :
  repCount (timerEffect st) = repCount st
  /\ (timer (timerEffect st) = timer st \/ timer (timerEffect st) = 0%Z).
Proof. unfold timerEffect. analysis_branches; cbn; auto. Qed.

Lemma handle_counters (ev : Event) (st : Store) :
  let st' := handle ev st in
  ((repCount st' = repCount st /\ (ev = Tick \/ timer st' = timer st))
   \/ (repCount st' = (repCount st + 1)%Z /\ timer st' = timer st
       /\ exists l, ev = Results (Some l))
   \/ (repCount st' = 0%Z /\ timer st' = 0%Z
       /\ exists exercise, ev = ExerciseChange exercise))
  /\ (ev = Tick ->
      timer st' = timer st
      \/ (timer st' = (timer st + 1)%Z /\ interval st = true)).
Proof.
  destruct ev as [| | [[| p ps] |] | | ex | i o]; cbn [handle onResults];
    (split; [| intros E; try discriminate E]).
  - left. split; auto.
  - left. split; auto.
  - left. split; auto.
  - rewrite analyzePose_analyze.
    destruct (footprint_Strength mountRender (p :: ps)
                (getPoseDataString (p :: ps)) st)
      as ((Ht & _) & [Hc | Hc] & _).
    + left. split; auto.
    + right. left. split; [exact Hc | split; [exact Ht | eauto]].
  - left. split; auto.
  - left. split; [| now left]. unfold tick. now destruct (interval st).
  - unfold tick. destruct (interval st); cbn; auto.
  - right. right. repeat split. eauto.
  - left. destruct (nth_error (inFlight st) i); [| split; auto].
    unfold getAICoaching_resume.
    destruct (callMistralAPI o); split; auto.
Qed.

(** X15.  Over any event the rep count stays, grows by one (only on a frame
    with landmarks) or is reset to 0 (only by an exercise change); the timer
    stays, grows by one (only on a tick, the interval being live) or is reset
    to 0; neither ever becomes negative.  A frame without a person changes
    the feedback and nothing else, and running the timer effect a second time
    on its own result changes nothing. *)
Theorem counters_move_one_way :
  forall (st : Store) (ev : Event),
    let st' := step st ev in
    (repCount st' = repCount st
     \/ (repCount st' = (repCount st + 1)%Z /\ exists l, ev = Results (Some l))
     \/ (repCount st' = 0%Z /\ exists exercise, ev = ExerciseChange exercise))
    /\ (timer st' = timer st
        \/ (timer st' = (timer st + 1)%Z /\ ev = Tick /\ interval st = true)
        \/ timer st' = 0%Z)
    /\ ((0 <= repCount st)%Z -> (0 <= repCount st')%Z)
    /\ ((0 <= timer st)%Z -> (0 <= timer st')%Z)
    /\ (ev = Results None \/ ev = Results (Some []) ->
        st' = setFeedback
                "No person detected. Position yourself in the camera's view."
                st)
    /\ timerEffect (timerEffect st) = timerEffect st.
Proof.
  intros st ev st'.
  assert (Hrep :
    repCount st' = repCount st
    \/ (repCount st' = (repCount st + 1)%Z /\ exists l, ev = Results (Some l))
    \/ (repCount st' = 0%Z /\ exists exercise, ev = ExerciseChange exercise)).
  { subst st'. destruct (handle_counters ev st) as (H & _).
    destruct (timerEffect_cells (handle ev st)) as (Hr & _).
    destruct (step_cases st ev) as [(_ & ->) | (_ & ->)]; rewrite ?Hr;
      destruct H as [(H & _) | [(H & _ & Hl) | (H & _ & He)]]; auto. }
  assert (Htim :
    timer st' = timer st
    \/ (timer st' = (timer st + 1)%Z /\ ev = Tick /\ interval st = true)
    \/ timer st' = 0%Z).
  { subst st'. destruct (handle_counters ev st) as (H & HT).
    destruct (timerEffect_cells (handle ev st)) as (_ & Ht).
    assert (Hh : timer (handle ev st) = timer st
                 \/ (timer (handle ev st) = (timer st + 1)%Z /\ ev = Tick
                     /\ interval st = true)
                 \/ timer (handle ev st) = 0%Z).
    { destruct H as [(_ & [E | H]) | [(_ & H & _) | (_ & H & _)]]; auto.
      destruct (HT E) as [H | (H & Hi)]; auto. }
    destruct (step_cases st ev) as [(_ & ->) | (_ & ->)]; [| exact Hh].
    destruct Ht as [-> | ->]; auto. }
  split; [exact Hrep | split; [exact Htim | split; [| split; [| split]]]].
  - intros H0. destruct Hrep as [-> | [(-> & _) | (-> & _)]]; lia.
  - intros H0. destruct Htim as [-> | [(-> & _) | ->]]; lia.
  - intros [-> | ->]; subst st'; unfold step; cbn [handle onResults];
      rewrite timerDepsChanged_same; reflexivity.
  - unfold timerEffect.
    destruct (aiStatus st) eqn:E1, (activeExercise st) eqn:E2,
      (isPoseCorrect st) eqn:E3; cbn; rewrite ?E1, ?E2, ?E3; reflexivity.
Qed.

(** ** The feedback of [LiveAi] *)

Lemma visible_true (p : option Landmark) :
  LiveAi.visible p = true <-> exists q, p = Some q /\ 5 / 10 < visibility q.
Proof.
  destruct p as [q |]; cbn.
  - rewrite Rltb_true. split; [intros H; now exists q |].
    intros (q' & E & H). now injection E as ->.
  - split; [discriminate | intros (q & E & _); discriminate].
Qed.

Lemma armVisible_reflect (l : Landmarks) :
  (LiveAi.visible (at_index l 11) && LiveAi.visible (at_index l 13)
   && LiveAi.visible (at_index l 15))%bool = true
  <-> LiveAi.armVisible l.
Proof.
  rewrite !andb_true_iff, !visible_true. unfold LiveAi.armVisible. split.
  - intros (((s & Es & Vs) & (e & Ee & Ve)) & (w & Ew & Vw)).
    exists s, e, w. auto 7.
  - intros (s & e & w & Es & Ee & Ew & Vs & Ve & Vw). eauto 9.
Qed.

Lemma legVisible_reflect (l : Landmarks) :
  (LiveAi.visible (at_index l 23) && LiveAi.visible (at_index l 25)
   && LiveAi.visible (at_index l 27))%bool = true
  <-> LiveAi.legVisible l.
Proof.
  rewrite !andb_true_iff, !visible_true. unfold LiveAi.legVisible. split.
  - intros (((s & Es & Vs) & (e & Ee & Ve)) & (w & Ew & Vw)).
    exists s, e, w. auto 7.
  - intros (s & e & w & Es & Ee & Ew & Vs & Ve & Vw). eauto 9.
Qed.

(** Case analysis on a gate of [LiveAi], with its meaning. *)
Ltac case_gate H lemma l :=
  match goal with
  | |- context [if ?b then _ else _] =>
      destruct b eqn:H;
      [apply (proj1 (lemma l)) in H
      | assert (~ _) by (intros Hv; apply (proj2 (lemma l)) in Hv;
                         congruence); clear H]
  end.

(** X16.  Each analysis function of [LiveAi] sets one of its four messages,
    decided by the frame alone.  The visibility message appears exactly when
    one of the three joints is absent or has visibility at most 0.5.
    Otherwise bicep curls report the down position above 160 degrees, the
    curled position below 30 and progress in between; squats report standing
    above 160 degrees, good depth below 90 and ask for lower hips in
    between; the overhead press reports the top position above 160 degrees
    with the wrist above the elbow, the down position strictly between 60 and
    90 degrees with the wrist not above the elbow, and progress otherwise.
    Without an exercise every frame gets the invitation to select one, and a
    result without landmarks leaves the feedback as it was. *)
Theorem live_feedback_classifies_frame :
  forall l : Landmarks,
    let angle := elbowAngle l in
    let knee := LiveAi.kneeAngle l in
    ((LiveAi.analyzeBicepCurls l = "Make sure your left arm is fully visible."
      <-> ~ LiveAi.armVisible l)
     /\ (LiveAi.analyzeBicepCurls l = "Correct: Down position"
         <-> LiveAi.armVisible l /\ 160 < angle)
     /\ (LiveAi.analyzeBicepCurls l = "Correct: Curled position"
         <-> LiveAi.armVisible l /\ angle < 30)
     /\ (LiveAi.analyzeBicepCurls l = "In Progress..."
         <-> LiveAi.armVisible l /\ 30 <= angle <= 160))
    /\ ((LiveAi.analyzeSquats l = "Make sure your left leg is fully visible."
         <-> ~ LiveAi.legVisible l)
        /\ (LiveAi.analyzeSquats l = "Correct: Standing position"
            <-> LiveAi.legVisible l /\ 160 < knee)
        /\ (LiveAi.analyzeSquats l = "Good depth! Press up."
            <-> LiveAi.legVisible l /\ knee < 90)
        /\ (LiveAi.analyzeSquats l = "Lower your hips."
            <-> LiveAi.legVisible l /\ 90 <= knee <= 160))
    /\ ((LiveAi.analyzeOverheadPress l
         = "Make sure your left arm is fully visible."
         <-> ~ LiveAi.armVisible l)
        /\ (LiveAi.analyzeOverheadPress l = "Correct: Top position"
            <-> LiveAi.armVisible l /\ 160 < angle /\ LiveAi.armUp l)
        /\ (LiveAi.analyzeOverheadPress l
            = "Correct: Down position. Press up!"
            <-> LiveAi.armVisible l /\ 60 < angle < 90 /\ ~ LiveAi.armUp l)
        /\ (LiveAi.analyzeOverheadPress l = "In Progress..."
            <-> LiveAi.armVisible l
                /\ ~ (160 < angle /\ LiveAi.armUp l)
                /\ ~ (60 < angle < 90 /\ ~ LiveAi.armUp l)))
    /\ (forall feedback : string,
          LiveAi.onResults None (Some l) feedback
          = "Select an exercise to begin."
          /\ forall exercise, LiveAi.onResults exercise None feedback = feedback).
Proof.
  intros l angle knee.
  split; [| split; [| split]].
  - unfold LiveAi.analyzeBicepCurls. fold (elbowAngle l). fold angle.
    case_gate G armVisible_reflect l.
    + case_Rltb 160 angle; [| case_Rltb angle 30];
        repeat split; intros; try discriminate; try tauto; try lra;
        try (intros; exfalso; tauto);
        repeat match goal with H : _ /\ _ |- _ => destruct H end;
        try lra; try contradiction.
    + repeat split; intros; try discriminate; try tauto;
        repeat match goal with H : _ /\ _ |- _ => destruct H end;
        contradiction.
  - unfold LiveAi.analyzeSquats. fold (LiveAi.kneeAngle l). fold knee.
    case_gate G legVisible_reflect l.
    + case_Rltb 160 knee; [| case_Rltb knee 90];
        repeat split; intros; try discriminate; try tauto; try lra;
        try (intros; exfalso; tauto);
        repeat match goal with H : _ /\ _ |- _ => destruct H end;
        try lra; try contradiction.
    + repeat split; intros; try discriminate; try tauto;
        repeat match goal with H : _ /\ _ |- _ => destruct H end;
        contradiction.
  - unfold LiveAi.analyzeOverheadPress, LiveAi.armUp.
    fold (elbowAngle l). fold angle.
    case_gate G armVisible_reflect l.
    + case_Rltb 160 angle; case_Rltb angle 90; case_Rltb 60 angle;
        case_Rltb (LiveAi.height (at_index l 15))
                  (LiveAi.height (at_index l 13));
        cbn [andb negb];
        repeat split; intros; try discriminate; try tauto; try lra;
        repeat match goal with H : _ /\ _ |- _ => destruct H end;
        try lra; try contradiction;
        try (intros (? & ?); lra); try (intros ((? & ?) & ?); lra).
    + repeat split; intros; try discriminate; try tauto;
        repeat match goal with H : _ /\ _ |- _ => destruct H end;
        contradiction.
  - intros feedback. split; [reflexivity | intros exercise; reflexivity].
Qed.

Lemma onResults_forgets (exercise : option LiveAi.ExerciseType)
    (l : Landmarks) (feedback feedback' : string) :
  LiveAi.onResults exercise (Some l) feedback
  = LiveAi.onResults exercise (Some l) feedback'.
Proof. reflexivity. Qed.

Lemma onResults_analyses (e : LiveAi.ExerciseType) (l : Landmarks)
    (feedback : string) :
  LiveAi.onResults (Some e) (Some l) feedback <> "Select an exercise to begin.".
Proof.
  destruct e; cbn [LiveAi.onResults];
    unfold LiveAi.analyzeBicepCurls, LiveAi.analyzeSquats,
      LiveAi.analyzeOverheadPress;
    repeat match goal with
           | |- context [if ?b then _ else _] => destruct b
           end; discriminate.
Qed.

(** X17.  [LiveAi] keeps no memory of the movement: after any series of
    detector results the feedback is the judgement of the latest result that
    had landmarks, whatever came before it, and it is the feedback the series
    started with when no result had landmarks.  With an exercise selected that
    judgement is never the invitation to select one, and the list of
    [ExerciseList] offers each exercise on exactly one button. *)
Theorem live_feedback_is_latest_judgement :
  forall (exercise : option LiveAi.ExerciseType)
         (results : list (option Landmarks)) (feedback : string),
    match latestPose results with
    | Some l =>
        (forall earlier : string,
           liveFeedback exercise results feedback
           = LiveAi.onResults exercise (Some l) earlier)
        /\ (exercise <> None ->
            liveFeedback exercise results feedback
            <> "Select an exercise to begin.")
    | None => liveFeedback exercise results feedback = feedback
    end
    /\ forall e : LiveAi.ExerciseType,
         exists i : nat,
           LiveAi.buttonSelects i = Some e
           /\ forall j : nat, LiveAi.buttonSelects j = Some e -> j = i.
Proof.
  intros exercise results feedback. split.
  - assert (H : match latestPose results with
                | Some l =>
                    forall earlier : string,
                      liveFeedback exercise results feedback
                      = LiveAi.onResults exercise (Some l) earlier
                | None => liveFeedback exercise results feedback = feedback
                end).
    { revert feedback.
      induction results as [| poseLandmarks rest IH]; intros feedback;
        [reflexivity |].
      cbn [latestPose]. unfold liveFeedback. cbn [fold_left].
      fold (liveFeedback exercise rest
              (LiveAi.onResults exercise poseLandmarks feedback)).
      specialize (IH (LiveAi.onResults exercise poseLandmarks feedback)).
      destruct (latestPose rest) as [l |]; [exact IH |].
      rewrite IH.
      destruct poseLandmarks as [l |]; [| reflexivity].
      intros earlier. apply onResults_forgets. }
    destruct (latestPose results) as [l |]; [| exact H].
    split; [exact H |].
    intros Hex. rewrite (H EmptyString).
    destruct exercise as [e |]; [| contradiction].
    apply onResults_analyses.
  - intros e.
    destruct e;
      [exists 0%nat | exists 1%nat | exists 2%nat];
      (split; [reflexivity |]);
      intros j Hj;
      do 3 (destruct j as [| j]; [try reflexivity; discriminate |]);
      destruct j; discriminate.
Qed.
